(** * GPU offload support: TLAB donation (HSAIL) and the PTX driver bridge

    A shallow embedding of
    - [src/gpu/hsail/vm/gpu_hsail_Tlab.hpp]: [HSAILTlabInfo] and
      [HSAILAllocationInfo] (construction and [postKernelCleanup]);
    - [src/gpu/ptx/vm/gpu_ptx.cpp]: [ncores], [initialize_gpu],
      [total_cores], [generate_kernel], [execute_kernel_from_vm],
      [execute_kernel], [execute_warp] and [probe_linkage].

    Conventions.
    - A [HeapWord*] is its byte address, a [Z]; [NULL] is 0.  Pointer
      arithmetic on [HeapWord*] moves in steps of [HeapWordSize] bytes.
    - The VM is LP64: [size_t] and [long] are 64 bits wide, [int] and
      [unsigned int] 32 bits; wrap-around is written out.
    - A pointer into the pool of [HSAILTlabInfo] records is the index of the
      slot it designates, counted from [_tlab_infos_pool_start].  The arena
      itself is a list; a load or store through an index that is not a slot
      of the arena is undefined behaviour in C++ and is reported as
      [OutOfArena].
    - Calls into the rest of the VM (the thread's TLAB, the heap) and into
      the CUDA driver are recorded, in order, in a call log next to the state
      they change.
    - The count of overflows that [Hsail::kernelStats] keeps is part of the
      VM state; the one statement of the header that would add to it,
      [Hsail::kernelStats.incOverflows()], is a comment in the source.
    - Of the lines printed on [tty] under [TraceGPUInteraction], those of
      [postKernelCleanup] that report an overflow or the total of bytes and
      those of gpu_ptx.cpp are kept; the other trace lines of the header read
      state and change nothing, and are left out. *)

From Stdlib Require Import ZArith Lia Bool List String.
From stdpp Require Import base option list functions gmap strings fin_maps.

#[local] Open Scope Z_scope.

(** ** Machine integers *)

Module Machine.

Definition size_t_modulus : Z := 2 ^ 64.
Definition int_modulus : Z := 2 ^ 32.

(** Conversion to [size_t]: reduction modulo 2^64. *)
Definition to_size_t (z : Z) : Z := z mod size_t_modulus.

(** Conversion to [long] (the two's complement reading of 64 bits). *)
Definition to_long (z : Z) : Z :=
  (z + 2 ^ 63) mod size_t_modulus - 2 ^ 63.

(** Conversion to [unsigned int]. *)
Definition to_uint (z : Z) : Z := z mod int_modulus.

(** Conversion to [int] (the two's complement reading of 32 bits). *)
Definition to_int (z : Z) : Z :=
  (z + 2 ^ 31) mod int_modulus - 2 ^ 31.

End Machine.

(** ** Outcomes of code that may stop the VM or leave the arena *)

Inductive Outcome (A : Type) : Type :=
| Done (a : A)
| Fatal (msg : string)
| OutOfArena (slot : nat).

Arguments Done {A} a.
Arguments Fatal {A} msg.
Arguments OutOfArena {A} slot.

#[global] Instance Outcome_ret : MRet Outcome := fun A a => Done a.

#[global] Instance Outcome_bind : MBind Outcome := fun A B f m =>
  match m with
  | Done a => f a
  | Fatal msg => Fatal msg
  | OutOfArena slot => OutOfArena slot
  end.

(** ** gpu_hsail_Tlab.hpp *)

Module Tlab.

Definition NULL : Z := 0.
Definition HeapWordSize : Z := 8.

(** [p + n] on a [HeapWord*]. *)
Definition ptr_add (p n : Z) : Z := p + n * HeapWordSize.

(** [p - q] on two [HeapWord*]: the distance in words. *)
Definition ptr_diff (p q : Z) : Z := (p - q) ÷ HeapWordSize.

Definition JavaThread : Type := nat.

#[global] Instance JavaThread_eq_dec : EqDecision JavaThread := Nat.eq_dec.

Record HSAILTlabInfo : Type := mkTlabInfo {
  _start : Z;
  _top : Z;
  _end : Z;
  _last_good_top : Z;
  _original_top : Z;
  _donor_thread : JavaThread;
  _alloc_info : Z
}.

(** Accessors *)
Definition start (r : HSAILTlabInfo) : Z := _start r.
Definition top (r : HSAILTlabInfo) : Z := _top r.
Definition end_ (r : HSAILTlabInfo) : Z := _end r.
Definition last_good_top (r : HSAILTlabInfo) : Z := _last_good_top r.
Definition original_top (r : HSAILTlabInfo) : Z := _original_top r.

(** [HSAILTlabInfo::initialize]: five assignments; [_last_good_top] is not
    among them. *)
Definition initialize (r : HSAILTlabInfo)
    (start top end_ : Z) (donorThread : JavaThread) (allocInfo : Z)
  : HSAILTlabInfo :=
  {| _start := start;
     _top := top;
     _end := end_;
     _last_good_top := _last_good_top r;
     _original_top := top;
     _donor_thread := donorThread;
     _alloc_info := allocInfo |}.

(** [tlabInfo->_top = v] *)
Definition set_top (r : HSAILTlabInfo) (v : Z) : HSAILTlabInfo :=
  {| _start := _start r;
     _top := v;
     _end := _end r;
     _last_good_top := _last_good_top r;
     _original_top := _original_top r;
     _donor_thread := _donor_thread r;
     _alloc_info := _alloc_info r |}.

(** *** The rest of the VM, as far as this header calls it *)

(** The fields of a thread's [ThreadLocalAllocBuffer] read here. *)
Record ThreadLocalAllocBuffer : Type := mkTLAB {
  tlab_start : Z;
  tlab_top : Z;
  tlab_end : Z
}.

(** Calls that leave this header, in the order made. *)
Inductive VMCall : Type :=
| call_clear_before_allocation (t : JavaThread)
| call_allocate_new_tlab (size : Z) (result : Z)
| call_zero_to_words (addr : Z) (words : Z)
| call_fill (t : JavaThread) (start top : Z) (new_size : Z)
| call_make_parsable (t : JavaThread) (retire : bool).

(** Lines printed on [tty], with the numbers as their conversions ([%d],
    [%ld]) show them. *)
Inductive TtyLine : Type :=
| tty_pool_overflowed (units : Z)
| tty_tlabInfo_overflowed (slot : nat) (t : JavaThread) (bytes : Z) (last_good : Z)
| tty_total_bytes (bytes : Z).

(** What the VM is configured with and what its heap answers. *)
Record Runtime : Type := mkRuntime {
  TraceGPUInteraction : bool;
  ZeroTLAB : bool;
  (** [ThreadLocalAllocBuffer::alignment_reserve()], in words *)
  alignment_reserve : Z;
  (** [thread->tlab().compute_size(0)], in words; 0 when no TLAB fits *)
  compute_size : JavaThread -> Z;
  (** [Universe::heap()->unsafe_max_tlab_alloc(thread)], in bytes *)
  unsafe_max_tlab_alloc : JavaThread -> Z;
  (** [Universe::heap()->allocate_new_tlab(size)] for the k-th request
      made of the heap (k counts from 0); [NULL] when it has no room *)
  allocate_new_tlab : nat -> Z -> Z
}.

Record VM : Type := mkVM {
  tlabs : JavaThread -> ThreadLocalAllocBuffer;
  tlab_requests : nat;
  (** the overflows that [Hsail::kernelStats] has counted, the number that
      [incOverflows()] adds one to *)
  kernelStats_overflows : nat;
  calls : list VMCall;
  tty : list TtyLine
}.

Definition log_call (c : VMCall) (vm : VM) : VM :=
  {| tlabs := tlabs vm; tlab_requests := tlab_requests vm;
     kernelStats_overflows := kernelStats_overflows vm;
     calls := calls vm ++ [c]; tty := tty vm |}.

Definition print (l : TtyLine) (vm : VM) : VM :=
  {| tlabs := tlabs vm; tlab_requests := tlab_requests vm;
     kernelStats_overflows := kernelStats_overflows vm;
     calls := calls vm; tty := tty vm ++ [l] |}.

Definition set_tlab (t : JavaThread) (b : ThreadLocalAllocBuffer) (vm : VM) : VM :=
  {| tlabs := <[t := b]> (tlabs vm); tlab_requests := tlab_requests vm;
     kernelStats_overflows := kernelStats_overflows vm;
     calls := calls vm; tty := tty vm |}.

(** Modelled from the spec: [ThreadLocalAllocBuffer::fill] is not in this
    header.  Given a start, a top and a size it records start, top and end
    on the thread's allocation state.  The spec has no formula for the end:
    the one taken here, the start plus the size less the alignment reserve,
    is an assumption about that code, the rule under which the size that
    the cleanup passes, [(end - start) + alignment_reserve()], is the size
    of a region that ends at [end]. *)
Definition tlab_fill (rt : Runtime) (t : JavaThread)
    (start top : Z) (new_size : Z) (vm : VM) : VM :=
  set_tlab t
    {| tlab_start := start;
       tlab_top := top;
       tlab_end := ptr_add start (new_size - alignment_reserve rt) |}
    (log_call (call_fill t start top new_size) vm).

(** Modelled from the spec: [ThreadLocalAllocBuffer::make_parsable] is not
    in this header.  It makes the thread's region heap-parsable; with the
    retire flag the region is retired, and the thread is left without one.
    A thread that has no region (null end) is left as it is. *)
Definition tlab_make_parsable (t : JavaThread) (retire : bool) (vm : VM) : VM :=
  let vm' := log_call (call_make_parsable t retire) vm in
  if (tlab_end (tlabs vm t) =? NULL) || negb retire then vm'
  else set_tlab t {| tlab_start := NULL; tlab_top := NULL; tlab_end := NULL |} vm'.

(** Modelled from the spec: [ThreadLocalAllocBuffer::clear_before_allocation]
    is not in this header.  It retires whatever partial region exists on
    the thread, making it heap-parsable. *)
Definition tlab_clear_before_allocation (t : JavaThread) (vm : VM) : VM :=
  tlab_make_parsable t true (log_call (call_clear_before_allocation t) vm).

(** [Universe::heap()->allocate_new_tlab(size)] *)
Definition heap_allocate_new_tlab (rt : Runtime) (size : Z) (vm : VM) : Z * VM :=
  let p := allocate_new_tlab rt (tlab_requests vm) size in
  (p, log_call (call_allocate_new_tlab size p)
        {| tlabs := tlabs vm; tlab_requests := S (tlab_requests vm);
           kernelStats_overflows := kernelStats_overflows vm;
           calls := calls vm; tty := tty vm |}).

(** *** HSAILAllocationInfo *)

Record HSAILAllocationInfo : Type := mkAllocInfo {
  donorThreads : list JavaThread;
  _num_donor_threads : Z;
  _tlab_align_reserve_bytes : Z;
  (** one pool slot per donor thread; [None] is an element not yet written *)
  _cur_tlab_infos : list (option nat);
  (** the arena that starts at [_tlab_infos_pool_start] *)
  _tlab_infos_pool : list HSAILTlabInfo;
  _tlab_infos_pool_next : nat;
  _tlab_infos_pool_end : nat
}.

(** [getNewTlabForDonorThread(tlab, idx)], with [tlab] the TLAB of [t]. *)
Definition getNewTlabForDonorThread (rt : Runtime) (t : JavaThread) (idx : nat)
    (vm : VM) : bool * VM :=
  let vm := tlab_clear_before_allocation t vm in
  let new_tlab_size := compute_size rt t in
  if new_tlab_size =? 0 then (false, vm)
  else
    let '(tlab_start, vm) := heap_allocate_new_tlab rt new_tlab_size vm in
    if tlab_start =? NULL then (false, vm)
    else
      let vm := if ZeroTLAB rt
                then log_call (call_zero_to_words tlab_start new_tlab_size) vm
                else vm in
      (true, tlab_fill rt t tlab_start tlab_start new_tlab_size vm).

(** The size of the arena, computed from the first donor thread. *)
Definition compute_max_tlab_infos (rt : Runtime) (num_donor_threads : Z)
    (donorThread : JavaThread) : Z :=
  let new_tlab_size := compute_size rt donorThread in
  let heap_bytes_free := unsafe_max_tlab_alloc rt donorThread in
  if negb (new_tlab_size =? 0)
  then Z.min (heap_bytes_free / new_tlab_size)
             (Machine.to_size_t (Machine.to_int (64 * num_donor_threads)))
  else Machine.to_size_t (Machine.to_int (8 * num_donor_threads)).

(** The part of the object that the second loop of the constructor works
    on: the current-slot array, the arena and the VM. *)
Definition Building : Type := list (option nat) * list HSAILTlabInfo * VM.

(** One turn of the loop "we will fill the first N tlabInfos from the donor
    threads", for donor [i]. *)
Definition fill_from_donor (rt : Runtime) (this : Z) (i : nat)
    (donorThread : JavaThread) (b : Building) : Outcome Building :=
  let '(cur, pool, vm) := b in
  let vm := if tlab_end (tlabs vm donorThread) =? NULL
            then snd (getNewTlabForDonorThread rt donorThread i vm)
            else vm in
  let tlab := tlabs vm donorThread in
  (* pTlabInfo = &_tlab_infos_pool_start[i] *)
  match pool !! i with
  | None => OutOfArena i
  | Some pTlabInfo =>
      Done (<[i := Some i]> cur,
            <[i := initialize pTlabInfo (tlab_start tlab) (tlab_top tlab)
                     (tlab_end tlab) donorThread this]> pool,
            vm)
  end.

Fixpoint fill_from_donors (rt : Runtime) (this : Z) (i : nat)
    (donors : list JavaThread) (b : Building) : Outcome Building :=
  match donors with
  | [] => Done b
  | donorThread :: rest =>
      b' ← fill_from_donor rt this i donorThread b;
      fill_from_donors rt this (S i) rest b'
  end.

(** [HSAILAllocationInfo::HSAILAllocationInfo].  [donors] is the resolved
    array of donor threads, [this] the address of the object under
    construction, and [raw i] what the freshly allocated arena holds in
    slot [i] (C heap memory is handed out as it is). *)
Definition HSAILAllocationInfo_ctor (rt : Runtime) (this : Z)
    (raw : nat -> HSAILTlabInfo) (donors : list JavaThread)
    (dimX allocBytesPerWorkitem : Z) (vm : VM)
  : Outcome (HSAILAllocationInfo * VM) :=
  let num_donor_threads := Z.of_nat (length donors) in
  match donors with
  | [] => Fatal "need at least one donor thread"
  | donorThread0 :: _ =>
      let max_tlab_infos :=
        compute_max_tlab_infos rt num_donor_threads donorThread0 in
      let cur := replicate (length donors) None in
      let pool := raw <$> seq 0 (Z.to_nat max_tlab_infos) in
      '(cur, pool, vm) ← fill_from_donors rt this 0 donors (cur, pool, vm);
      mret ({| donorThreads := donors;
               _num_donor_threads := num_donor_threads;
               _tlab_align_reserve_bytes := alignment_reserve rt * HeapWordSize;
               _cur_tlab_infos := cur;
               _tlab_infos_pool := pool;
               _tlab_infos_pool_next := length donors;
               _tlab_infos_pool_end := Z.to_nat max_tlab_infos |}, vm)
  end.

Definition getCurTlabInfos (ai : HSAILAllocationInfo) : list (option nat) :=
  _cur_tlab_infos ai.

(** The locals and the state that the loop of [postKernelCleanup] carries
    from one tlabInfo to the next. *)
Record Sweep : Type := mkSweep {
  sw_pool : list HSAILTlabInfo;
  sw_vm : VM;
  sw_anyOverflows : bool;
  sw_bytesAllocated : Z
}.

(** The body of the loop of [postKernelCleanup], for the tlabInfo in slot
    [i]. *)
Definition cleanup_tlabInfo (rt : Runtime) (i : nat) (sw : Sweep) : Outcome Sweep :=
  match sw_pool sw !! i with
  | None => OutOfArena i
  | Some tlabInfo =>
      let donorThread := _donor_thread tlabInfo in
      if negb (start tlabInfo =? NULL) then
        let overflowed := top tlabInfo >? end_ tlabInfo in
        let anyOverflows := if overflowed then true else sw_anyOverflows sw in
        let vm :=
          if overflowed && TraceGPUInteraction rt
          then print (tty_tlabInfo_overflowed i donorThread
                        (Machine.to_long
                           (Machine.to_long (top tlabInfo)
                            - Machine.to_long (last_good_top tlabInfo)))
                        (last_good_top tlabInfo)) (sw_vm sw)
          else sw_vm sw in
        let tlabInfo :=
          if overflowed then set_top tlabInfo (last_good_top tlabInfo)
          else tlabInfo in
        let vm :=
          tlab_fill rt donorThread (start tlabInfo) (top tlabInfo)
            (Machine.to_size_t
               (ptr_diff (end_ tlabInfo) (start tlabInfo) + alignment_reserve rt))
            vm in
        let vm := if overflowed then tlab_make_parsable donorThread true vm else vm in
        let delta :=
          Machine.to_size_t
            (Machine.to_long (top tlabInfo)
             - Machine.to_long (original_top tlabInfo)) in
        Done {| sw_pool := <[i := tlabInfo]> (sw_pool sw);
                sw_vm := vm;
                sw_anyOverflows := anyOverflows;
                sw_bytesAllocated :=
                  Machine.to_size_t (sw_bytesAllocated sw + delta) |}
      else Done sw
  end.

(** The loop itself, over the slots from [_tlab_infos_pool_start] up to
    [_tlab_infos_pool_next]. *)
Fixpoint cleanup_loop (rt : Runtime) (slots : list nat) (sw : Sweep) : Outcome Sweep :=
  match slots with
  | [] => Done sw
  | i :: rest => sw' ← cleanup_tlabInfo rt i sw; cleanup_loop rt rest sw'
  end.

(** What [postKernelCleanup] leaves behind: the object, the VM, and the
    two locals [anyOverflows] and [bytesAllocated] as they stand when the
    function returns. *)
Record PostKernel : Type := mkPostKernel {
  info : HSAILAllocationInfo;
  vm_after : VM;
  anyOverflows : bool;
  bytesAllocated : Z
}.

(** The counter call under [if (anyOverflows)] is a comment in the source:
    the branch is empty, and nothing is added to [kernelStats_overflows]. *)
Definition postKernelCleanup (rt : Runtime) (ai : HSAILAllocationInfo) (vm : VM)
  : Outcome PostKernel :=
  let '(next, vm) :=
    if (_tlab_infos_pool_end ai <? _tlab_infos_pool_next ai)%nat then
      (_tlab_infos_pool_end ai,
       if TraceGPUInteraction rt
       then print (tty_pool_overflowed
                     (Machine.to_int (Z.of_nat (_tlab_infos_pool_next ai)
                                      - Z.of_nat (_tlab_infos_pool_end ai)))) vm
       else vm)
    else (_tlab_infos_pool_next ai, vm) in
  sw ← cleanup_loop rt (seq 0 next)
         {| sw_pool := _tlab_infos_pool ai; sw_vm := vm;
            sw_anyOverflows := false; sw_bytesAllocated := 0 |};
  let vm := if TraceGPUInteraction rt
            then print (tty_total_bytes (Machine.to_long (sw_bytesAllocated sw)))
                   (sw_vm sw)
            else sw_vm sw in
  mret {| info :=
            {| donorThreads := donorThreads ai;
               _num_donor_threads := _num_donor_threads ai;
               _tlab_align_reserve_bytes := _tlab_align_reserve_bytes ai;
               _cur_tlab_infos := _cur_tlab_infos ai;
               _tlab_infos_pool := sw_pool sw;
               _tlab_infos_pool_next := next;
               _tlab_infos_pool_end := _tlab_infos_pool_end ai |};
          vm_after := vm;
          anyOverflows := sw_anyOverflows sw;
          bytesAllocated := sw_bytesAllocated sw |}.

(** The arena ends where [_tlab_infos_pool_end] says it does. *)
Definition arena_bounded (ai : HSAILAllocationInfo) : Prop :=
  _tlab_infos_pool_end ai = length (_tlab_infos_pool ai).

(** The slots that [postKernelCleanup] goes through. *)
Definition swept_slots (ai : HSAILAllocationInfo) : list nat :=
  seq 0 (Nat.min (_tlab_infos_pool_next ai) (_tlab_infos_pool_end ai)).

End Tlab.

(** ** Function bodies with early [return]

    The functions of gpu_ptx.cpp are straight-line code over the process
    state in which every driver call is followed by a test of its status and,
    on failure, a [return].  [Body S R A] is such a piece of code: run on a
    state it either has returned [R] or goes on with an [A]. *)

Definition Body (S R A : Type) : Type := S -> S * (R + A).

#[global] Instance Body_ret {S R} : MRet (Body S R) :=
  fun A a s => (s, inr a).

#[global] Instance Body_bind {S R} : MBind (Body S R) :=
  fun A B f m s =>
    match m s with
    | (s', inl r) => (s', inl r)
    | (s', inr a) => f a s'
    end.

(** [return r;] *)
Definition return_ {S R A} (r : R) : Body S R A := fun s => (s, inl r).

(** A statement that changes the state. *)
Definition modify {S R} (f : S -> S) : Body S R unit := fun s => (f s, inr tt).

(** [if (b) { m }] *)
Definition when {S R} (b : bool) (m : Body S R unit) : Body S R unit :=
  if b then m else mret tt.

(** A whole function: whichever way the body ends, that is the result. *)
Definition run_body {S R} (m : Body S R R) (s : S) : S * R :=
  match m s with
  | (s', inl r) => (s', r)
  | (s', inr r) => (s', r)
  end.

(** ** gpu_ptx.cpp *)

Module Ptx.

Definition NULL : Z := 0.
Definition GRAAL_CUDA_SUCCESS : Z := 0.

(** [sizeof(gpu::Ptx::CUdeviceptr)] *)
Definition sizeof_CUdeviceptr : Z := 8.

(** [BasicType] is declared in globalDefinitions.hpp; these are the Java
    types a kernel can return. *)
Inductive BasicType : Type :=
| T_BOOLEAN | T_CHAR | T_FLOAT | T_DOUBLE | T_BYTE | T_SHORT
| T_INT | T_LONG | T_OBJECT | T_ARRAY | T_VOID.

Definition BasicType_code (t : BasicType) : Z :=
  match t with
  | T_BOOLEAN => 4 | T_CHAR => 5 | T_FLOAT => 6 | T_DOUBLE => 7
  | T_BYTE => 8 | T_SHORT => 9 | T_INT => 10 | T_LONG => 11
  | T_OBJECT => 12 | T_ARRAY => 13 | T_VOID => 14
  end.

(** Modelled from the spec: the macros [T_INT_BYTE_SIZE],
    [T_FLOAT_BYTE_SIZE], [T_DOUBLE_BYTE_SIZE], [T_LONG_BYTE_SIZE] and
    [T_OBJECT_BYTE_SIZE] come from ptxKernelArguments.hpp, which is not
    among the sources.  Return values are sized int/bool 4 bytes, float 4,
    double/long 8, object reference the platform pointer width. *)
Definition T_INT_BYTE_SIZE : Z := 4.
Definition T_FLOAT_BYTE_SIZE : Z := 4.
Definition T_DOUBLE_BYTE_SIZE : Z := 8.
Definition T_LONG_BYTE_SIZE : Z := 8.
Definition pointer_width : Z := 8.
Definition T_OBJECT_BYTE_SIZE : Z := pointer_width.

Inductive DeviceAttribute : Type :=
| COMPUTE_CAPABILITY_MINOR
| COMPUTE_CAPABILITY_MAJOR
| MULTIPROCESSOR_COUNT
| MAX_THREADS_PER_BLOCK
| WARP_SIZE
| ASYNC_ENGINE_COUNT
| CAN_MAP_HOST_MEMORY
| CONCURRENT_KERNELS.

(** The entry points of the driver that these functions call. *)
Inductive DriverCall : Type :=
| cuDeviceGetAttribute (attrib : DeviceAttribute) (dev : Z)
| cuMemAlloc (bytesize : Z)
| cuLaunchKernel (f : Z) (gridX gridY gridZ blockX blockY blockZ : Z)
| cuCtxSynchronize
| cuMemcpyDtoH (dptr : Z) (bytes : Z)
| cuMemFree (dptr : Z)
| cuCtxDestroy (ctx : Z).

(** What a call answers: its status, and what it wrote through its out
    parameter (an attribute, a device pointer, the bytes copied). *)
Record Reply : Type := mkReply { status : Z; value : Z }.

Definition Driver : Type := DriverCall -> Reply.

Record TtyLine : Type := mkLine { format : string; args : list Z }.

Inductive JavaValue : Type :=
| jint (v : Z) | jfloat (v : Z) | jdouble (v : Z) | jlong (v : Z).

Record Process : Type := mkProcess {
  _cu_device : Z;
  _device_context : Z;
  driver_calls : list DriverCall;
  (** words written to host memory: address and value *)
  host_stores : list (Z * Z);
  tty : list TtyLine;
  (** the exception posted on the calling thread: class and message *)
  pending_exception : option (string * string);
  (** [thread->set_vm_result] *)
  vm_result : option Z;
  (** the [JavaValue &ret] of [execute_warp] *)
  ret : option JavaValue
}.

Definition log_driver_call (c : DriverCall) (p : Process) : Process :=
  {| _cu_device := _cu_device p; _device_context := _device_context p;
     driver_calls := driver_calls p ++ [c]; host_stores := host_stores p;
     tty := tty p; pending_exception := pending_exception p;
     vm_result := vm_result p; ret := ret p |}.

Definition log_store (a v : Z) (p : Process) : Process :=
  {| _cu_device := _cu_device p; _device_context := _device_context p;
     driver_calls := driver_calls p; host_stores := host_stores p ++ [(a, v)];
     tty := tty p; pending_exception := pending_exception p;
     vm_result := vm_result p; ret := ret p |}.

Definition log_line (l : TtyLine) (p : Process) : Process :=
  {| _cu_device := _cu_device p; _device_context := _device_context p;
     driver_calls := driver_calls p; host_stores := host_stores p;
     tty := tty p ++ [l]; pending_exception := pending_exception p;
     vm_result := vm_result p; ret := ret p |}.

Definition post_exception (klass message : string) (p : Process) : Process :=
  {| _cu_device := _cu_device p; _device_context := _device_context p;
     driver_calls := driver_calls p; host_stores := host_stores p;
     tty := tty p; pending_exception := Some (klass, message);
     vm_result := vm_result p; ret := ret p |}.

Definition put_vm_result (v : Z) (p : Process) : Process :=
  {| _cu_device := _cu_device p; _device_context := _device_context p;
     driver_calls := driver_calls p; host_stores := host_stores p;
     tty := tty p; pending_exception := pending_exception p;
     vm_result := Some v; ret := ret p |}.

Definition put_ret (v : JavaValue) (p : Process) : Process :=
  {| _cu_device := _cu_device p; _device_context := _device_context p;
     driver_calls := driver_calls p; host_stores := host_stores p;
     tty := tty p; pending_exception := pending_exception p;
     vm_result := vm_result p; ret := Some v |}.

Section Statements.
Context {R : Type}.

(** A call through one of the [_cuda_cu_*] function pointers. *)
Definition call (d : Driver) (c : DriverCall) : Body Process R Reply :=
  fun p => (log_driver_call c p, inr (d c)).

(** [tty->print_cr(format, args)] *)
Definition print_cr (fmt : string) (a : list Z) : Body Process R unit :=
  modify (log_line {| format := fmt; args := a |}).

(** [SharedRuntime::throw_and_post_jvmti_exception(thread, klass, message)] *)
Definition throw_and_post_jvmti_exception (klass message : string)
  : Body Process R unit :=
  modify (post_exception klass message).

Definition read {A} (f : Process -> A) : Body Process R A :=
  fun p => (p, inr (f p)).

Definition failed (r : Reply) : bool := negb (status r =? GRAAL_CUDA_SUCCESS).

(** [ncores(major, minor)] *)
Definition ncores (major minor : Z) : Body Process R Z :=
  let device_type := Machine.to_int (Z.shiftl major 4 + minor) in
  match device_type with
  | 0x10 => mret 8
  | 0x11 => mret 8
  | 0x12 => mret 8
  | 0x13 => mret 8
  | 0x20 => mret 32
  | 0x21 => mret 48
  | 0x30 => mret 192
  | 0x35 => mret 192
  | _ =>
      print_cr "[CUDA] Warning: Unhandled device %x" [device_type];;
      mret 0
  end.

End Statements.

(** One attribute query of [total_cores]: the value, or [return 0] after
    the line that reports the failure. *)
Definition get_attribute_or_return_0 (d : Driver) (attrib : DeviceAttribute)
    (failure : string) : Body Process Z Z :=
  dev ← read _cu_device;
  r ← call d (cuDeviceGetAttribute attrib dev);
  when (failed r) (print_cr failure [dev];; return_ 0);;
  mret (value r).

(** [gpu::Ptx::total_cores()] *)
Definition total_cores (TraceGPUInteraction : bool) (d : Driver)
  : Process -> Process * Z :=
  run_body (
    minor ← get_attribute_or_return_0 d COMPUTE_CAPABILITY_MINOR
              "[CUDA] Failed to get minor attribute of device: %d";
    major ← get_attribute_or_return_0 d COMPUTE_CAPABILITY_MAJOR
              "[CUDA] Failed to get major attribute of device: %d";
    nmp ← get_attribute_or_return_0 d MULTIPROCESSOR_COUNT
            "[CUDA] Failed to get numberof MPs on device: %d";
    cores ← ncores major minor;
    let total := Machine.to_int (nmp * cores) in
    max_threads_per_block ←
      get_attribute_or_return_0 d MAX_THREADS_PER_BLOCK
        "[CUDA] Failed to get GRAAL_CU_DEVICE_ATTRIBUTE_MAX_THREADS_PER_BLOCK: %d";
    warp_size ←
      get_attribute_or_return_0 d WARP_SIZE
        "[CUDA] Failed to get GRAAL_CU_DEVICE_ATTRIBUTE_WARP_SIZE: %d";
    async_engines ←
      get_attribute_or_return_0 d ASYNC_ENGINE_COUNT
        "[CUDA] Failed to get GRAAL_CU_DEVICE_ATTRIBUTE_WARP_SIZE: %d";
    can_map_host_memory ←
      get_attribute_or_return_0 d CAN_MAP_HOST_MEMORY
        "[CUDA] Failed to get GRAAL_CU_DEVICE_ATTRIBUTE_CAN_MAP_HOST_MEMORY: %d";
    concurrent_kernels ←
      get_attribute_or_return_0 d CONCURRENT_KERNELS
        "[CUDA] Failed to get GRAAL_CU_DEVICE_ATTRIBUTE_CONCURRENT_KERNELS: %d";
    dev ← read _cu_device;
    when TraceGPUInteraction (
      print_cr "[CUDA] Compatibility version of device %d: %d.%d"
        [dev; major; minor];;
      print_cr "[CUDA] Number of cores: %d async engines: %d can map host mem: %d concurrent kernels: %d"
        [total; async_engines; can_map_host_memory; concurrent_kernels];;
      print_cr "[CUDA] Max threads per block: %d warp size: %d"
        [max_threads_per_block; warp_size]);;
    mret (Machine.to_uint total)).

(** [gpu::Ptx::execute_kernel_from_vm].  The header line is printed as
    in the source; the three dumps of the buffer that follow it read host
    memory only and are left out.  [device_return_value] is a local that
    is not initialised; it is read only after [cuMemAlloc] has set it. *)
Definition execute_kernel_from_vm (TraceGPUInteraction : bool) (d : Driver)
    (kernel parametersAndReturnValueBuffer
     parametersAndReturnValueBufferSize encodedReturnTypeSize : Z)
  : Process -> Process * Z :=
  run_body (
    print_cr "*** gpu::Ptx::execute_kernel_from_vm(kernel=%p, parametersAndReturnValueBuffer=%p, parametersAndReturnValueBufferSize=%d, encodedReturnTypeSize=%d)"
      [kernel; parametersAndReturnValueBuffer;
       parametersAndReturnValueBufferSize; encodedReturnTypeSize];;
    when (kernel =? 0) (
      throw_and_post_jvmti_exception "java/lang/NullPointerException" "";;
      return_ 0);;
    let cu_function := kernel in
    when TraceGPUInteraction (print_cr "[CUDA] launching kernel" []);;
    let isObjectReturn := encodedReturnTypeSize <? 0 in
    let returnTypeSize :=
      if encodedReturnTypeSize <? 0
      then Machine.to_int (- encodedReturnTypeSize)
      else encodedReturnTypeSize in
    device_return_value ←
      (if negb (returnTypeSize =? 0) then
         r ← call d (cuMemAlloc returnTypeSize);
         when (failed r) (
           print_cr "[CUDA] *** Error (%d) Failed to allocate memory for return value pointer on device"
             [status r];;
           throw_and_post_jvmti_exception "java/lang/Exception"
             "[CUDA] Failed to allocate memory for return value pointer on device";;
           return_ 0);;
         (* Push device_return_value to kernelParams *)
         modify (log_store
                   (parametersAndReturnValueBuffer
                    + (parametersAndReturnValueBufferSize - sizeof_CUdeviceptr)
                      * sizeof_CUdeviceptr)
                   (value r));;
         mret (value r)
       else mret 0);
    r ← call d (cuLaunchKernel cu_function 1 1 1 1 1 1);
    when (failed r) (
      print_cr "[CUDA] Failed to launch kernel" [];;
      throw_and_post_jvmti_exception "java/lang/Exception"
        "[CUDA] Failed to launch kernel";;
      return_ 0);;
    when TraceGPUInteraction
      (print_cr "[CUDA] Success: Kernel Launch: X: %d Y: %d Z: %d" [1; 1; 1]);;
    r ← call d cuCtxSynchronize;
    when (failed r) (
      print_cr "[CUDA] Failed to synchronize launched kernel (%d)" [status r];;
      throw_and_post_jvmti_exception "java/lang/Exception"
        "[CUDA] Failed to synchronize launched kernel";;
      return_ 0);;
    when TraceGPUInteraction
      (print_cr "[CUDA] Success: Synchronized launch kernel" []);;
    primitiveReturnValue ←
      (if isObjectReturn then
         r ← call d (cuMemcpyDtoH device_return_value T_OBJECT_BYTE_SIZE);
         when (failed r) (
           print_cr "[CUDA] *** Error (%d) Failed to copy value from device argument"
             [status r];;
           throw_and_post_jvmti_exception "java/lang/Exception"
             "[CUDA] Failed to copy value from device argument";;
           return_ 0);;
         modify (put_vm_result (value r));;
         mret 0
       else if returnTypeSize >? 0 then
         r ← call d (cuMemcpyDtoH device_return_value T_LONG_BYTE_SIZE);
         when (failed r) (
           print_cr "[CUDA] *** Error (%d) Failed to copy value from device argument"
             [status r];;
           throw_and_post_jvmti_exception "java/lang/Exception"
             "[CUDA] Failed to copy value from device argument";;
           return_ 0);;
         mret (value r)
       else mret 0);
    (* Free device memory allocated for result *)
    when (negb (returnTypeSize =? 0)) (
      r ← call d (cuMemFree device_return_value);
      when (failed r) (
        print_cr "[CUDA] *** Error (%d) Failed to free device memory of return value"
          [status r];;
        throw_and_post_jvmti_exception "java/lang/Exception"
          "[CUDA] Failed to free device memory of return value";;
        return_ 0));;
    when TraceGPUInteraction
      (print_cr "[CUDA] Success: Freed device memory of return value" []);;
    (* Destroy context *)
    ctx ← read _device_context;
    r ← call d (cuCtxDestroy ctx);
    when (failed r) (
      print_cr "[CUDA] *** Error (%d) Failed to destroy context" [status r];;
      throw_and_post_jvmti_exception "java/lang/Exception"
        "[CUDA] Failed to destroy context";;
      return_ 0);;
    when TraceGPUInteraction (print_cr "[CUDA] Success: Destroy context" []);;
    mret primitiveReturnValue).

(** The fields of [PTXKernelArguments] that [execute_warp] reads. *)
Record PTXKernelArguments : Type := mkArguments {
  _kernelArgBuffer : Z;
  _bufferOffset : Z;
  _dev_return_value : Z;
  _return_type : BasicType
}.

Definition get_ret_type (ptxka : PTXKernelArguments) : BasicType :=
  _return_type ptxka.

(** One case of the [switch] of [execute_warp] that copies the result. *)
Definition copy_return_value (d : Driver) (ptxka : PTXKernelArguments)
    (bytes : Z) (set : Z -> JavaValue) : Body Process bool unit :=
  r ← call d (cuMemcpyDtoH (_dev_return_value ptxka) bytes);
  when (failed r) (
    print_cr "[CUDA] *** Error (%d) Failed to copy value to device argument"
      [status r];;
    return_ false);;
  modify (put_ret (set (value r))).

(** [gpu::Ptx::execute_warp] *)
Definition execute_warp (TraceGPUInteraction : bool) (d : Driver)
    (dimX dimY dimZ : Z) (kernel : Z) (ptxka : PTXKernelArguments)
  : Process -> Process * bool :=
  run_body (
    let blockX := Machine.to_uint dimX in
    let blockY := Machine.to_uint dimY in
    let blockZ := Machine.to_uint dimZ in
    let cu_function := kernel in
    when (kernel =? NULL) (return_ false);;
    when TraceGPUInteraction (print_cr "[CUDA] launching kernel" []);;
    r ← call d (cuLaunchKernel cu_function 1 1 1 blockX blockY blockZ);
    when (failed r) (
      print_cr "[CUDA] Failed to launch kernel" [];;
      return_ false);;
    when TraceGPUInteraction
      (print_cr "[CUDA] Success: Kernel Launch: X: %d Y: %d Z: %d"
         [blockX; blockY; blockZ]);;
    r ← call d cuCtxSynchronize;
    when (failed r) (
      print_cr "[CUDA] Failed to synchronize launched kernel (%d)" [status r];;
      return_ false);;
    when TraceGPUInteraction
      (print_cr "[CUDA] Success: Synchronized launch kernel" []);;
    (* Get the result. *)
    let return_type := get_ret_type ptxka in
    match return_type with
    | T_INT => copy_return_value d ptxka T_INT_BYTE_SIZE jint
    | T_BOOLEAN => copy_return_value d ptxka T_INT_BYTE_SIZE jint
    | T_FLOAT => copy_return_value d ptxka T_FLOAT_BYTE_SIZE jfloat
    | T_DOUBLE => copy_return_value d ptxka T_DOUBLE_BYTE_SIZE jdouble
    | T_LONG => copy_return_value d ptxka T_LONG_BYTE_SIZE jlong
    | T_VOID => mret tt
    | _ =>
        print_cr "[CUDA] TODO *** Unhandled return type: %d"
          [BasicType_code return_type]
    end;;
    (* Free device memory allocated for result *)
    r ← call d (cuMemFree (_dev_return_value ptxka));
    when (failed r) (
      print_cr "[CUDA] *** Error (%d) Failed to free device memory of return value"
        [status r];;
      return_ false);;
    when TraceGPUInteraction
      (print_cr "[CUDA] Success: Freed device memory of return value" []);;
    (* Destroy context *)
    ctx ← read _device_context;
    r ← call d (cuCtxDestroy ctx);
    when (failed r) (
      print_cr "[CUDA] *** Error (%d) Failed to destroy context" [status r];;
      return_ false);;
    when TraceGPUInteraction (print_cr "[CUDA] Success: Destroy context" []);;
    mret (status r =? GRAAL_CUDA_SUCCESS)).

(** [gpu::Ptx::execute_kernel] *)
Definition execute_kernel (TraceGPUInteraction : bool) (d : Driver)
    (kernel : Z) (ptxka : PTXKernelArguments) : Process -> Process * bool :=
  execute_warp TraceGPUInteraction d 1 1 1 kernel ptxka.

(** *** Linkage to the driver library *)

(** What the preprocessor decides. *)
Inductive OS : Type := LINUX | APPLE | other_OS.

Record Build : Type := mkBuild {
  os : OS;
  (** [defined(__x86_64) || defined(AMD64) || defined(_M_AMD64)] *)
  amd64 : bool
}.

Definition cuda_library_name (b : Build) : string :=
  match os b with
  | LINUX => "libcuda.so"
  | APPLE => "/usr/local/cuda/lib/libcuda.dylib"
  | other_OS => ""
  end.

(** [cuda_library_name] is an array of [char]; where the source compares
    it with [NULL] it compares the address of the array, which is not
    [NULL] whatever the array holds. *)
Definition array_is_NULL (a : string) : bool := false.

(** The dynamic loader: [os::dll_load] and [os::dll_lookup], each
    answering [NULL] on failure. *)
Record Loader : Type := mkLoader {
  dll_load : string -> Z;
  dll_lookup : Z -> string -> Z
}.

(** The static function pointers, by the name of the variable; one that
    was never assigned is absent (and [NULL], as statics start out). *)
Record Linkage : Type := mkLinkage {
  entry_points : gmap string Z;
  (** the names handed to [os::dll_load] *)
  loads : list string;
  (** lines printed: the format and the name it is filled with *)
  lines : list (string * string)
}.

Definition entry_point (k : Linkage) (variable : string) : Z :=
  default NULL (entry_points k !! variable).

Definition assign (variable : string) (p : Z) (k : Linkage) : Linkage :=
  {| entry_points := <[variable := p]> (entry_points k);
     loads := loads k; lines := lines k |}.

Definition log_load (name : string) (k : Linkage) : Linkage :=
  {| entry_points := entry_points k; loads := loads k ++ [name];
     lines := lines k |}.

Definition log_message (fmt name : string) (k : Linkage) : Linkage :=
  {| entry_points := entry_points k; loads := loads k;
     lines := lines k ++ [(fmt, name)] |}.

(** [LOOKUP_CUDA_FUNCTION(name, alias)] *)
Definition LOOKUP_CUDA_FUNCTION (l : Loader) (handle : Z) (name alias : string)
  : Body Linkage bool unit :=
  let p := dll_lookup l handle name in
  modify (assign ("_" +:+ alias) p);;
  when (p =? NULL) (
    modify (log_message "[CUDA] ***** Error: Failed to lookup %s" name);;
    return_ false).

(** [LOOKUP_CUDA_V2_FUNCTION(name, alias)] *)
Definition LOOKUP_CUDA_V2_FUNCTION (l : Loader) (handle : Z) (name alias : string)
  : Body Linkage bool unit :=
  LOOKUP_CUDA_FUNCTION l handle (name +:+ "_v2") alias.

(** [gpu::Ptx::probe_linkage()].  The buffer for the loader's error text
    is allocated and freed without being read.  The two statements after
    the outer [if]/[else] cannot be reached and are left out. *)
Definition probe_linkage (TraceGPUInteraction : bool) (b : Build) (l : Loader)
  : Linkage -> Linkage * bool :=
  run_body (
    if negb (array_is_NULL (cuda_library_name b)) then
      modify (log_load (cuda_library_name b));;
      let handle := dll_load l (cuda_library_name b) in
      if negb (handle =? NULL) then
        LOOKUP_CUDA_FUNCTION l handle "cuInit" "cuda_cu_init";;
        LOOKUP_CUDA_FUNCTION l handle "cuCtxSynchronize" "cuda_cu_ctx_synchronize";;
        LOOKUP_CUDA_FUNCTION l handle "cuCtxSetCurrent" "cuda_cu_ctx_set_current";;
        LOOKUP_CUDA_FUNCTION l handle "cuDeviceGetCount" "cuda_cu_device_get_count";;
        LOOKUP_CUDA_FUNCTION l handle "cuDeviceGetName" "cuda_cu_device_get_name";;
        LOOKUP_CUDA_FUNCTION l handle "cuDeviceGet" "cuda_cu_device_get";;
        LOOKUP_CUDA_FUNCTION l handle "cuDeviceComputeCapability" "cuda_cu_device_compute_capability";;
        LOOKUP_CUDA_FUNCTION l handle "cuDeviceGetAttribute" "cuda_cu_device_get_attribute";;
        LOOKUP_CUDA_FUNCTION l handle "cuModuleGetFunction" "cuda_cu_module_get_function";;
        LOOKUP_CUDA_FUNCTION l handle "cuModuleLoadDataEx" "cuda_cu_module_load_data_ex";;
        LOOKUP_CUDA_FUNCTION l handle "cuLaunchKernel" "cuda_cu_launch_kernel";;
        LOOKUP_CUDA_FUNCTION l handle "cuMemHostRegister" "cuda_cu_mem_host_register";;
        LOOKUP_CUDA_FUNCTION l handle "cuMemHostUnregister" "cuda_cu_mem_host_unregister";;
        (if amd64 b then
           LOOKUP_CUDA_V2_FUNCTION l handle "cuCtxCreate" "cuda_cu_ctx_create";;
           LOOKUP_CUDA_V2_FUNCTION l handle "cuCtxDestroy" "cuda_cu_ctx_destroy";;
           LOOKUP_CUDA_V2_FUNCTION l handle "cuMemAlloc" "cuda_cu_memalloc";;
           LOOKUP_CUDA_V2_FUNCTION l handle "cuMemFree" "cuda_cu_memfree";;
           LOOKUP_CUDA_V2_FUNCTION l handle "cuMemcpyHtoD" "cuda_cu_memcpy_htod";;
           LOOKUP_CUDA_V2_FUNCTION l handle "cuMemcpyDtoH" "cuda_cu_memcpy_dtoh";;
           LOOKUP_CUDA_V2_FUNCTION l handle "cuMemHostGetDevicePointer" "cuda_cu_mem_host_get_device_pointer"
         else
           LOOKUP_CUDA_FUNCTION l handle "cuCtxCreate" "cuda_cu_ctx_create";;
           LOOKUP_CUDA_FUNCTION l handle "cuCtxDestroy" "cuda_cu_ctx_destroy";;
           LOOKUP_CUDA_FUNCTION l handle "cuMemAlloc" "cuda_cu_memalloc";;
           LOOKUP_CUDA_FUNCTION l handle "cuMemFree" "cuda_cu_memfree";;
           LOOKUP_CUDA_FUNCTION l handle "cuMemcpyHtoD" "cuda_cu_memcpy_htod";;
           LOOKUP_CUDA_FUNCTION l handle "cuMemcpyDtoH" "cuda_cu_memcpy_dtoh";;
           LOOKUP_CUDA_FUNCTION l handle "cuMemHostGetDevicePointer" "cuda_cu_mem_host_get_device_pointer");;
        when TraceGPUInteraction
          (modify (log_message "[CUDA] Success: library linkage" ""));;
        return_ true
      else
        (* Unable to dlopen libcuda *)
        return_ false
    else
      modify (log_message "Unsupported CUDA platform" "");;
      return_ false).

(** The symbols that [probe_linkage] looks up, in order. *)
Definition required_symbols (b : Build) : list string :=
  ["cuInit"; "cuCtxSynchronize"; "cuCtxSetCurrent"; "cuDeviceGetCount";
   "cuDeviceGetName"; "cuDeviceGet"; "cuDeviceComputeCapability";
   "cuDeviceGetAttribute"; "cuModuleGetFunction"; "cuModuleLoadDataEx";
   "cuLaunchKernel"; "cuMemHostRegister"; "cuMemHostUnregister"]
  ++ (let suffix := if amd64 b then "_v2" else "" in
      (fun name => name +:+ suffix) <$>
        ["cuCtxCreate"; "cuCtxDestroy"; "cuMemAlloc"; "cuMemFree";
         "cuMemcpyHtoD"; "cuMemcpyDtoH"; "cuMemHostGetDevicePointer"]).

(** The static variables that [probe_linkage] assigns. *)
Definition entry_point_variables : list string :=
  ["_cuda_cu_init"; "_cuda_cu_ctx_synchronize"; "_cuda_cu_ctx_set_current";
   "_cuda_cu_device_get_count"; "_cuda_cu_device_get_name";
   "_cuda_cu_device_get"; "_cuda_cu_device_compute_capability";
   "_cuda_cu_device_get_attribute"; "_cuda_cu_module_get_function";
   "_cuda_cu_module_load_data_ex"; "_cuda_cu_launch_kernel";
   "_cuda_cu_mem_host_register"; "_cuda_cu_mem_host_unregister";
   "_cuda_cu_ctx_create"; "_cuda_cu_ctx_destroy"; "_cuda_cu_memalloc";
   "_cuda_cu_memfree"; "_cuda_cu_memcpy_htod"; "_cuda_cu_memcpy_dtoh";
   "_cuda_cu_mem_host_get_device_pointer"].

End Ptx.

(** ** gpu_ptx.cpp: finding the device and compiling a kernel *)

Module PtxSetup.

Definition NULL : Z := 0.
Definition GRAAL_CUDA_SUCCESS : Z := Ptx.GRAAL_CUDA_SUCCESS.

(** Constants of gpu_ptx.hpp that these functions hand to the driver as
    they are. *)
Inductive ContextFlag : Type := GRAAL_CU_CTX_MAP_HOST.

Inductive JitOption : Type :=
| GRAAL_CU_JIT_INFO_LOG_BUFFER_SIZE_BYTES
| GRAAL_CU_JIT_INFO_LOG_BUFFER
| GRAAL_CU_JIT_MAX_REGISTERS.

Inductive DeviceAttribute : Type :=
| GRAAL_CU_DEVICE_ATTRIBUTE_UNIFIED_ADDRESSING.

(** The entry points of the driver that these functions call, with the
    arguments that are not out parameters. *)
Inductive DriverCall : Type :=
| cuInit (flags : Z)
| cuDeviceGetCount
| cuDeviceGet (ordinal : Z)
| cuDeviceGetAttribute (attrib : DeviceAttribute) (dev : Z)
| cuDeviceGetName (len : Z) (dev : Z)
| cuCtxCreate (flags : ContextFlag) (dev : Z)
| cuCtxSetCurrent (ctx : Z)
| cuModuleLoadDataEx (image : string) (numOptions : Z)
    (options : list JitOption) (optionValues : list Z)
| cuModuleGetFunction (hmod : Z) (name : string).

(** What a call stored through its out parameter: nothing, a number (an
    [int], a handle) or the characters of a name. *)
Inductive Stored : Type :=
| nothing
| number (v : Z)
| characters (s : string).

Record Reply : Type := mkReply { status : Z; stored : Stored }.

Definition Driver : Type := DriverCall -> Reply.

(** What a variable holds after a call that had its address: what the call
    stored, or else what it held before. *)
Definition number_in (before : Z) (r : Reply) : Z :=
  match stored r with number v => v | _ => before end.

Definition characters_in (before : string) (r : Reply) : string :=
  match stored r with characters s => s | _ => before end.

Inductive Arg : Type := num (v : Z) | str (s : string).

Record TtyLine : Type := mkLine { format : string; args : list Arg }.

(** The two statics that these functions write, the calls made of the
    driver and the lines printed. *)
Record Session : Type := mkSession {
  _cu_device : Z;
  _device_context : Z;
  driver_calls : list DriverCall;
  tty : list TtyLine
}.

Definition log_driver_call (c : DriverCall) (s : Session) : Session :=
  {| _cu_device := _cu_device s; _device_context := _device_context s;
     driver_calls := driver_calls s ++ [c]; tty := tty s |}.

Definition log_line (l : TtyLine) (s : Session) : Session :=
  {| _cu_device := _cu_device s; _device_context := _device_context s;
     driver_calls := driver_calls s; tty := tty s ++ [l] |}.

Definition set_cu_device (v : Z) (s : Session) : Session :=
  {| _cu_device := v; _device_context := _device_context s;
     driver_calls := driver_calls s; tty := tty s |}.

Definition set_device_context (v : Z) (s : Session) : Session :=
  {| _cu_device := _cu_device s; _device_context := v;
     driver_calls := driver_calls s; tty := tty s |}.

Section Statements.
Context {R : Type}.

Definition call (d : Driver) (c : DriverCall) : Body Session R Reply :=
  fun s => (log_driver_call c s, inr (d c)).

Definition print_cr (fmt : string) (a : list Arg) : Body Session R unit :=
  modify (log_line {| format := fmt; args := a |}).

Definition read {A} (f : Session -> A) : Body Session R A :=
  fun s => (s, inr (f s)).

Definition failed (r : Reply) : bool := negb (status r =? GRAAL_CUDA_SUCCESS).

End Statements.

(** [gpu::Ptx::initialize_gpu()].  [unified_addressing0] and
    [device_name0] are what the locals [unified_addressing] and
    [device_name], which the source does not initialise, hold when the
    function is entered. *)
Definition initialize_gpu (TraceGPUInteraction : bool) (d : Driver)
    (unified_addressing0 : Z) (device_name0 : string)
  : Session -> Session * bool :=
  run_body (
    (* Initialize CUDA driver API *)
    r ← call d (cuInit 0);
    when (failed r) (
      print_cr "Failed to initialize CUDA device" [];;
      return_ false);;
    when TraceGPUInteraction
      (print_cr "CUDA driver initialization: Success" []);;
    (* Get the number of compute-capable device count *)
    r ← call d cuDeviceGetCount;
    let device_count := number_in 0 r in
    when (failed r) (
      print_cr "[CUDA] Failed to get compute-capable device count" [];;
      return_ false);;
    when (device_count =? 0) (
      print_cr "[CUDA] Found no device supporting CUDA" [];;
      return_ false);;
    when TraceGPUInteraction
      (print_cr "[CUDA] Number of compute-capable devices found: %d"
         [num device_count]);;
    (* Get the handle to the first compute device *)
    let device_id := 0 in
    before ← read _cu_device;
    r ← call d (cuDeviceGet device_id);
    modify (set_cu_device (number_in before r));;
    when (failed r) (
      print_cr "[CUDA] Failed to get handle of first compute-capable device i.e., the one at ordinal: %d"
        [num device_id];;
      return_ false);;
    when TraceGPUInteraction
      (print_cr "[CUDA] Got the handle of first compute-device" []);;
    (* Get device attributes *)
    dev ← read _cu_device;
    r ← call d (cuDeviceGetAttribute GRAAL_CU_DEVICE_ATTRIBUTE_UNIFIED_ADDRESSING dev);
    let unified_addressing := number_in unified_addressing0 r in
    when (failed r) (
      print_cr "[CUDA] Failed to query unified addressing mode of device: %d"
        [num dev];;
      return_ false);;
    when TraceGPUInteraction
      (print_cr "[CUDA] Unified addressing support on device %d: %d"
         [num dev; num unified_addressing]);;
    (* Get device name *)
    r ← call d (cuDeviceGetName 256 dev);
    let device_name := characters_in device_name0 r in
    when (failed r) (
      print_cr "[CUDA] Failed to get name of device: %d" [num dev];;
      return_ false);;
    when TraceGPUInteraction (print_cr "[CUDA] Using %s" [str device_name]);;
    mret true).

(** [gpu::Ptx::generate_kernel(code, code_len, name)].
    [GRAAL_CUDA_ERROR_NO_BINARY_FOR_GPU] is a status defined in
    gpu_ptx.hpp; [jit_log_buffer] is the address of the log buffer that the
    function allocates; [cu_module0] and [cu_function0] are what the locals
    [cu_module] and [cu_function], which the source does not initialise,
    hold when the function is entered.  The three arrays allocated for the
    options are not freed in the source. *)
Definition generate_kernel (GRAAL_CUDA_ERROR_NO_BINARY_FOR_GPU : Z)
    (TraceGPUInteraction : bool) (d : Driver)
    (jit_log_buffer cu_module0 cu_function0 : Z)
    (code : string) (code_len : Z) (name : string)
  : Session -> Session * Z :=
  run_body (
    (* Use three JIT compiler options *)
    let jit_num_options := 3 in
    let jit_log_buffer_size := 1024 in
    let jit_register_count := 32 in
    let jit_options :=
      [GRAAL_CU_JIT_INFO_LOG_BUFFER_SIZE_BYTES;
       GRAAL_CU_JIT_INFO_LOG_BUFFER;
       GRAAL_CU_JIT_MAX_REGISTERS] in
    let jit_option_values :=
      [Machine.to_size_t jit_log_buffer_size;
       jit_log_buffer;
       Machine.to_size_t jit_register_count] in
    (* Create CUDA context to compile and execute the kernel *)
    dev ← read _cu_device;
    before ← read _device_context;
    r ← call d (cuCtxCreate GRAAL_CU_CTX_MAP_HOST dev);
    modify (set_device_context (number_in before r));;
    when (failed r) (
      print_cr "[CUDA] Failed to create CUDA context for device(%d): %d"
        [num dev; num (status r)];;
      return_ NULL);;
    when TraceGPUInteraction
      (print_cr "[CUDA] Success: Created context for device: %d" [num dev]);;
    ctx ← read _device_context;
    r ← call d (cuCtxSetCurrent ctx);
    when (failed r) (
      print_cr "[CUDA] Failed to set current context for device: %d" [num dev];;
      return_ NULL);;
    when TraceGPUInteraction
      (print_cr "[CUDA] Success: Set current context for device: %d" [num dev]);;
    when TraceGPUInteraction (
      print_cr "[CUDA] PTX Kernel\n%s" [str code];;
      print_cr "[CUDA] Function name : %s" [str name]);;
    (* Load module's data with compiler options *)
    r ← call d (cuModuleLoadDataEx code jit_num_options jit_options
                  jit_option_values);
    let cu_module := number_in cu_module0 r in
    when (failed r) (
      when (status r =? GRAAL_CUDA_ERROR_NO_BINARY_FOR_GPU)
        (print_cr "[CUDA] Check for malformed PTX kernel or incorrect PTX compilation options" []);;
      print_cr "[CUDA] *** Error (%d) Failed to load module data with online compiler options for method %s"
        [num (status r); str name];;
      return_ NULL);;
    when TraceGPUInteraction (print_cr "[CUDA] Loaded data for PTX Kernel" []);;
    r ← call d (cuModuleGetFunction cu_module name);
    let cu_function := number_in cu_function0 r in
    when (failed r) (
      print_cr "[CUDA] *** Error: Failed to get function %s" [str name];;
      return_ NULL);;
    when TraceGPUInteraction
      (print_cr "[CUDA] Got function handle for %s" [str name]);;
    mret cu_function).

End PtxSetup.

(** ** Notions in which the properties are stated *)

Module TlabNotions.
Import Tlab.

(** The tlabInfo is one that the loop of [postKernelCleanup] rolls back:
    its start is set and its top lies beyond its end. *)
Definition overflowed (r : HSAILTlabInfo) : bool :=
  negb (start r =? NULL) && (top r >? end_ r).

(** The tlabInfo as the loop leaves it. *)
Definition rolled_back (r : HSAILTlabInfo) : HSAILTlabInfo :=
  if overflowed r then set_top r (last_good_top r) else r.

(** The calls that the loop makes for one tlabInfo. *)
Definition region_calls (rt : Runtime) (r : HSAILTlabInfo) : list VMCall :=
  if start r =? NULL then []
  else
    call_fill (_donor_thread r) (start r) (top (rolled_back r))
      (Machine.to_size_t (ptr_diff (end_ r) (start r) + alignment_reserve rt))
    :: (if overflowed r then [call_make_parsable (_donor_thread r) true] else []).

(** [top - originalTop] of a region whose start is set; a region with a
    null start counts for nothing. *)
Definition region_bytes (r : HSAILTlabInfo) : Z :=
  if start r =? NULL then 0 else top r - original_top r.

Definition sum_bytes (regions : list HSAILTlabInfo) : Z :=
  foldr Z.add 0 (region_bytes <$> regions).

(** The regions that [postKernelCleanup] went through, read off the
    object it leaves. *)
Definition swept_regions (ai : HSAILAllocationInfo) : list HSAILTlabInfo :=
  take (_tlab_infos_pool_next ai) (_tlab_infos_pool ai).

(** The "unprimed" tlabInfo: null fields. *)
Definition unprimed (r : HSAILTlabInfo) : Prop :=
  start r = NULL /\ top r = NULL /\ end_ r = NULL /\ original_top r = NULL.

Definition region_well_formed (r : HSAILTlabInfo) : Prop :=
  start r <= original_top r <= end_ r.

(** A thread's TLAB is in order: null, or start, top and end in line. *)
Definition tlab_in_order (b : ThreadLocalAllocBuffer) : Prop :=
  0 <= tlab_start b <= tlab_top b /\ tlab_top b <= tlab_end b.

(** Priming a TLAB for thread [t] fails in state [vm]: no size, or no
    room in the heap. *)
Definition priming_fails (rt : Runtime) (t : JavaThread) (vm : VM) : Prop :=
  compute_size rt t = 0
  \/ allocate_new_tlab rt (tlab_requests vm) (compute_size rt t) = NULL.


(** The VM after the constructor has looked at the TLAB of [t] and, if
    its end was null, tried to get it a new one. *)
Definition primed (rt : Runtime) (t : JavaThread) (i : nat) (vm : VM) : VM :=
  if tlab_end (tlabs vm t) =? NULL
  then snd (getNewTlabForDonorThread rt t i vm)
  else vm.

(** The record that the constructor makes of a TLAB in a slot that held
    [r0]. *)
Definition snapshot (r0 : HSAILTlabInfo) (b : ThreadLocalAllocBuffer)
    (t : JavaThread) (this : Z) : HSAILTlabInfo :=
  initialize r0 (tlab_start b) (tlab_top b) (tlab_end b) t this.

Definition no_tlab : ThreadLocalAllocBuffer :=
  {| tlab_start := NULL; tlab_top := NULL; tlab_end := NULL |}.

(** No TLAB can be had for thread [t], however often it is tried. *)
Definition never_primes (rt : Runtime) (t : JavaThread) : Prop :=
  compute_size rt t = 0
  \/ forall k, allocate_new_tlab rt k (compute_size rt t) = NULL.

(** What the heap answers is in order: a TLAB size is null or has room
    for the alignment reserve, and addresses are not negative. *)
Definition heap_in_order (rt : Runtime) : Prop :=
  (forall t, compute_size rt t = 0 \/ alignment_reserve rt <= compute_size rt t)
  /\ (forall k n, 0 <= allocate_new_tlab rt k n).

End TlabNotions.

Module PtxNotions.
Import Ptx.

(** The table of cores per multiprocessor as the specification gives it:
    1.x (the compute capabilities 1.0 to 1.3) 8, 2.0 32, 2.1 48, 3.0 and
    3.5 192, anything else 0. *)
Definition spec_cores_per_multiprocessor (major minor : Z) : Z :=
  if (major =? 1) && (0 <=? minor) && (minor <=? 3) then 8
  else if (major =? 2) && (minor =? 0) then 32
  else if (major =? 2) && (minor =? 1) then 48
  else if (major =? 3) && ((minor =? 0) || (minor =? 5)) then 192
  else 0.

Definition unhandled_device_warning (major minor : Z) : TtyLine :=
  {| format := "[CUDA] Warning: Unhandled device %x";
     args := [16 * major + minor] |}.

Definition is_cuMemAlloc (c : DriverCall) : bool :=
  match c with cuMemAlloc _ => true | _ => false end.

Definition is_cuMemFree (c : DriverCall) : bool :=
  match c with cuMemFree _ => true | _ => false end.

(** How many calls of a kind a process has made so far. *)
Definition call_count (kind : DriverCall -> bool) (p : Process) : nat :=
  length (List.filter kind (driver_calls p)).

(** The sizes of the device-to-host copies a process has made so far. *)
Definition dtoh_sizes (p : Process) : list Z :=
  omap (fun c => match c with cuMemcpyDtoH _ n => Some n | _ => None end)
       (driver_calls p).

(** The size of the copy per return type, as the specification gives it:
    int and bool 4 bytes, float 4, double and long 8, an object reference
    the platform pointer width. *)
Definition spec_copy_size (t : BasicType) : option Z :=
  match t with
  | T_INT | T_BOOLEAN => Some 4
  | T_FLOAT => Some 4
  | T_DOUBLE | T_LONG => Some 8
  | T_OBJECT => Some pointer_width
  | _ => None
  end.

(** The sizes of the copies that [execute_warp] makes, by return type. *)
Definition warp_copy_sizes (t : BasicType) : list Z :=
  match t with
  | T_INT | T_BOOLEAN => [T_INT_BYTE_SIZE]
  | T_FLOAT => [T_FLOAT_BYTE_SIZE]
  | T_DOUBLE => [T_DOUBLE_BYTE_SIZE]
  | T_LONG => [T_LONG_BYTE_SIZE]
  | _ => []
  end.

(** The sizes of the copies that [execute_kernel_from_vm] makes, by encoded
    size of the return type. *)
Definition vm_copy_sizes (encodedReturnTypeSize : Z) : list Z :=
  if encodedReturnTypeSize <? 0 then [T_OBJECT_BYTE_SIZE]
  else if encodedReturnTypeSize >? 0 then [T_LONG_BYTE_SIZE]
  else [].

(** Every entry point is bound. *)
Definition fully_bound (k : Linkage) : Prop :=
  Forall (fun variable => entry_point k variable <> NULL) entry_point_variables.

End PtxNotions.

Module CleanupNotions.
Import Tlab TlabNotions.

(** The call is one that hands a region to a thread or retires it. *)
Definition fills_or_retires (c : VMCall) : bool :=
  match c with
  | call_fill _ _ _ _ => true
  | call_make_parsable _ true => true
  | _ => false
  end.

Definition is_call_fill (c : VMCall) : bool :=
  match c with call_fill _ _ _ _ => true | _ => false end.

(** The region has a start: the loop of [postKernelCleanup] does not skip
    it. *)
Definition has_start (r : HSAILTlabInfo) : bool := negb (start r =? NULL).

End CleanupNotions.

Module ConstructionNotions.
Import Tlab TlabNotions.

(** The number of slots that the constructor allocates for the arena. *)
Definition arena_capacity (rt : Runtime) (donors : list JavaThread) : nat :=
  match donors with
  | [] => 0%nat
  | donorThread0 :: _ =>
      Z.to_nat (compute_max_tlab_infos rt (Z.of_nat (length donors)) donorThread0)
  end.

(** The calls that [getNewTlabForDonorThread] makes after it has retired
    what the thread had, for a size and the block the heap gives for it. *)
Definition refill_calls (rt : Runtime) (t : JavaThread) (size block : Z)
  : list VMCall :=
  if size =? 0 then []
  else call_allocate_new_tlab size block
       :: (if block =? NULL then []
           else (if ZeroTLAB rt then [call_zero_to_words block size] else [])
                ++ [call_fill t block block size]).
End ConstructionNotions.

Module DriverNotions.
Import Ptx PtxNotions.

(** The calls of a plan that are made when each is made only after the ones
    before it have succeeded: the plan up to and with the first call that
    fails. *)
Section UntilFailure.
Context {Call Answer : Type}.
Variables (failed : Answer -> bool) (d : Call -> Answer).

Fixpoint until_failure (plan : list Call) : list Call :=
  match plan with
  | [] => []
  | c :: rest => c :: (if failed (d c) then [] else until_failure rest)
  end.

Definition all_succeed (plan : list Call) : Prop :=
  Forall (fun c => failed (d c) = false) plan.
End UntilFailure.

(** The attributes that [total_cores] asks for, in order. *)
Definition attribute_queries (dev : Z) : list DriverCall :=
  (fun attrib => cuDeviceGetAttribute attrib dev) <$>
    [COMPUTE_CAPABILITY_MINOR; COMPUTE_CAPABILITY_MAJOR; MULTIPROCESSOR_COUNT;
     MAX_THREADS_PER_BLOCK; WARP_SIZE; ASYNC_ENGINE_COUNT; CAN_MAP_HOST_MEMORY;
     CONCURRENT_KERNELS].

(** The calls that [execute_warp] has to make for a kernel that is not
    null. *)
Definition warp_plan (dimX dimY dimZ kernel : Z) (ptxka : PTXKernelArguments)
    (ctx : Z) : list DriverCall :=
  [cuLaunchKernel kernel 1 1 1
     (Machine.to_uint dimX) (Machine.to_uint dimY) (Machine.to_uint dimZ);
   cuCtxSynchronize]
  ++ (cuMemcpyDtoH (_dev_return_value ptxka) <$> warp_copy_sizes (get_ret_type ptxka))
  ++ [cuMemFree (_dev_return_value ptxka); cuCtxDestroy ctx].

(** The value that [execute_warp] puts into [ret], by return type: what
    the copy from the device gave. *)
Definition warp_return_value (d : Driver) (ptxka : PTXKernelArguments)
  : option JavaValue :=
  let copied bytes := value (d (cuMemcpyDtoH (_dev_return_value ptxka) bytes)) in
  match get_ret_type ptxka with
  | T_INT | T_BOOLEAN => Some (jint (copied T_INT_BYTE_SIZE))
  | T_FLOAT => Some (jfloat (copied T_FLOAT_BYTE_SIZE))
  | T_DOUBLE => Some (jdouble (copied T_DOUBLE_BYTE_SIZE))
  | T_LONG => Some (jlong (copied T_LONG_BYTE_SIZE))
  | _ => None
  end.

(** [returnTypeSize] of [execute_kernel_from_vm] *)
Definition returnTypeSize (encodedReturnTypeSize : Z) : Z :=
  if encodedReturnTypeSize <? 0
  then Machine.to_int (- encodedReturnTypeSize)
  else encodedReturnTypeSize.

(** The device pointer that [execute_kernel_from_vm] gets for the return
    value. *)
Definition device_return_value (d : Driver) (encodedReturnTypeSize : Z) : Z :=
  value (d (cuMemAlloc (returnTypeSize encodedReturnTypeSize))).

(** The calls that [execute_kernel_from_vm] has to make for a kernel that is
    not null. *)
Definition vm_plan (d : Driver) (kernel encodedReturnTypeSize ctx : Z)
  : list DriverCall :=
  let size := returnTypeSize encodedReturnTypeSize in
  let ptr := device_return_value d encodedReturnTypeSize in
  (if size =? 0 then [] else [cuMemAlloc size])
  ++ [cuLaunchKernel kernel 1 1 1 1 1 1; cuCtxSynchronize]
  ++ (if encodedReturnTypeSize <? 0 then [cuMemcpyDtoH ptr T_OBJECT_BYTE_SIZE]
      else if size >? 0 then [cuMemcpyDtoH ptr T_LONG_BYTE_SIZE]
      else [])
  ++ (if size =? 0 then [] else [cuMemFree ptr])
  ++ [cuCtxDestroy ctx].
End DriverNotions.

Module SetupNotions.
Import PtxSetup DriverNotions.

(** The number of devices that [initialize_gpu] finds: what the driver
    stores into [device_count], which the function has set to 0. *)
Definition device_count (d : Driver) : Z := number_in 0 (d cuDeviceGetCount).

(** The device that [initialize_gpu] selects: what the driver stores into
    [_cu_device] for ordinal 0. *)
Definition selected_device (d : Driver) (s : Session) : Z :=
  number_in (_cu_device s) (d (cuDeviceGet 0)).

(** The calls that [initialize_gpu] has to make. *)
Definition initialize_plan (d : Driver) (s : Session) : list DriverCall :=
  [cuInit 0; cuDeviceGetCount]
  ++ (if device_count d =? 0 then []
      else
        [cuDeviceGet 0;
         cuDeviceGetAttribute GRAAL_CU_DEVICE_ATTRIBUTE_UNIFIED_ADDRESSING
           (selected_device d s);
         cuDeviceGetName 256 (selected_device d s)]).

(** The context that [generate_kernel] creates: what the driver stores
    into [_device_context]. *)
Definition created_context (d : Driver) (s : Session) : Z :=
  number_in (_device_context s) (d (cuCtxCreate GRAAL_CU_CTX_MAP_HOST (_cu_device s))).

(** The call by which [generate_kernel] loads the module: three options
    for the compiler, a log buffer of 1024 bytes, the log buffer, and at
    most 32 registers. *)
Definition load_module (jit_log_buffer : Z) (code : string) : DriverCall :=
  cuModuleLoadDataEx code 3
    [GRAAL_CU_JIT_INFO_LOG_BUFFER_SIZE_BYTES; GRAAL_CU_JIT_INFO_LOG_BUFFER;
     GRAAL_CU_JIT_MAX_REGISTERS]
    [1024; jit_log_buffer; 32].

Definition loaded_module (d : Driver) (jit_log_buffer cu_module0 : Z)
    (code : string) : Z :=
  number_in cu_module0 (d (load_module jit_log_buffer code)).

(** The calls that [generate_kernel] has to make. *)
Definition generate_plan (d : Driver) (s : Session)
    (jit_log_buffer cu_module0 : Z) (code name : string) : list DriverCall :=
  [cuCtxCreate GRAAL_CU_CTX_MAP_HOST (_cu_device s);
   cuCtxSetCurrent (created_context d s);
   load_module jit_log_buffer code;
   cuModuleGetFunction (loaded_module d jit_log_buffer cu_module0 code) name].

Definition no_device_line : TtyLine :=
  {| format := "[CUDA] Found no device supporting CUDA"; args := [] |}.

Definition malformed_kernel_hint : TtyLine :=
  {| format := "[CUDA] Check for malformed PTX kernel or incorrect PTX compilation options";
     args := [] |}.

Definition load_failure_line (status : Z) (name : string) : TtyLine :=
  {| format := "[CUDA] *** Error (%d) Failed to load module data with online compiler options for method %s";
     args := [num status; str name] |}.
End SetupNotions.

Module LinkageNotions.
Import Ptx PtxNotions.

Definition lookup_failure : string := "[CUDA] ***** Error: Failed to lookup %s".

(** The symbols that [probe_linkage] looks up, each with the static
    variable it is assigned to. *)
Definition symbol_table (b : Build) : list (string * string) :=
  zip (required_symbols b) entry_point_variables.

(** The assignment that one [LOOKUP_CUDA_FUNCTION] makes. *)
Definition bind_symbol (l : Loader) (handle : Z) (k : Linkage)
    (entry : string * string) : Linkage :=
  assign entry.2 (dll_lookup l handle entry.1) k.

(** One [LOOKUP_CUDA_FUNCTION] after the other down a table: each assigns
    its variable, and the first that finds nothing prints its line and
    ends the run. *)
Fixpoint lookup_each (l : Loader) (handle : Z) (table : list (string * string))
    (k : Linkage) : Linkage * bool :=
  match table with
  | [] => (k, true)
  | entry :: rest =>
      if dll_lookup l handle entry.1 =? NULL
      then (log_message lookup_failure entry.1 (bind_symbol l handle k entry), false)
      else lookup_each l handle rest (bind_symbol l handle k entry)
  end.

Definition resolves (l : Loader) (handle : Z) (name : string) : Prop :=
  dll_lookup l handle name <> NULL.
End LinkageNotions.

(** ** Concrete configurations *)

Module Samples.
Import Tlab.

(** A heap with room for one block of 1024 words: 8192 bytes free. *)
Definition tight_heap : Runtime :=
  {| TraceGPUInteraction := false;
     ZeroTLAB := false;
     alignment_reserve := 2;
     compute_size := fun _ => 1024;
     unsafe_max_tlab_alloc := fun _ => 8192;
     allocate_new_tlab := fun k _ => 4096 + Z.of_nat k * 8192 |}.

(** A heap on which no TLAB can be had. *)
Definition full_heap : Runtime :=
  {| TraceGPUInteraction := true;
     ZeroTLAB := false;
     alignment_reserve := 2;
     compute_size := fun _ => 0;
     unsafe_max_tlab_alloc := fun _ => 0;
     allocate_new_tlab := fun _ _ => NULL |}.

(** A heap that reports 8192 bytes free for TLABs of 1024 words and gives
    none when asked. *)
Definition exhausted_heap : Runtime :=
  {| TraceGPUInteraction := false;
     ZeroTLAB := false;
     alignment_reserve := 2;
     compute_size := fun _ => 1024;
     unsafe_max_tlab_alloc := fun _ => 8192;
     allocate_new_tlab := fun _ _ => NULL |}.

(** No thread has a TLAB; nothing has been called, counted or printed. *)
Definition fresh_vm : VM :=
  {| tlabs := fun _ => {| tlab_start := NULL; tlab_top := NULL; tlab_end := NULL |};
     tlab_requests := 0; kernelStats_overflows := 0; calls := []; tty := [] |}.

(** What the arena holds when it is handed out. *)
Definition stale (i : nat) : HSAILTlabInfo :=
  {| _start := 0; _top := 0; _end := 0; _last_good_top := 100 + Z.of_nat i;
     _original_top := 0; _donor_thread := 0%nat; _alloc_info := 0 |}.

Definition nine_donors : list JavaThread := seq 1 9.

(** A region of thread 1 that the kernel ran over: top beyond end. *)
Definition overrun : HSAILTlabInfo :=
  {| _start := 4096; _top := 9000; _end := 8192; _last_good_top := 4200;
     _original_top := 4100; _donor_thread := 1%nat; _alloc_info := 555 |}.

(** A region of thread 2 that was used within its bounds. *)
Definition in_bounds : HSAILTlabInfo :=
  {| _start := 16384; _top := 16400; _end := 20480; _last_good_top := 16400;
     _original_top := 16384; _donor_thread := 2%nat; _alloc_info := 555 |}.

(** A region that could not be primed (null start and end), on which the
    kernel bumped the top all the same. *)
Definition unprimed_bumped : HSAILTlabInfo :=
  {| _start := 0; _top := 24; _end := 0; _last_good_top := 8;
     _original_top := 0; _donor_thread := 3%nat; _alloc_info := 555 |}.

(** Three regions in an arena of four slots; the kernel has moved the
    cursor two slots past the end of the arena. *)
Definition after_kernel : HSAILAllocationInfo :=
  {| donorThreads := [1; 2; 3]%nat;
     _num_donor_threads := 3;
     _tlab_align_reserve_bytes := 16;
     _cur_tlab_infos := [Some 0; Some 1; Some 2]%nat;
     _tlab_infos_pool := [overrun; in_bounds; unprimed_bumped; stale 3];
     _tlab_infos_pool_next := 6;
     _tlab_infos_pool_end := 4 |}.

(** A region of thread 4 that the kernel ran over before any allocation in
    it went well: its last good top is not one the kernel wrote, and lies
    below the top it was primed with. *)
Definition never_good : HSAILTlabInfo :=
  {| _start := 4096; _top := 9000; _end := 8192; _last_good_top := 4000;
     _original_top := 4100; _donor_thread := 4%nat; _alloc_info := 555 |}.

Definition never_good_only : HSAILAllocationInfo :=
  {| donorThreads := [4%nat];
     _num_donor_threads := 1;
     _tlab_align_reserve_bytes := 16;
     _cur_tlab_infos := [Some 0%nat];
     _tlab_infos_pool := [never_good];
     _tlab_infos_pool_next := 1;
     _tlab_infos_pool_end := 1 |}.


Import Ptx.

Definition idle : Process :=
  {| _cu_device := 0; _device_context := 77; driver_calls := [];
     host_stores := []; tty := []; pending_exception := None;
     vm_result := None; ret := None |}.

(** A driver on which every call succeeds; the device has compute
    capability [major.minor] and [nmp] multiprocessors. *)
Definition device (major minor nmp : Z) : Driver := fun c =>
  match c with
  | cuDeviceGetAttribute COMPUTE_CAPABILITY_MAJOR _ => mkReply GRAAL_CUDA_SUCCESS major
  | cuDeviceGetAttribute COMPUTE_CAPABILITY_MINOR _ => mkReply GRAAL_CUDA_SUCCESS minor
  | cuDeviceGetAttribute MULTIPROCESSOR_COUNT _ => mkReply GRAAL_CUDA_SUCCESS nmp
  | cuDeviceGetAttribute _ _ => mkReply GRAAL_CUDA_SUCCESS 1
  | cuMemAlloc _ => mkReply GRAAL_CUDA_SUCCESS 4096
  | cuMemcpyDtoH _ _ => mkReply GRAAL_CUDA_SUCCESS 42
  | _ => mkReply GRAAL_CUDA_SUCCESS 0
  end.

Definition void_arguments : PTXKernelArguments :=
  {| _kernelArgBuffer := 2000; _bufferOffset := 16; _dev_return_value := 0;
     _return_type := T_VOID |}.

Definition object_arguments : PTXKernelArguments :=
  {| _kernelArgBuffer := 2000; _bufferOffset := 16; _dev_return_value := 4096;
     _return_type := T_OBJECT |}.

Definition int_arguments : PTXKernelArguments :=
  {| _kernelArgBuffer := 2000; _bufferOffset := 16; _dev_return_value := 4096;
     _return_type := T_INT |}.

(** A build for a platform that is neither Linux nor OS X. *)
Definition unsupported_platform : Build := {| os := other_OS; amd64 := true |}.

(** A loader that hands out the handle of the running program for the
    empty name and finds every symbol in it. *)
Definition permissive_loader : Loader :=
  {| dll_load := fun _ => 5; dll_lookup := fun _ _ => 9 |}.

(** A loader that opens the library but does not find [cuLaunchKernel]. *)
Definition loader_without_launch : Loader :=
  {| dll_load := fun _ => 5;
     dll_lookup := fun _ name => if String.eqb name "cuLaunchKernel" then NULL else 9 |}.

Definition unlinked : Linkage :=
  {| entry_points := ∅; loads := []; lines := [] |}.

End Samples.

(** ** Further configurations *)

Module Scenarios.
Import Tlab.


(** A heap with room for sixteen blocks of 1024 words. *)
Definition roomy_heap : Runtime :=
  {| TraceGPUInteraction := false;
     ZeroTLAB := true;
     alignment_reserve := 2;
     compute_size := fun _ => 1024;
     unsafe_max_tlab_alloc := fun _ => 16384;
     allocate_new_tlab := fun k _ => 65536 + Z.of_nat k * 8192 |}.

Import Ptx.

(** A driver that answers every call but the query for the number of
    asynchronous engines, which it refuses with status 1. *)
Definition without_async_engines : Driver := fun c =>
  match c with
  | cuDeviceGetAttribute ASYNC_ENGINE_COUNT _ => mkReply 1 0
  | _ => Samples.device 3 0 15 c
  end.
End Scenarios.

Module SetupScenarios.
Import PtxSetup.

Definition fresh_session : Session :=
  {| _cu_device := 0; _device_context := 0; driver_calls := []; tty := [] |}.

(** A driver on which every call succeeds: one device, with handle 7; the
    context created is 77, the module loaded 5 and the function found in it
    1000. *)
Definition one_device : Driver := fun c =>
  match c with
  | cuDeviceGetCount => mkReply GRAAL_CUDA_SUCCESS (number 1)
  | cuDeviceGet _ => mkReply GRAAL_CUDA_SUCCESS (number 7)
  | cuDeviceGetAttribute _ _ => mkReply GRAAL_CUDA_SUCCESS (number 1)
  | cuDeviceGetName _ _ => mkReply GRAAL_CUDA_SUCCESS (characters "GPU")
  | cuCtxCreate _ _ => mkReply GRAAL_CUDA_SUCCESS (number 77)
  | cuModuleLoadDataEx _ _ _ _ => mkReply GRAAL_CUDA_SUCCESS (number 5)
  | cuModuleGetFunction _ _ => mkReply GRAAL_CUDA_SUCCESS (number 1000)
  | _ => mkReply GRAAL_CUDA_SUCCESS nothing
  end.

(** A driver that works on a machine without a device. *)
Definition no_device : Driver := fun c =>
  match c with
  | cuDeviceGetCount => mkReply GRAAL_CUDA_SUCCESS (number 0)
  | _ => one_device c
  end.

(** A driver that has no binary for the kernel: loading the module fails
    with status 209. *)
Definition no_binary : Driver := fun c =>
  match c with
  | cuModuleLoadDataEx _ _ _ _ => mkReply 209 nothing
  | _ => one_device c
  end.
End SetupScenarios.

(** * Properties *)

(** ** Machine integers *)

Module MachineFacts.
Import Machine.

Lemma to_size_t_small z : 0 <= z < 2 ^ 64 -> to_size_t z = z.
Proof. intros H. unfold to_size_t, size_t_modulus. apply Z.mod_small. exact H. Qed.

Lemma to_size_t_range z : 0 <= to_size_t z < 2 ^ 64.
Proof. unfold to_size_t, size_t_modulus. apply Z.mod_pos_bound. reflexivity. Qed.

Lemma to_size_t_add_r a b : to_size_t (a + to_size_t b) = to_size_t (a + b).
Proof. unfold to_size_t. apply Zplus_mod_idemp_r. Qed.

Lemma to_size_t_add_l a b : to_size_t (to_size_t a + b) = to_size_t (a + b).
Proof. unfold to_size_t. apply Zplus_mod_idemp_l. Qed.

Lemma to_size_t_to_long z : to_size_t (to_long z) = to_size_t z.
Proof.
  unfold to_size_t, to_long, size_t_modulus.
  rewrite Zminus_mod_idemp_l. f_equal. lia.
Qed.

(** The difference of two addresses cast to [long], converted to
    [size_t], is their difference modulo 2^64. *)
Lemma to_size_t_long_diff a b :
  to_size_t (to_long a - to_long b) = to_size_t (a - b).
Proof.
  unfold to_size_t.
  rewrite Zminus_mod, !(fun z => to_size_t_to_long z : to_long z mod size_t_modulus = _).
  unfold to_size_t. rewrite <- Zminus_mod. reflexivity.
Qed.

Lemma to_long_to_size_t z : - 2 ^ 63 <= z < 2 ^ 63 -> to_long (to_size_t z) = z.
Proof.
  intros H. unfold to_long, to_size_t, size_t_modulus.
  rewrite Zplus_mod_idemp_l. rewrite Z.mod_small; lia.
Qed.

Lemma to_int_small z : - 2 ^ 31 <= z < 2 ^ 31 -> to_int z = z.
Proof. intros H. unfold to_int, int_modulus. rewrite Z.mod_small; lia. Qed.

Lemma to_uint_small z : 0 <= z < 2 ^ 32 -> to_uint z = z.
Proof. intros H. unfold to_uint, int_modulus. apply Z.mod_small. exact H. Qed.

End MachineFacts.

(** ** TLAB donation *)

Module TlabProperties.
Import Tlab TlabNotions MachineFacts.

(** *** The call log and the terminal under the primitive operations *)

Lemma calls_print l vm : calls (print l vm) = calls vm.
Proof. reflexivity. Qed.

Lemma tty_print l vm : tty (print l vm) = tty vm ++ [l].
Proof. reflexivity. Qed.

Lemma calls_tlab_fill rt t s p n vm :
  calls (tlab_fill rt t s p n vm) = calls vm ++ [call_fill t s p n].
Proof. reflexivity. Qed.

Lemma tty_tlab_fill rt t s p n vm : tty (tlab_fill rt t s p n vm) = tty vm.
Proof. reflexivity. Qed.

Lemma calls_tlab_make_parsable t retire vm :
  calls (tlab_make_parsable t retire vm) = calls vm ++ [call_make_parsable t retire].
Proof. unfold tlab_make_parsable. case (_ || _); reflexivity. Qed.

Lemma tty_tlab_make_parsable t retire vm :
  tty (tlab_make_parsable t retire vm) = tty vm.
Proof. unfold tlab_make_parsable. case (_ || _); reflexivity. Qed.

Create Rewrite HintDb vm_log.
#[local] Hint Rewrite calls_print tty_print calls_tlab_fill tty_tlab_fill
  calls_tlab_make_parsable tty_tlab_make_parsable : vm_log.


(** What one turn of the loop does to the sweep. *)
Lemma cleanup_tlabInfo_Done rt i sw r :
  sw_pool sw !! i = Some r ->
  exists vm',
    cleanup_tlabInfo rt i sw
    = Done {| sw_pool := <[i := rolled_back r]> (sw_pool sw);
              sw_vm := vm';
              sw_anyOverflows := sw_anyOverflows sw || overflowed r;
              sw_bytesAllocated :=
                if start r =? NULL then sw_bytesAllocated sw
                else Machine.to_size_t
                       (sw_bytesAllocated sw
                        + Machine.to_size_t (region_bytes (rolled_back r))) |}
    /\ calls vm' = calls (sw_vm sw) ++ region_calls rt r
    /\ exists printed, tty vm' = tty (sw_vm sw) ++ printed.
Proof.
  intros Hr. unfold cleanup_tlabInfo. rewrite Hr.
  unfold region_calls, region_bytes, rolled_back, overflowed.
  destruct (start r =? NULL) eqn:Hs; cbn [negb andb].
  - exists (sw_vm sw). rewrite list_insert_id by exact Hr.
    rewrite orb_false_r, app_nil_r. destruct sw; cbn.
    split; [reflexivity|]. split; [reflexivity|]. exists []. by rewrite app_nil_r.
  - destruct (top r >? end_ r) eqn:Ho.
    + eexists. split.
      { rewrite orb_true_r. unfold start, top, end_, original_top, last_good_top in *.
        cbn [_start _top _end _original_top _last_good_top set_top].
        rewrite Hs. rewrite to_size_t_long_diff. reflexivity. }
      autorewrite with vm_log. split.
      { destruct (_ && TraceGPUInteraction rt); autorewrite with vm_log;
          rewrite <- app_assoc; reflexivity. }
      destruct (_ && TraceGPUInteraction rt); autorewrite with vm_log.
      * eexists. reflexivity.
      * exists []. by rewrite app_nil_r.
    + eexists. split.
      { rewrite orb_false_r. rewrite Hs. rewrite to_size_t_long_diff. reflexivity. }
      autorewrite with vm_log. split; [reflexivity|]. exists []. cbn. by rewrite app_nil_r.
Qed.


Lemma sum_bytes_cons r regions :
  sum_bytes (r :: regions) = region_bytes r + sum_bytes regions.
Proof. reflexivity. Qed.

Lemma region_bytes_no_start r : start r = NULL -> region_bytes r = 0.
Proof. intros H. unfold region_bytes. rewrite H. reflexivity. Qed.

(** The loop over the slots [a], ..., [a + n - 1] of an arena that has
    them: it runs to the end, rolls back each of these tlabInfos and no
    other, and adds up their bytes. *)
Lemma cleanup_loop_seq rt n : forall a sw,
  (a + n <= length (sw_pool sw))%nat ->
  exists sw',
    cleanup_loop rt (seq a n) sw = Done sw'
    /\ sw_pool sw'
       = take a (sw_pool sw)
         ++ (rolled_back <$> take n (drop a (sw_pool sw)))
         ++ drop (a + n) (sw_pool sw)
    /\ sw_anyOverflows sw'
       = sw_anyOverflows sw || existsb overflowed (take n (drop a (sw_pool sw)))
    /\ Machine.to_size_t (sw_bytesAllocated sw')
       = Machine.to_size_t
           (sw_bytesAllocated sw
            + sum_bytes (rolled_back <$> take n (drop a (sw_pool sw))))
    /\ (0 <= sw_bytesAllocated sw < 2 ^ 64 -> 0 <= sw_bytesAllocated sw' < 2 ^ 64)
    /\ calls (sw_vm sw')
       = calls (sw_vm sw) ++ (take n (drop a (sw_pool sw)) ≫= region_calls rt)
    /\ exists printed, tty (sw_vm sw') = tty (sw_vm sw) ++ printed.
Proof.
  induction n as [|n IH]; intros a sw Hlen.
  - exists sw. rewrite !take_0.
    cbn [seq cleanup_loop fmap list_fmap existsb mbind list_bind app].
    rewrite Nat.add_0_r, take_drop, orb_false_r, app_nil_r.
    unfold sum_bytes. cbn [fmap list_fmap foldr]. rewrite Z.add_0_r.
    repeat split; try reflexivity; try tauto. exists []. by rewrite app_nil_r.
  - destruct (lookup_lt_is_Some_2 (sw_pool sw) a) as [r Hr]; [lia|].
    destruct (cleanup_tlabInfo_Done rt a sw r Hr) as (vm1 & Hstep & Hcalls1 & p1 & Htty1).
    cbn [seq cleanup_loop]. rewrite Hstep. cbn [mbind Outcome_bind].
    match goal with |- context [cleanup_loop rt _ ?s] => set (sw1 := s) end.
    destruct (IH (S a) sw1) as (sw' & Hloop & Hpool & Hany & Hbytes & Hrange & Hcalls & p2 & Htty).
    { subst sw1. cbn. rewrite length_insert. lia. }
    exists sw'. split; [exact Hloop|].
    subst sw1. cbn [sw_pool sw_vm sw_anyOverflows sw_bytesAllocated] in *.
    rewrite !drop_insert_lt in * by lia.
    rewrite (take_S_r _ a (rolled_back r)) in Hpool
      by (rewrite list_lookup_insert_eq; [done | by eapply lookup_lt_Some]).
    rewrite take_insert_ge in Hpool by lia.
    rewrite (drop_S _ r a Hr), firstn_cons. cbn [fmap list_fmap existsb mbind list_bind].
    rewrite sum_bytes_cons.
    replace (a + S n)%nat with (S a + n)%nat by lia.
    split. { rewrite Hpool, <- app_assoc. reflexivity. }
    split. { rewrite Hany, orb_assoc. reflexivity. }
    split.
    { rewrite Hbytes. destruct (start r =? NULL) eqn:Hs.
      - rewrite (region_bytes_no_start (rolled_back r)).
        + f_equal; lia.
        + unfold rolled_back, overflowed. rewrite Hs. cbn. apply Z.eqb_eq, Hs.
      - rewrite to_size_t_add_l, <- Z.add_assoc, (Z.add_comm (Machine.to_size_t _)),
          Z.add_assoc, to_size_t_add_r.
        f_equal; lia. }
    split.
    { intros H0. apply Hrange. destruct (start r =? NULL); [exact H0|].
      apply to_size_t_range. }
    split. { rewrite Hcalls, Hcalls1, <- app_assoc. reflexivity. }
    exists (p1 ++ p2). rewrite Htty, Htty1, <- app_assoc. reflexivity.
Qed.


(** [postKernelCleanup] on an object whose arena is as long as its end
    pointer says: what it leaves, in full. *)
Lemma postKernelCleanup_Done rt ai vm :
  arena_bounded ai ->
  let k := Nat.min (_tlab_infos_pool_next ai) (_tlab_infos_pool_end ai) in
  exists post,
    postKernelCleanup rt ai vm = Done post
    /\ _tlab_infos_pool_next (info post) = k
    /\ _tlab_infos_pool_end (info post) = _tlab_infos_pool_end ai
    /\ _tlab_infos_pool (info post)
       = (rolled_back <$> take k (_tlab_infos_pool ai)) ++ drop k (_tlab_infos_pool ai)
    /\ anyOverflows post = existsb overflowed (take k (_tlab_infos_pool ai))
    /\ bytesAllocated post
       = Machine.to_size_t (sum_bytes (rolled_back <$> take k (_tlab_infos_pool ai)))
    /\ calls (vm_after post)
       = calls vm ++ (take k (_tlab_infos_pool ai) ≫= region_calls rt)
    /\ ((_tlab_infos_pool_end ai < _tlab_infos_pool_next ai)%nat ->
        TraceGPUInteraction rt = true ->
        In (tty_pool_overflowed
              (Machine.to_int (Z.of_nat (_tlab_infos_pool_next ai)
                               - Z.of_nat (_tlab_infos_pool_end ai))))
           (tty (vm_after post)))
    /\ (TraceGPUInteraction rt = true ->
        exists earlier,
          tty (vm_after post)
          = earlier ++ [tty_total_bytes (Machine.to_long (bytesAllocated post))]).
Proof.
intros Hwf k. unfold arena_bounded in Hwf. unfold postKernelCleanup.
  destruct (_tlab_infos_pool_end ai <? _tlab_infos_pool_next ai)%nat eqn:Hover.
  - apply Nat.ltb_lt in Hover.
    assert (Hk : k = _tlab_infos_pool_end ai) by (subst k; lia).
    match goal with |- context [cleanup_loop rt _ ?s] => set (sw0 := s) end.
    destruct (cleanup_loop_seq rt (_tlab_infos_pool_end ai) 0 sw0)
      as (sw & Hloop & Hpool & Hany & Hbytes & Hrange & Hcalls & printed & Htty).
    { subst sw0. cbn. lia. }
    rewrite Hloop. cbn [mbind Outcome_bind mret Outcome_ret].
    eexists. split; [reflexivity|].
    subst sw0. cbn [sw_pool sw_vm sw_anyOverflows sw_bytesAllocated] in *.
    cbn [info vm_after anyOverflows bytesAllocated _tlab_infos_pool_next
         _tlab_infos_pool_end _tlab_infos_pool].
    rewrite drop_0, take_0 in *. cbn [app orb] in *. rewrite Z.add_0_l in Hbytes.
    rewrite Hk.
    split; [reflexivity|]. split; [reflexivity|]. split; [exact Hpool|].
    split; [exact Hany|].
    split. { rewrite <- Hbytes. symmetry. apply to_size_t_small, Hrange. lia. }
    split.
    { destruct (TraceGPUInteraction rt); autorewrite with vm_log;
        rewrite Hcalls; autorewrite with vm_log; reflexivity. }
    split.
    { intros _ Htrace. rewrite Htrace in *. autorewrite with vm_log.
      rewrite Htty. autorewrite with vm_log.
      apply in_or_app. left. apply in_or_app. left. apply in_or_app. right.
      left. reflexivity. }
    intros Htrace. rewrite Htrace. autorewrite with vm_log.
    eexists. reflexivity.
  - apply Nat.ltb_ge in Hover.
    assert (Hk : k = _tlab_infos_pool_next ai) by (subst k; lia).
    match goal with |- context [cleanup_loop rt _ ?s] => set (sw0 := s) end.
    destruct (cleanup_loop_seq rt (_tlab_infos_pool_next ai) 0 sw0)
      as (sw & Hloop & Hpool & Hany & Hbytes & Hrange & Hcalls & printed & Htty).
    { subst sw0. cbn. lia. }
    rewrite Hloop. cbn [mbind Outcome_bind mret Outcome_ret].
    eexists. split; [reflexivity|].
    subst sw0. cbn [sw_pool sw_vm sw_anyOverflows sw_bytesAllocated] in *.
    cbn [info vm_after anyOverflows bytesAllocated _tlab_infos_pool_next
         _tlab_infos_pool_end _tlab_infos_pool].
    rewrite drop_0, take_0 in *. cbn [app orb] in *. rewrite Z.add_0_l in Hbytes.
    rewrite Hk.
    split; [reflexivity|]. split; [reflexivity|]. split; [exact Hpool|].
    split; [exact Hany|].
    split. { rewrite <- Hbytes. symmetry. apply to_size_t_small, Hrange. lia. }
    split.
    { destruct (TraceGPUInteraction rt); autorewrite with vm_log;
        rewrite Hcalls; reflexivity. }
    split; [intros Hlt; lia|].
    intros Htrace. rewrite Htrace. autorewrite with vm_log.
    eexists. reflexivity.
Qed.


Lemma swept_slots_spec ai i :
  i ∈ swept_slots ai
  <-> (i < Nat.min (_tlab_infos_pool_next ai) (_tlab_infos_pool_end ai))%nat.
Proof. unfold swept_slots. rewrite elem_of_seq. lia. Qed.

(** The loop body does leave the arena when it is handed a slot that the
    arena does not have: the bound on the loop is what keeps it inside. *)
Lemma cleanup_tlabInfo_outside rt i sw :
  (length (sw_pool sw) <= i)%nat -> cleanup_tlabInfo rt i sw = OutOfArena i.
Proof.
  intros H. unfold cleanup_tlabInfo. rewrite (lookup_ge_None_2 _ _ H). reflexivity.
Qed.

(** C10. [HSAILTlabInfo::initialize] sets both the top and the original
    top of the record to the top it is given and does not write the last
    good top, which keeps the value the record held before; and that kept
    value is what the loop of [postKernelCleanup] puts into the top of the
    record when the record has a start and its top is beyond its end. *)
Theorem initialize_keeps_last_good_top :
  forall (r : HSAILTlabInfo) (start0 top0 end0 : Z) (donorThread : JavaThread)
         (allocInfo : Z),
    let r' := initialize r start0 top0 end0 donorThread allocInfo in
    top r' = top0
    /\ original_top r' = top0
    /\ last_good_top r' = last_good_top r
    /\ forall rt vm any bytes,
         exists sw,
           cleanup_tlabInfo rt 0 (mkSweep [r'] vm any bytes) = Done sw
           /\ top <$> sw_pool sw
              = [if negb (start0 =? NULL) && (top0 >? end0)
                 then last_good_top r else top0].
Proof.
  intros r start0 top0 end0 donorThread allocInfo r'.
  split; [reflexivity|]. split; [reflexivity|]. split; [reflexivity|].
  intros rt vm any bytes.
  destruct (cleanup_tlabInfo_Done rt 0 (mkSweep [r'] vm any bytes) r' eq_refl)
    as (vm' & Hstep & _).
  eexists. split; [exact Hstep|].
  cbn [sw_pool]. unfold rolled_back, overflowed.
  change (start r') with start0. change (top r') with top0.
  change (end_ r') with end0.
  destruct (negb (start0 =? NULL) && (top0 >? end0)); reflexivity.
Qed.

(** C4. Whatever the cursor [_tlab_infos_pool_next] has been moved to,
    [postKernelCleanup] runs to its end without a load or store outside
    the arena: it leaves the cursor at the smaller of the cursor and the
    end it found, every slot it goes through is a slot of the arena, the
    arena keeps its length and the slots from the clamped cursor on keep
    their contents, and when the cursor was beyond the end and
    [TraceGPUInteraction] is on, the line that reports the overflow is on
    the terminal. *)
Theorem cleanup_clamps_cursor :
  forall (rt : Runtime) (ai : HSAILAllocationInfo) (vm : VM),
    arena_bounded ai ->
    exists post,
      postKernelCleanup rt ai vm = Done post
      /\ _tlab_infos_pool_next (info post)
         = Nat.min (_tlab_infos_pool_next ai) (_tlab_infos_pool_end ai)
      /\ (_tlab_infos_pool_next (info post) <= _tlab_infos_pool_end (info post))%nat
      /\ Forall (fun i => (i < length (_tlab_infos_pool ai))%nat) (swept_slots ai)
      /\ arena_bounded (info post)
      /\ length (_tlab_infos_pool (info post)) = length (_tlab_infos_pool ai)
      /\ drop (_tlab_infos_pool_next (info post)) (_tlab_infos_pool (info post))
         = drop (_tlab_infos_pool_next (info post)) (_tlab_infos_pool ai)
      /\ ((_tlab_infos_pool_end ai < _tlab_infos_pool_next ai)%nat ->
          TraceGPUInteraction rt = true ->
          In (tty_pool_overflowed
                (Machine.to_int (Z.of_nat (_tlab_infos_pool_next ai)
                                 - Z.of_nat (_tlab_infos_pool_end ai))))
             (tty (vm_after post))).
Proof.
  intros rt ai vm Hwf.
  destruct (postKernelCleanup_Done rt ai vm Hwf)
    as (post & Hrun & Hnext & Hend & Hpool & _ & _ & _ & Hline & _).
  pose proof Hwf as Hlen. unfold arena_bounded in Hlen.
  assert (Hl : length (_tlab_infos_pool (info post)) = length (_tlab_infos_pool ai)).
  { rewrite Hpool, length_app, length_fmap, length_take, length_drop. lia. }
  exists post. split; [exact Hrun|]. split; [exact Hnext|].
  split; [lia|].
  split. { apply Forall_forall. intros i Hi. apply swept_slots_spec in Hi. lia. }
  split. { unfold arena_bounded. lia. }
  split; [exact Hl|].
  split; [|exact Hline].
  rewrite Hpool, Hnext. rewrite drop_app_length'; [reflexivity|].
  rewrite length_fmap, length_take. lia.
Qed.

Lemma cleanup_clamps_cursor_witness :
  arena_bounded Samples.after_kernel
  /\ exists post,
       postKernelCleanup Samples.full_heap Samples.after_kernel Samples.fresh_vm
       = Done post
       /\ _tlab_infos_pool_next (info post) = 4%nat
       /\ In (tty_pool_overflowed 2) (tty (vm_after post)).
Proof.
  split; [reflexivity|].
  destruct (cleanup_clamps_cursor Samples.full_heap Samples.after_kernel
              Samples.fresh_vm eq_refl)
    as (post & Hrun & Hnext & _ & _ & _ & _ & _ & Hline).
  exists post. split; [exact Hrun|]. split; [exact Hnext|].
  apply Hline; [cbn; lia | reflexivity].
Defined.



(** *** The count of overflows *)












Lemma swept_regions_after rt ai vm post :
  arena_bounded ai ->
  postKernelCleanup rt ai vm = Done post ->
  swept_regions (info post) = rolled_back <$> swept_regions ai
  /\ bytesAllocated post = Machine.to_size_t (sum_bytes (swept_regions (info post)))
  /\ (TraceGPUInteraction rt = true ->
      exists earlier,
        tty (vm_after post)
        = earlier ++ [tty_total_bytes (Machine.to_long (bytesAllocated post))]).
Proof.
  intros Hwf Hrun.
  destruct (postKernelCleanup_Done rt ai vm Hwf)
    as (post' & Hrun' & Hnext & _ & Hpool & _ & Hbytes & _ & _ & Hline).
  rewrite Hrun in Hrun'. injection Hrun' as <-.
  unfold arena_bounded in Hwf.
  assert (Hsw : swept_regions (info post)
                = rolled_back <$>
                    take (Nat.min (_tlab_infos_pool_next ai) (_tlab_infos_pool_end ai))
                      (_tlab_infos_pool ai)).
  { unfold swept_regions. rewrite Hpool, Hnext.
    apply take_app_length'. rewrite length_fmap, length_take. lia. }
  split; [|split].
  - rewrite Hsw. unfold swept_regions. f_equal.
    rewrite Hwf, <- take_take, firstn_all. reflexivity.
  - rewrite Hsw. exact Hbytes.
  - exact Hline.
Qed.

(** C7. [postKernelCleanup] runs to its end; the regions it went through
    are those up to the cursor, each with its top put back to its last
    good top if it had overflowed; and [bytesAllocated], a [size_t], is
    the sum over those of them whose start is set of top less original
    top, taken modulo 2^64.  So it is that sum whenever the sum is a
    [size_t]; and the total that the last trace line shows, which is
    [bytesAllocated] read as a [long], is that sum whenever the sum is a
    [long]. *)
Theorem bytes_allocated_is_sum :
  forall (rt : Runtime) (ai : HSAILAllocationInfo) (vm : VM),
    arena_bounded ai ->
    exists post,
      postKernelCleanup rt ai vm = Done post
      /\ swept_regions (info post) = rolled_back <$> swept_regions ai
      /\ bytesAllocated post
         = Machine.to_size_t (sum_bytes (swept_regions (info post)))
      /\ (0 <= sum_bytes (swept_regions (info post)) < 2 ^ 64 ->
          bytesAllocated post = sum_bytes (swept_regions (info post)))
      /\ (- 2 ^ 63 <= sum_bytes (swept_regions (info post)) < 2 ^ 63 ->
          Machine.to_long (bytesAllocated post)
          = sum_bytes (swept_regions (info post)))
      /\ (TraceGPUInteraction rt = true ->
          exists earlier,
            tty (vm_after post)
            = earlier ++ [tty_total_bytes (Machine.to_long (bytesAllocated post))]).
Proof.
  intros rt ai vm Hwf.
  destruct (postKernelCleanup_Done rt ai vm Hwf) as (post & Hrun & _).
  destruct (swept_regions_after rt ai vm post Hwf Hrun) as (Hsw & Hbytes & Hline).
  exists post. split; [exact Hrun|]. split; [exact Hsw|]. split; [exact Hbytes|].
  split; [|split]; [| |exact Hline]; intros Hrange; rewrite Hbytes.
  - apply to_size_t_small, Hrange.
  - apply to_long_to_size_t, Hrange.
Qed.

Lemma bytes_allocated_is_sum_witness :
  exists post,
    postKernelCleanup Samples.tight_heap Samples.after_kernel Samples.fresh_vm
    = Done post
    /\ sum_bytes (swept_regions (info post)) = (4200 - 4100) + (16400 - 16384)
    /\ bytesAllocated post = 116.
Proof.
  destruct (bytes_allocated_is_sum Samples.tight_heap Samples.after_kernel
              Samples.fresh_vm eq_refl)
    as (post & Hrun & Hsw & _ & Hexact & _ & _).
  exists post. split; [exact Hrun|].
  assert (Hsum : sum_bytes (swept_regions (info post)) = 116)
    by (rewrite Hsw; reflexivity).
  split; [exact Hsum|].
  rewrite Hexact; [exact Hsum|]. rewrite Hsum. lia.
Defined.

(** Where a region is rolled back below the top it was primed with, the sum
    is negative: [bytesAllocated] holds it modulo 2^64 and the trace line
    shows it as it is. *)
Lemma bytes_allocated_below_zero :
  exists post,
    postKernelCleanup Samples.full_heap Samples.never_good_only Samples.fresh_vm
    = Done post
    /\ sum_bytes (swept_regions (info post)) = -100
    /\ bytesAllocated post = 2 ^ 64 - 100
    /\ In (tty_total_bytes (-100)) (tty (vm_after post)).
Proof.
  eexists. split; [reflexivity|]. split; [reflexivity|]. split; [reflexivity|].
  vm_compute. tauto.
Qed.
End TlabProperties.

(** ** Construction of the allocation info *)

Module CtorProperties.
Import Tlab TlabNotions MachineFacts TlabProperties.

Lemma fill_from_donor_Done rt this i t cur pool vm r0 :
  pool !! i = Some r0 ->
  fill_from_donor rt this i t (cur, pool, vm)
  = Done (<[i := Some i]> cur,
          <[i := snapshot r0 (tlabs (primed rt t i vm) t) t this]> pool,
          primed rt t i vm).
Proof.
  intros H. unfold fill_from_donor, primed, snapshot.
  destruct (tlab_end (tlabs vm t) =? NULL); rewrite H; reflexivity.
Qed.

Lemma fill_from_donor_outside rt this i t cur pool vm :
  (length pool <= i)%nat ->
  fill_from_donor rt this i t (cur, pool, vm) = OutOfArena i.
Proof.
  intros H. unfold fill_from_donor. rewrite (lookup_ge_None_2 _ _ H).
  destruct (tlab_end (tlabs vm t) =? NULL); reflexivity.
Qed.

(** The loop over the donor threads leaves the arena as soon as it has
    filled it. *)
Lemma fill_from_donors_beyond rt this : forall donors i cur pool vm,
  (i <= length pool)%nat ->
  (length pool < i + length donors)%nat ->
  fill_from_donors rt this i donors (cur, pool, vm) = OutOfArena (length pool).
Proof.
  induction donors as [|t rest IH]; intros i cur pool vm Hi Hlen.
  - cbn in Hlen. lia.
  - cbn [length] in Hlen. cbn [fill_from_donors].
    destruct (decide (i = length pool)) as [->|Hne].
    + rewrite fill_from_donor_outside by lia. reflexivity.
    + destruct (lookup_lt_is_Some_2 pool i) as [r0 Hr0]; [lia|].
      rewrite (fill_from_donor_Done _ _ _ _ _ _ _ r0 Hr0).
      cbn [mbind Outcome_bind].
      rewrite IH; rewrite ?length_insert; [reflexivity | lia | lia].
Qed.

(** With fewer slots in the arena than donor threads, the constructor
    writes the record of a donor thread past the end of the arena. *)
Lemma ctor_beyond_capacity rt this raw t0 rest dimX allocBytesPerWorkitem vm
    donors max_tlab_infos :
  donors = t0 :: rest ->
  max_tlab_infos
  = Z.to_nat (compute_max_tlab_infos rt (Z.of_nat (length donors)) t0) ->
  (max_tlab_infos < length donors)%nat ->
  HSAILAllocationInfo_ctor rt this raw donors dimX allocBytesPerWorkitem vm
  = OutOfArena max_tlab_infos.
Proof.
  intros Hdonors Hmax Hcap. subst donors.
  unfold HSAILAllocationInfo_ctor. cbv beta iota zeta. rewrite <- Hmax.
  rewrite fill_from_donors_beyond; rewrite ?length_fmap, ?length_seq;
    [reflexivity | lia | lia].
Qed.

Section Loop.
Variables (rt : Runtime) (this : Z).
(** What is known of the VM throughout, and what it gives for each
    record made. *)
Variable Inv : VM -> Prop.
Variable Q : JavaThread -> HSAILTlabInfo -> Prop.
Hypothesis Inv_primed : forall t i vm, Inv vm -> Inv (primed rt t i vm).
Hypothesis Q_snapshot :
  forall t i vm r0,
    Inv vm -> Q t (snapshot r0 (tlabs (primed rt t i vm) t) t this).

Lemma fill_from_donors_Done : forall donors i cur pool vm,
  Inv vm ->
  (i + length donors <= length pool)%nat ->
  (i + length donors <= length cur)%nat ->
  exists cur' pool' vm',
    fill_from_donors rt this i donors (cur, pool, vm) = Done (cur', pool', vm')
    /\ Inv vm'
    /\ length cur' = length cur
    /\ length pool' = length pool
    /\ (forall j, (j < i)%nat -> cur' !! j = cur !! j /\ pool' !! j = pool !! j)
    /\ (forall j, (i + length donors <= j)%nat -> pool' !! j = pool !! j)
    /\ (forall k t, donors !! k = Some t ->
          cur' !! (i + k)%nat = Some (Some (i + k)%nat)
          /\ exists r0 r, pool !! (i + k)%nat = Some r0
               /\ pool' !! (i + k)%nat = Some r
               /\ last_good_top r = last_good_top r0
               /\ Q t r).
Proof.
  induction donors as [|t rest IH]; intros i cur pool vm HI Hp Hc.
  - exists cur, pool, vm. cbn. repeat split; try done.
  - cbn [length] in Hp, Hc.
    destruct (lookup_lt_is_Some_2 pool i) as [r0 Hr0]; [lia|].
    cbn [fill_from_donors]. rewrite (fill_from_donor_Done _ _ _ _ _ _ _ r0 Hr0).
    cbn [mbind Outcome_bind].
    set (r := snapshot r0 (tlabs (primed rt t i vm) t) t this).
    destruct (IH (S i) (<[i := Some i]> cur) (<[i := r]> pool) (primed rt t i vm))
      as (cur' & pool' & vm' & Hrun & HI' & Hlc & Hlp & Hbefore & Hafter & Hrec).
    { apply Inv_primed, HI. }
    { rewrite length_insert. lia. }
    { rewrite length_insert. lia. }
    exists cur', pool', vm'. split; [exact Hrun|]. split; [exact HI'|].
    rewrite length_insert in Hlc. rewrite length_insert in Hlp.
    split; [exact Hlc|]. split; [exact Hlp|].
    split.
    { intros j Hj. destruct (Hbefore j) as [Hcj Hpj]; [lia|].
      rewrite Hcj, Hpj, !list_lookup_insert_ne by lia. done. }
    split.
    { intros j Hj. cbn [length] in Hj. rewrite Hafter by lia.
      rewrite list_lookup_insert_ne by lia. done. }
    intros [|k] t' Hk.
    + injection Hk as <-. rewrite Nat.add_0_r.
      destruct (Hbefore i) as [Hci Hpi]; [lia|].
      rewrite Hci, Hpi, !list_lookup_insert_eq by lia.
      split; [done|]. exists r0, r. repeat split; try done.
      subst r. apply Q_snapshot, HI.
    + cbn in Hk. destruct (Hrec k t' Hk) as (Hck & r0' & r' & Hr0' & Hr' & Hlgt & HQ).
      replace (i + S k)%nat with (S i + k)%nat by lia.
      split; [exact Hck|]. exists r0', r'.
      rewrite list_lookup_insert_ne in Hr0' by lia. done.
Qed.


Lemma ctor_Done raw t0 rest dimX allocBytesPerWorkitem vm donors max_tlab_infos :
  donors = t0 :: rest ->
  max_tlab_infos
  = Z.to_nat (compute_max_tlab_infos rt (Z.of_nat (length donors)) t0) ->
  Inv vm ->
  (length donors <= max_tlab_infos)%nat ->
  exists ai vm',
    HSAILAllocationInfo_ctor rt this raw donors dimX allocBytesPerWorkitem vm
    = Done (ai, vm')
    /\ Inv vm'
    /\ donorThreads ai = donors
    /\ _tlab_infos_pool_next ai = length donors
    /\ _tlab_infos_pool_end ai = max_tlab_infos
    /\ length (_tlab_infos_pool ai) = max_tlab_infos
    /\ _cur_tlab_infos ai = Some <$> seq 0 (length donors)
    /\ (forall i t, donors !! i = Some t ->
          exists r, _tlab_infos_pool ai !! i = Some r
            /\ last_good_top r = last_good_top (raw i)
            /\ Q t r)
    /\ (forall j, (length donors <= j)%nat ->
          _tlab_infos_pool ai !! j = (raw <$> seq 0 max_tlab_infos) !! j).
Proof.
  intros Hdonors Hmax HI Hcap. subst donors.
  unfold HSAILAllocationInfo_ctor. cbv beta iota zeta. rewrite <- Hmax.
  set (donors := t0 :: rest) in *.
  destruct (fill_from_donors_Done donors 0
              (replicate (length donors) None)
              (raw <$> seq 0 max_tlab_infos) vm HI)
    as (cur' & pool' & vm' & Hrun & HI' & Hlc & Hlp & _ & Hafter & Hrec).
  { rewrite length_fmap, length_seq. lia. }
  { rewrite length_replicate. lia. }
  rewrite Hrun. cbn [mbind Outcome_bind mret Outcome_ret].
  rewrite length_replicate in Hlc. rewrite length_fmap, length_seq in Hlp.
  eexists _, _. split; [reflexivity|].
  cbn [donorThreads _tlab_infos_pool_next _tlab_infos_pool_end
       _tlab_infos_pool _cur_tlab_infos].
  split; [exact HI'|]. split; [reflexivity|]. split; [reflexivity|].
  split; [reflexivity|]. split; [exact Hlp|].
  split.
  { apply list_eq. intros k. destruct (decide (k < length donors)%nat) as [Hk|Hk].
    - destruct (lookup_lt_is_Some_2 donors k Hk) as [t Ht].
      destruct (Hrec k t Ht) as [Hc _]. cbn in Hc. rewrite Hc.
      rewrite list_lookup_fmap, lookup_seq_lt by exact Hk. reflexivity.
    - rewrite !lookup_ge_None_2; [reflexivity| |].
      + rewrite length_fmap, length_seq. lia.
      + lia. }
  split.
  { intros i t Ht. destruct (Hrec i t Ht) as (_ & r0 & r & Hr0 & Hr & Hlgt & HQ).
    cbn in Hr0, Hr. exists r. split; [exact Hr|]. split; [|exact HQ].
    rewrite Hlgt. rewrite list_lookup_fmap in Hr0.
    destruct (seq 0 max_tlab_infos !! i) as [i'|] eqn:Hi; [|discriminate].
    apply lookup_seq in Hi as [-> _]. injection Hr0 as <-. reflexivity. }
  intros j Hj. apply Hafter. lia.
Qed.
End Loop.


(** *** Getting a new TLAB for a donor thread *)

Lemma tlabs_clear_before_allocation t vm :
  tlabs (tlab_clear_before_allocation t vm)
  = if tlab_end (tlabs vm t) =? NULL then tlabs vm
    else <[t := no_tlab]> (tlabs vm).
Proof.
  unfold tlab_clear_before_allocation, tlab_make_parsable. cbn.
  destruct (tlab_end (tlabs vm t) =? NULL); reflexivity.
Qed.

Lemma calls_clear_before_allocation t vm :
  calls (tlab_clear_before_allocation t vm)
  = calls vm ++ [call_clear_before_allocation t; call_make_parsable t true].
Proof.
  unfold tlab_clear_before_allocation. rewrite calls_tlab_make_parsable.
  cbn. rewrite <- app_assoc. reflexivity.
Qed.

Lemma tlab_requests_clear_before_allocation t vm :
  tlab_requests (tlab_clear_before_allocation t vm) = tlab_requests vm.
Proof.
  unfold tlab_clear_before_allocation, tlab_make_parsable. cbn.
  destruct (_ || _); reflexivity.
Qed.

(** When no TLAB can be had the function answers false, and has done no
    more than retire what the thread had and, if there was a size to ask
    for, ask the heap. *)
Lemma getNewTlabForDonorThread_fails rt t i vm :
  priming_fails rt t vm ->
  let result := getNewTlabForDonorThread rt t i vm in
  fst result = false
  /\ tlabs (snd result) = tlabs (tlab_clear_before_allocation t vm)
  /\ calls (snd result)
     = calls vm
       ++ [call_clear_before_allocation t; call_make_parsable t true]
       ++ (if compute_size rt t =? 0 then []
           else [call_allocate_new_tlab (compute_size rt t) NULL]).
Proof.
  intros Hfail. unfold getNewTlabForDonorThread. cbv zeta.
  destruct (compute_size rt t =? 0) eqn:Hsize.
  - cbn [fst snd]. rewrite calls_clear_before_allocation. done.
  - destruct Hfail as [H0|Hnull]; [apply Z.eqb_neq in Hsize; contradiction|].
    unfold heap_allocate_new_tlab.
    rewrite tlab_requests_clear_before_allocation, Hnull.
    change (NULL =? NULL) with true. cbn [fst snd].
    split; [reflexivity|]. split; [reflexivity|].
    cbn. rewrite calls_clear_before_allocation, <- app_assoc. reflexivity.
Qed.

(** Otherwise it answers true, and the TLAB of the thread is the block
    that the heap gave, empty. *)
Lemma getNewTlabForDonorThread_succeeds rt t i vm :
  compute_size rt t <> 0 ->
  allocate_new_tlab rt (tlab_requests vm) (compute_size rt t) <> NULL ->
  let result := getNewTlabForDonorThread rt t i vm in
  let p := allocate_new_tlab rt (tlab_requests vm) (compute_size rt t) in
  fst result = true
  /\ tlabs (snd result)
     = <[t := {| tlab_start := p; tlab_top := p;
                 tlab_end := ptr_add p (compute_size rt t - alignment_reserve rt) |}]>
         (tlabs (tlab_clear_before_allocation t vm)).
Proof.
  intros Hsize Hp. unfold getNewTlabForDonorThread. cbv zeta.
  apply Z.eqb_neq in Hsize. rewrite Hsize.
  unfold heap_allocate_new_tlab. rewrite tlab_requests_clear_before_allocation.
  apply Z.eqb_neq in Hp. rewrite Hp.
  destruct (ZeroTLAB rt); split; reflexivity.
Qed.

Lemma priming_fails_dec rt t vm :
  priming_fails rt t vm
  \/ (compute_size rt t <> 0
      /\ allocate_new_tlab rt (tlab_requests vm) (compute_size rt t) <> NULL).
Proof.
  unfold priming_fails.
  destruct (decide (compute_size rt t = 0)); [tauto|].
  destruct (decide (allocate_new_tlab rt (tlab_requests vm) (compute_size rt t) = NULL));
    tauto.
Qed.

Lemma primed_other rt t t' i vm :
  t <> t' -> tlabs (primed rt t i vm) t' = tlabs vm t'.
Proof.
  intros Hne. unfold primed.
  destruct (tlab_end (tlabs vm t) =? NULL) eqn:Hend; [|reflexivity].
  destruct (priming_fails_dec rt t vm) as [Hf|[Hs Hp]].
  - destruct (getNewTlabForDonorThread_fails rt t i vm Hf) as (_ & -> & _).
    rewrite tlabs_clear_before_allocation, Hend. reflexivity.
  - destruct (getNewTlabForDonorThread_succeeds rt t i vm Hs Hp) as (_ & ->).
    rewrite fn_lookup_insert_ne by exact Hne.
    rewrite tlabs_clear_before_allocation, Hend. reflexivity.
Qed.

Lemma never_primes_fails rt t vm : never_primes rt t -> priming_fails rt t vm.
Proof. intros [H|H]; [left; exact H | right; apply H]. Qed.

Lemma primed_never rt t i vm :
  never_primes rt t -> tlabs vm t = no_tlab -> tlabs (primed rt t i vm) t = no_tlab.
Proof.
  intros Hn Hnone. unfold primed. rewrite Hnone. change (tlab_end no_tlab =? NULL) with true.
  destruct (getNewTlabForDonorThread_fails rt t i vm (never_primes_fails rt t vm Hn))
    as (_ & -> & _).
  rewrite tlabs_clear_before_allocation, Hnone. exact Hnone.
Qed.

Lemma primed_in_order rt t i vm :
  heap_in_order rt ->
  (forall t', tlab_in_order (tlabs vm t')) ->
  forall t', tlab_in_order (tlabs (primed rt t i vm) t').
Proof.
  intros [Hsize Haddr] Hvm t'. unfold primed.
  destruct (tlab_end (tlabs vm t) =? NULL) eqn:Hend; [|apply Hvm].
  destruct (priming_fails_dec rt t vm) as [Hf|[Hs Hp]].
  - destruct (getNewTlabForDonorThread_fails rt t i vm Hf) as (_ & -> & _).
    rewrite tlabs_clear_before_allocation, Hend. apply Hvm.
  - destruct (getNewTlabForDonorThread_succeeds rt t i vm Hs Hp) as (_ & ->).
    rewrite tlabs_clear_before_allocation, Hend.
    destruct (decide (t = t')) as [<-|Hne].
    + rewrite fn_lookup_insert. unfold tlab_in_order, ptr_add, HeapWordSize. cbn.
      specialize (Haddr (tlab_requests vm) (compute_size rt t)).
      destruct (Hsize t); [contradiction|]. lia.
    + rewrite fn_lookup_insert_ne by exact Hne. apply Hvm.
Qed.


Lemma unprimed_snapshot r0 t this : unprimed (snapshot r0 no_tlab t this).
Proof. repeat split. Qed.

(** Built within the capacity of its arena, the object has one record for
    each donor thread, in order, each a copy of the start, top and end of a
    TLAB that is in order. *)
Lemma ctor_regions_well_formed rt this raw t0 rest dimX allocBytesPerWorkitem vm :
  let donors := t0 :: rest in
  heap_in_order rt ->
  (forall t, tlab_in_order (tlabs vm t)) ->
  (length donors
   <= Z.to_nat (compute_max_tlab_infos rt (Z.of_nat (length donors)) t0))%nat ->
  exists ai vm',
    HSAILAllocationInfo_ctor rt this raw donors dimX allocBytesPerWorkitem vm
    = Done (ai, vm')
    /\ getCurTlabInfos ai = Some <$> seq 0 (length donors)
    /\ forall i t, donors !! i = Some t ->
         exists r, _tlab_infos_pool ai !! i = Some r
           /\ _donor_thread r = t
           /\ (region_well_formed r \/ unprimed r).
Proof.
  intros donors Hheap Hvm Hcap.
  destruct (ctor_Done rt this
              (fun vm => forall t, tlab_in_order (tlabs vm t))
              (fun t r => _donor_thread r = t /\ region_well_formed r)
              (fun t i vm H => primed_in_order rt t i vm Hheap H))
    with (raw := raw) (t0 := t0) (rest := rest) (vm := vm) (donors := donors)
         (dimX := dimX) (allocBytesPerWorkitem := allocBytesPerWorkitem)
         (max_tlab_infos :=
            Z.to_nat (compute_max_tlab_infos rt (Z.of_nat (length donors)) t0))
    as (ai & vm' & Hrun & _ & _ & _ & _ & _ & Hcur & Hrec & _);
    try done.
  - intros t i vm1 r0 H1. split; [reflexivity|].
    pose proof (primed_in_order rt t i vm1 Hheap H1 t) as Ho.
    unfold region_well_formed, snapshot, tlab_in_order in *. cbn. lia.
  - exists ai, vm'. split; [exact Hrun|]. split; [exact Hcur|].
    intros i t Ht. destruct (Hrec i t Ht) as (r & Hr & _ & Hd & Hwf).
    exists r. tauto.
Qed.

(** Within the capacity of the arena, whether or not a TLAB can be had for
    a donor thread has no part in how the constructor ends.  An attempt
    that fails (no size, or no room in the heap) answers false and leaves
    the TLAB of the thread as retiring it left it.  Built for at least one
    donor thread within the capacity of its arena, the object is complete
    whatever the heap answers: one current record for each donor thread, in
    order, naming its thread and this object; and the record of a thread
    that had no TLAB and for which none can be had is the unprimed one. *)
Theorem priming_failure_is_not_fatal :
  forall (rt : Runtime) (this : Z) (raw : nat -> HSAILTlabInfo)
         (t0 : JavaThread) (rest : list JavaThread)
         (dimX allocBytesPerWorkitem : Z) (vm : VM),
    let donors := t0 :: rest in
    (length donors
     <= Z.to_nat (compute_max_tlab_infos rt (Z.of_nat (length donors)) t0))%nat ->
    (forall t i vm0,
        priming_fails rt t vm0 ->
        fst (getNewTlabForDonorThread rt t i vm0) = false
        /\ tlabs (snd (getNewTlabForDonorThread rt t i vm0))
           = tlabs (tlab_clear_before_allocation t vm0))
    /\ exists ai vm',
         HSAILAllocationInfo_ctor rt this raw donors dimX allocBytesPerWorkitem vm
         = Done (ai, vm')
         /\ getCurTlabInfos ai = Some <$> seq 0 (length donors)
         /\ (forall i t, donors !! i = Some t ->
               exists r, _tlab_infos_pool ai !! i = Some r
                 /\ _donor_thread r = t
                 /\ _alloc_info r = this
                 /\ original_top r = top r)
         /\ (forall i t, donors !! i = Some t ->
               tlabs vm t = no_tlab ->
               never_primes rt t ->
               exists r, _tlab_infos_pool ai !! i = Some r /\ unprimed r).
Proof.
  intros rt this raw t0 rest dimX allocBytesPerWorkitem vm donors Hcap.
  split.
  { intros t i vm0 Hf.
    destruct (getNewTlabForDonorThread_fails rt t i vm0 Hf) as (H1 & H2 & _).
    split; assumption. }
  destruct (ctor_Done rt this (fun _ => True)
              (fun t r => _donor_thread r = t /\ _alloc_info r = this
                          /\ original_top r = top r))
    with (raw := raw) (t0 := t0) (rest := rest) (vm := vm) (donors := donors)
         (dimX := dimX) (allocBytesPerWorkitem := allocBytesPerWorkitem)
         (max_tlab_infos :=
            Z.to_nat (compute_max_tlab_infos rt (Z.of_nat (length donors)) t0))
    as (ai & vm' & Hrun & _ & _ & _ & _ & _ & Hcur & Hrec & _);
    try done.
  exists ai, vm'. split; [exact Hrun|]. split; [exact Hcur|]. split.
  { intros i t Ht. destruct (Hrec i t Ht) as (r & Hr & _ & HQ). exists r. tauto. }
  intros i t Ht Hnone Hnever.
  destruct (ctor_Done rt this (fun vm => tlabs vm t = no_tlab)
              (fun t' r => t' = t -> unprimed r))
    with (raw := raw) (t0 := t0) (rest := rest) (vm := vm) (donors := donors)
         (dimX := dimX) (allocBytesPerWorkitem := allocBytesPerWorkitem)
         (max_tlab_infos :=
            Z.to_nat (compute_max_tlab_infos rt (Z.of_nat (length donors)) t0))
    as (ai2 & vm2 & Hrun2 & _ & _ & _ & _ & _ & _ & Hrec2 & _);
    try done.
  - intros t' j vm1 H1. destruct (decide (t' = t)) as [->|Hne].
    + apply primed_never; assumption.
    + rewrite primed_other by exact Hne. exact H1.
  - intros t' j vm1 r0 H1 ->. rewrite (primed_never rt t j vm1 Hnever H1).
    apply unprimed_snapshot.
  - rewrite Hrun in Hrun2. injection Hrun2 as <- <-.
    destruct (Hrec2 i t Ht) as (r & Hr & _ & HQ). exists r. split; [exact Hr|].
    apply HQ. reflexivity.
Qed.

Lemma priming_failure_is_not_fatal_witness :
  exists ai vm',
    HSAILAllocationInfo_ctor Samples.full_heap 555 Samples.stale [1; 2]%nat 1 1
      Samples.fresh_vm
    = Done (ai, vm')
    /\ getCurTlabInfos ai = [Some 0; Some 1]%nat
    /\ (exists r, _tlab_infos_pool ai !! 1%nat = Some r /\ unprimed r).
Proof.
  destruct (priming_failure_is_not_fatal Samples.full_heap 555 Samples.stale
              1%nat [2%nat] 1 1 Samples.fresh_vm)
    as (_ & ai & vm' & Hrun & Hcur & _ & Hnone).
  - vm_compute. lia.
  - exists ai, vm'. split; [exact Hrun|]. split; [exact Hcur|].
    apply (Hnone 1%nat 2%nat); [reflexivity | reflexivity | left; reflexivity].
Defined.

(** C9 fails where the pool is exhausted.  On a heap that reports 8192
    bytes free for TLABs of 1024 words and gives none, every attempt to
    prime a TLAB fails and the arena is made with eight slots.  For eight
    donor threads the constructor ends with eight unprimed records.  For
    nine it does not end: having recorded eight, it writes the record of
    the ninth donor thread through a pointer past the end of the arena. *)
Theorem priming_failure_beyond_capacity :
  length Samples.nine_donors = 9%nat
  /\ compute_max_tlab_infos Samples.exhausted_heap 9 1%nat = 8
  /\ (forall (t : JavaThread) (i : nat) (vm : VM),
        priming_fails Samples.exhausted_heap t vm
        /\ fst (getNewTlabForDonorThread Samples.exhausted_heap t i vm) = false)
  /\ (exists ai vm',
        HSAILAllocationInfo_ctor Samples.exhausted_heap 555 Samples.stale
          (seq 1 8) 1 1 Samples.fresh_vm
        = Done (ai, vm')
        /\ getCurTlabInfos ai = Some <$> seq 0 8
        /\ length (_tlab_infos_pool ai) = 8%nat
        /\ Forall unprimed (_tlab_infos_pool ai))
  /\ HSAILAllocationInfo_ctor Samples.exhausted_heap 555 Samples.stale
       Samples.nine_donors 1 1 Samples.fresh_vm
     = OutOfArena 8.
Proof.
  split; [reflexivity|]. split; [reflexivity|]. split; [|split; [|reflexivity]].
  - intros t i vm.
    assert (Hfails : priming_fails Samples.exhausted_heap t vm)
      by (right; reflexivity).
    split; [exact Hfails|].
    exact (proj1 (getNewTlabForDonorThread_fails Samples.exhausted_heap t i vm Hfails)).
  - eexists _, _. split; [reflexivity|]. split; [reflexivity|].
    split; [reflexivity|]. repeat constructor.
Qed.

(** C2 fails where the arena is shorter than the list of donor threads.
    With nine donor threads and a heap that has 8192 bytes left for TLABs
    of 1024 words, the arena is made with eight slots, and the record for
    the ninth donor thread is written through a pointer past its end. *)
Lemma ctor_leaves_arena :
  length Samples.nine_donors = 9%nat
  /\ compute_max_tlab_infos Samples.tight_heap 9 1%nat = 8
  /\ HSAILAllocationInfo_ctor Samples.tight_heap 555 Samples.stale
       Samples.nine_donors 1 1 Samples.fresh_vm
     = OutOfArena 8.
Proof. repeat split. Qed.
End CtorProperties.

(** ** The PTX driver bridge *)

Module PtxProperties.
Import Ptx PtxNotions MachineFacts.

(** The [switch] of [ncores] as a chain of comparisons. *)
Lemma ncores_switch {R} major minor (p : Process) :
  ncores (R := R) major minor p
  = let device_type := Machine.to_int (Z.shiftl major 4 + minor) in
    if (device_type =? 0x10) || (device_type =? 0x11)
       || (device_type =? 0x12) || (device_type =? 0x13)
    then (p, inr 8)
    else if device_type =? 0x20 then (p, inr 32)
    else if device_type =? 0x21 then (p, inr 48)
    else if (device_type =? 0x30) || (device_type =? 0x35) then (p, inr 192)
    else (log_line {| format := "[CUDA] Warning: Unhandled device %x";
                      args := [device_type] |} p, inr 0).
Proof.
  unfold ncores. cbv zeta.
  generalize (Machine.to_int (Z.shiftl major 4 + minor)). intros dt.
  destruct dt as [|q|q]; try reflexivity.
  do 6 (destruct q as [q|q|]; try reflexivity).
Qed.

(** [ncores] against the table of the specification. *)
Lemma ncores_table {R} major minor (p : Process) :
  0 <= major < 2 ^ 27 ->
  0 <= minor < 16 ->
  ncores (R := R) major minor p
  = (if spec_cores_per_multiprocessor major minor =? 0
     then log_line (unhandled_device_warning major minor) p
     else p,
     inr (spec_cores_per_multiprocessor major minor)).
Proof.
  intros Hmajor Hminor. rewrite ncores_switch. cbv zeta.
  rewrite Z.shiftl_mul_pow2 by lia. change (2 ^ 4) with 16.
  rewrite to_int_small by lia.
  unfold spec_cores_per_multiprocessor, unhandled_device_warning.
  replace (major * 16 + minor) with (16 * major + minor) by lia.
  assert (Hcases : major = 1 \/ major = 2 \/ major = 3
                   \/ (major = 0 \/ 4 <= major)) by lia.
  destruct Hcases as [->|[->|[->|Hother]]].
  1-3: assert (Hdigit : minor = 0 \/ minor = 1 \/ minor = 2 \/ minor = 3
                        \/ minor = 4 \/ minor = 5 \/ minor = 6 \/ minor = 7
                        \/ minor = 8 \/ minor = 9 \/ minor = 10 \/ minor = 11
                        \/ minor = 12 \/ minor = 13 \/ minor = 14 \/ minor = 15)
         by lia;
       repeat (destruct Hdigit as [->|Hdigit]; [reflexivity|]);
       subst minor; reflexivity.
  repeat match goal with
         | |- context [?a =? ?b] =>
             rewrite (proj2 (Z.eqb_neq a b)) by lia
         end.
  reflexivity.
Qed.


(** *** Running a body *)

Lemma bind_goes_on {S R A B} (m : Body S R A) (f : A -> Body S R B) s s' a :
  m s = (s', inr a) -> (m ≫= f) s = f a s'.
Proof. intros H. unfold mbind, Body_bind. rewrite H. reflexivity. Qed.

Lemma bind_returns {S R A B} (m : Body S R A) (f : A -> Body S R B) s s' r :
  m s = (s', inl r) -> (m ≫= f) s = (s', inl r).
Proof. intros H. unfold mbind, Body_bind. rewrite H. reflexivity. Qed.

Lemma get_attribute_succeeds d attrib failure (p : Process) :
  status (d (cuDeviceGetAttribute attrib (_cu_device p))) = GRAAL_CUDA_SUCCESS ->
  get_attribute_or_return_0 d attrib failure p
  = (log_driver_call (cuDeviceGetAttribute attrib (_cu_device p)) p,
     inr (value (d (cuDeviceGetAttribute attrib (_cu_device p))))).
Proof.
  intros H. unfold get_attribute_or_return_0, read, call, failed, when.
  unfold mbind, Body_bind. rewrite H. reflexivity.
Qed.

Lemma tty_log_driver_call c p : tty (log_driver_call c p) = tty p.
Proof. reflexivity. Qed.

Lemma tty_log_line l p : tty (log_line l p) = tty p ++ [l].
Proof. reflexivity. Qed.

(** C8. When the driver answers every attribute query, for a device of
    compute capability major.minor (major below 2^27, minor a hexadecimal
    digit, as the packing [(major << 4) + minor] supposes) with so many
    multiprocessors that the product is an [int]: [ncores] gives what the
    table of the specification gives (8 for 1.0 to 1.3, 32 for 2.0, 48 for
    2.1, 192 for 3.0 and 3.5, 0 otherwise), printing the warning for a pair
    that is not in the table and nothing else; and [total_cores] returns
    the number of multiprocessors times that, with the warning on the
    terminal when the pair is not in the table. *)
Theorem total_cores_follows_table :
  forall (TraceGPUInteraction : bool) (d : Driver) (p : Process),
    let dev := _cu_device p in
    let major := value (d (cuDeviceGetAttribute COMPUTE_CAPABILITY_MAJOR dev)) in
    let minor := value (d (cuDeviceGetAttribute COMPUTE_CAPABILITY_MINOR dev)) in
    let nmp := value (d (cuDeviceGetAttribute MULTIPROCESSOR_COUNT dev)) in
    (forall attrib,
        status (d (cuDeviceGetAttribute attrib dev)) = GRAAL_CUDA_SUCCESS) ->
    0 <= major < 2 ^ 27 ->
    0 <= minor < 16 ->
    0 <= nmp * spec_cores_per_multiprocessor major minor < 2 ^ 31 ->
    (forall q : Process,
        ncores (R := Z) major minor q
        = (if spec_cores_per_multiprocessor major minor =? 0
           then log_line (unhandled_device_warning major minor) q
           else q,
           inr (spec_cores_per_multiprocessor major minor)))
    /\ snd (total_cores TraceGPUInteraction d p)
       = nmp * spec_cores_per_multiprocessor major minor
    /\ (spec_cores_per_multiprocessor major minor = 0 ->
        In (unhandled_device_warning major minor)
           (tty (fst (total_cores TraceGPUInteraction d p)))).
Proof.
  intros trace d p dev major minor nmp Hok Hmajor Hminor Hnmp.
  split; [intros q; apply ncores_table; assumption|].
  unfold total_cores, run_body.
  do 3 (erewrite bind_goes_on by (apply get_attribute_succeeds; apply Hok)).
  cbn [_cu_device log_driver_call].
  erewrite bind_goes_on by (apply ncores_table; assumption).
  fold dev major minor nmp.
  rewrite to_int_small by lia.
  destruct (spec_cores_per_multiprocessor major minor =? 0) eqn:Hzero;
    do 5 (erewrite bind_goes_on by (apply get_attribute_succeeds; apply Hok));
    (erewrite bind_goes_on by reflexivity);
    destruct trace; cbn [when];
    unfold print_cr, modify, mbind, Body_bind, mret, Body_ret; cbn [snd fst];
    (split; [apply to_uint_small; lia|]); intros H0;
    try (apply Z.eqb_neq in Hzero; contradiction);
    cbn [tty log_line log_driver_call];
    rewrite !in_app_iff; cbn [In]; tauto.
Qed.

Lemma total_cores_follows_table_witness :
  snd (total_cores false (Samples.device 3 0 15) Samples.idle) = 2880
  /\ snd (total_cores false (Samples.device 9 9 15) Samples.idle) = 0
  /\ tty (fst (total_cores false (Samples.device 9 9 15) Samples.idle))
     = [{| format := "[CUDA] Warning: Unhandled device %x"; args := [0x99] |}]
  /\ In (unhandled_device_warning 9 9)
        (tty (fst (total_cores false (Samples.device 9 9 15) Samples.idle))).
Proof.
  destruct (total_cores_follows_table false (Samples.device 3 0 15) Samples.idle)
    as (_ & H30 & _); [intros []; reflexivity | cbn; lia | cbn; lia | cbn; lia |].
  destruct (total_cores_follows_table false (Samples.device 9 9 15) Samples.idle)
    as (_ & H99 & W99); [intros []; reflexivity | cbn; lia | cbn; lia | cbn; lia |].
  split; [exact H30|]. split; [exact H99|]. split; [reflexivity|].
  apply W99. reflexivity.
Defined.

(** Taking the statements of a body apart, one driver call at a time. *)
(** Taking the statements of a body apart. *)
Ltac step_body :=
  cbv beta iota zeta delta
    [mbind Body_bind mret Body_ret when call print_cr
     throw_and_post_jvmti_exception modify read return_ copy_return_value
     run_body fst snd negb failed];
  cbn [_device_context _cu_device driver_calls
       log_line log_driver_call log_store post_exception put_vm_result put_ret].

(** The two ways a driver call can end. *)
Ltac case_status :=
  match goal with
  | |- context [status (?d ?c) =? GRAAL_CUDA_SUCCESS] =>
      destruct (status (d c) =? GRAAL_CUDA_SUCCESS) eqn:?
  end.

Lemma filter_calls_app kind (l1 l2 : list DriverCall) :
  length (List.filter kind (l1 ++ l2))
  = (length (List.filter kind l1) + length (List.filter kind l2))%nat.
Proof. rewrite List.filter_app, length_app. reflexivity. Qed.

(** With an encoded return type size of 0, [execute_kernel_from_vm] makes
    no call to allocate device memory and none to free it. *)
Lemma execute_kernel_from_vm_void_no_buffer trace d kernel buffer size p :
  let p' := fst (execute_kernel_from_vm trace d kernel buffer size 0 p) in
  call_count is_cuMemAlloc p' = call_count is_cuMemAlloc p
  /\ call_count is_cuMemFree p' = call_count is_cuMemFree p.
Proof.
  unfold execute_kernel_from_vm, call_count. cbv zeta.
  change (0 <? 0) with false. cbv iota.
  change (0 =? 0) with true. change (0 >? 0) with false.
  destruct (kernel =? 0) eqn:HK; destruct trace;
    step_body; repeat (case_status; step_body);
    rewrite ?filter_calls_app; cbn [List.filter is_cuMemAlloc is_cuMemFree length];
    split; lia.
Qed.


Lemma dtoh_sizes_app (p : Process) c :
  dtoh_sizes (log_driver_call c p)
  = dtoh_sizes p ++ match c with cuMemcpyDtoH _ n => [n] | _ => [] end.
Proof.
  unfold dtoh_sizes. cbn [driver_calls log_driver_call].
  rewrite omap_app. destruct c; reflexivity.
Qed.

Lemma dtoh_sizes_log_line (p : Process) l : dtoh_sizes (log_line l p) = dtoh_sizes p.
Proof. reflexivity. Qed.

Lemma dtoh_sizes_put_ret (p : Process) v : dtoh_sizes (put_ret v p) = dtoh_sizes p.
Proof. reflexivity. Qed.

Lemma dtoh_sizes_put_vm_result (p : Process) v :
  dtoh_sizes (put_vm_result v p) = dtoh_sizes p.
Proof. reflexivity. Qed.

Lemma dtoh_sizes_log_store (p : Process) a v :
  dtoh_sizes (log_store a v p) = dtoh_sizes p.
Proof. reflexivity. Qed.

Lemma dtoh_sizes_post_exception (p : Process) k m :
  dtoh_sizes (post_exception k m p) = dtoh_sizes p.
Proof. reflexivity. Qed.

Create Rewrite HintDb dtoh.
#[local] Hint Rewrite dtoh_sizes_app dtoh_sizes_log_line dtoh_sizes_put_ret
  dtoh_sizes_put_vm_result dtoh_sizes_log_store dtoh_sizes_post_exception
  app_nil_r : dtoh.

Lemma execute_warp_copy_sizes trace d dimX dimY dimZ kernel ptxka p :
  snd (execute_warp trace d dimX dimY dimZ kernel ptxka p) = true ->
  dtoh_sizes (fst (execute_warp trace d dimX dimY dimZ kernel ptxka p))
  = dtoh_sizes p ++ warp_copy_sizes (get_ret_type ptxka).
Proof.
  unfold execute_warp, failed, get_ret_type. cbv zeta.
  destruct (kernel =? NULL) eqn:HK; destruct trace;
    destruct (_return_type ptxka);
    step_body; repeat (case_status; step_body);
    cbn [warp_copy_sizes]; intros Hok; try discriminate Hok;
    autorewrite with dtoh; rewrite <- ?app_assoc; reflexivity.
Qed.


Lemma negated_int_not_zero enc :
  - 2 ^ 31 <= enc < 0 -> (Machine.to_int (- enc) =? 0) = false.
Proof.
  intros H. apply Z.eqb_neq. unfold Machine.to_int, Machine.int_modulus.
  intros E.
  destruct (Z.eq_dec enc (- 2 ^ 31)) as [->|Hne]; [discriminate E|].
  rewrite Z.mod_small in E by lia. lia.
Qed.

Lemma execute_kernel_from_vm_copy_sizes trace d kernel buffer size enc p :
  - 2 ^ 31 <= enc < 2 ^ 31 ->
  pending_exception p = None ->
  pending_exception (fst (execute_kernel_from_vm trace d kernel buffer size enc p))
  = None ->
  dtoh_sizes (fst (execute_kernel_from_vm trace d kernel buffer size enc p))
  = dtoh_sizes p ++ vm_copy_sizes enc.
Proof.
  intros Hint Hnone.
  unfold execute_kernel_from_vm, vm_copy_sizes. cbv zeta.
  destruct (enc <? 0) eqn:Hneg; cbv iota.
  - apply Z.ltb_lt in Hneg. rewrite (negated_int_not_zero enc) by lia.
    destruct (kernel =? 0) eqn:HK; destruct trace;
      step_body; repeat (case_status; step_body);
      cbn [pending_exception post_exception log_line log_driver_call log_store
           put_vm_result];
      intros Hok; try discriminate Hok;
      autorewrite with dtoh; rewrite <- ?app_assoc; reflexivity.
  - destruct (enc =? 0) eqn:H0; destruct (enc >? 0) eqn:Hpos;
      try (apply Z.ltb_ge in Hneg; apply Z.eqb_neq in H0;
           rewrite Z.gtb_ltb in Hpos; apply Z.ltb_ge in Hpos; lia);
      destruct (kernel =? 0) eqn:HK; destruct trace;
      step_body; repeat (case_status; step_body);
      cbn [pending_exception post_exception log_line log_driver_call log_store
           put_vm_result];
      intros Hok; try discriminate Hok;
      autorewrite with dtoh; rewrite <- ?app_assoc; reflexivity.
Qed.


(** C5 fails on [execute_kernel], that is [execute_warp]: for a kernel
    that returns void, with every driver call succeeding, the run makes no
    call to allocate device memory and one call to free it. *)
Theorem execute_kernel_frees_for_void :
  get_ret_type Samples.void_arguments = T_VOID
  /\ execute_kernel false (Samples.device 3 0 15) 1000 Samples.void_arguments
       Samples.idle
     = ({| _cu_device := 0; _device_context := 77;
           driver_calls := [cuLaunchKernel 1000 1 1 1 1 1 1; cuCtxSynchronize;
                            cuMemFree 0; cuCtxDestroy 77];
           host_stores := []; tty := []; pending_exception := None;
           vm_result := None; ret := None |}, true)
  /\ call_count is_cuMemAlloc
       (fst (execute_kernel false (Samples.device 3 0 15) 1000
               Samples.void_arguments Samples.idle)) = 0%nat
  /\ call_count is_cuMemFree
       (fst (execute_kernel false (Samples.device 3 0 15) 1000
               Samples.void_arguments Samples.idle)) = 1%nat.
Proof. repeat split. Qed.

(** C6 fails on both paths, each of which breaks what the other one does.
    Through [execute_warp] a kernel that returns an object reference, with
    every driver call succeeding, runs to the end and returns true: the
    switch has no case for the type, the line with TODO is printed, nothing
    is copied from the device and no result is set, where the specification
    has a copy of the pointer width.  Through [execute_kernel_from_vm] a
    return value of 4 bytes (an int) is fetched with a copy of 8 bytes out
    of the 4 bytes that the function has allocated on the device for it,
    where the specification has a copy of 4 bytes. *)
Theorem copy_size_not_per_type :
  (get_ret_type Samples.object_arguments = T_OBJECT
   /\ spec_copy_size T_OBJECT = Some pointer_width
   /\ execute_warp false (Samples.device 3 0 15) 1 1 1 1000
        Samples.object_arguments Samples.idle
      = ({| _cu_device := 0; _device_context := 77;
            driver_calls := [cuLaunchKernel 1000 1 1 1 1 1 1; cuCtxSynchronize;
                             cuMemFree 4096; cuCtxDestroy 77];
            host_stores := [];
            tty := [{| format := "[CUDA] TODO *** Unhandled return type: %d";
                       args := [12] |}];
            pending_exception := None; vm_result := None; ret := None |}, true)
   /\ dtoh_sizes (fst (execute_warp false (Samples.device 3 0 15) 1 1 1 1000
                         Samples.object_arguments Samples.idle)) = [])
  /\ (spec_copy_size T_INT = Some 4
      /\ driver_calls
           (fst (execute_kernel_from_vm false (Samples.device 3 0 15)
                   1000 2000 16 4 Samples.idle))
         = [cuMemAlloc 4; cuLaunchKernel 1000 1 1 1 1 1 1; cuCtxSynchronize;
            cuMemcpyDtoH 4096 8; cuMemFree 4096; cuCtxDestroy 77]
      /\ pending_exception
           (fst (execute_kernel_from_vm false (Samples.device 3 0 15)
                   1000 2000 16 4 Samples.idle)) = None
      /\ dtoh_sizes (fst (execute_kernel_from_vm false (Samples.device 3 0 15)
                            1000 2000 16 4 Samples.idle)) = [8]).
Proof. repeat split. Qed.

(** The sizes of the copies that the two paths do make.  A run of
    [execute_warp] that returns true has copied from the device 4 bytes for
    int and boolean, 4 for float, 8 for double and long, and nothing for
    void or for any other return type, object references among them.  A run
    of [execute_kernel_from_vm] that posts no exception has copied the
    pointer width for an object reference (a negative encoded size), 8
    bytes for any other return value of a size that is not 0, and nothing
    for void. *)
Theorem copy_sizes_by_path :
  forall (TraceGPUInteraction : bool) (d : Driver) (p : Process),
    (forall dimX dimY dimZ kernel ptxka,
        snd (execute_warp TraceGPUInteraction d dimX dimY dimZ kernel ptxka p)
        = true ->
        dtoh_sizes
          (fst (execute_warp TraceGPUInteraction d dimX dimY dimZ kernel ptxka p))
        = dtoh_sizes p ++ warp_copy_sizes (get_ret_type ptxka))
    /\ (forall kernel buffer size encodedReturnTypeSize,
          - 2 ^ 31 <= encodedReturnTypeSize < 2 ^ 31 ->
          pending_exception p = None ->
          pending_exception
            (fst (execute_kernel_from_vm TraceGPUInteraction d kernel buffer size
                    encodedReturnTypeSize p)) = None ->
          dtoh_sizes
            (fst (execute_kernel_from_vm TraceGPUInteraction d kernel buffer size
                    encodedReturnTypeSize p))
          = dtoh_sizes p ++ vm_copy_sizes encodedReturnTypeSize).
Proof.
  intros trace d p. split.
  - intros. apply execute_warp_copy_sizes. assumption.
  - intros. apply execute_kernel_from_vm_copy_sizes; assumption.
Qed.

Lemma copy_sizes_by_path_witness :
  dtoh_sizes (fst (execute_warp false (Samples.device 3 0 15) 1 1 1 1000
                     Samples.int_arguments Samples.idle)) = [4]
  /\ dtoh_sizes (fst (execute_kernel_from_vm false (Samples.device 3 0 15)
                        1000 2000 16 (-8) Samples.idle)) = [8].
Proof.
  destruct (copy_sizes_by_path false (Samples.device 3 0 15) Samples.idle)
    as [Hwarp Hvm].
  split.
  - apply (Hwarp 1 1 1 1000 Samples.int_arguments). reflexivity.
  - apply (Hvm 1000 2000 16 (-8)); [lia | reflexivity | reflexivity].
Defined.

(** *** Linkage *)

(** C3 fails on a platform for which the name of the library is empty.
    The name is handed to the loader like any other; with a loader that
    answers the empty name with a handle in which the symbols are found,
    [probe_linkage] binds all twenty entry points and returns true.  The
    line for an unsupported platform is not printed. *)
Theorem probe_linkage_on_unsupported_platform :
  cuda_library_name Samples.unsupported_platform = ""
  /\ snd (probe_linkage false Samples.unsupported_platform
            Samples.permissive_loader Samples.unlinked) = true
  /\ loads (fst (probe_linkage false Samples.unsupported_platform
                   Samples.permissive_loader Samples.unlinked)) = [""]
  /\ lines (fst (probe_linkage false Samples.unsupported_platform
                   Samples.permissive_loader Samples.unlinked)) = []
  /\ fully_bound (fst (probe_linkage false Samples.unsupported_platform
                         Samples.permissive_loader Samples.unlinked)).
Proof.
  split; [reflexivity|]. split; [vm_compute; reflexivity|].
  split; [vm_compute; reflexivity|]. split; [vm_compute; reflexivity|].
  unfold fully_bound, entry_point_variables.
  repeat constructor; vm_compute; discriminate.
Qed.

Ltac step_linkage :=
  cbv beta iota zeta delta
    [mbind Body_bind mret Body_ret when modify return_ run_body
     LOOKUP_CUDA_FUNCTION LOOKUP_CUDA_V2_FUNCTION fst snd negb];
  cbn [String.append].

Ltac case_lookup :=
  match goal with
  | |- context [dll_lookup ?l ?h ?n =? NULL] =>
      destruct (dll_lookup l h n =? NULL) eqn:?
  end.

(** When the library cannot be opened, [probe_linkage] returns false and
    assigns no entry point. *)
Lemma probe_linkage_cannot_open trace b l k :
  dll_load l (cuda_library_name b) = NULL ->
  probe_linkage trace b l k = (log_load (cuda_library_name b) k, false).
Proof.
  intros H. unfold probe_linkage, array_is_NULL. rewrite H.
  reflexivity.
Qed.

(** When [probe_linkage] returns true, the library was opened, every
    symbol was found in it and every entry point is bound. *)
Lemma probe_linkage_true trace b l k :
  snd (probe_linkage trace b l k) = true ->
  dll_load l (cuda_library_name b) <> NULL
  /\ Forall (fun name => dll_lookup l (dll_load l (cuda_library_name b)) name <> NULL)
       (required_symbols b)
  /\ fully_bound (fst (probe_linkage trace b l k)).
Proof.
  unfold probe_linkage, array_is_NULL, required_symbols, fully_bound,
    entry_point_variables.
  destruct (dll_load l (cuda_library_name b) =? NULL) eqn:HL;
    [step_linkage; intros Hf; discriminate Hf|].
  destruct (amd64 b); destruct trace; step_linkage;
    repeat (case_lookup; step_linkage; [intros Hf; discriminate Hf|]);
    intros _; (split; [apply Z.eqb_neq, HL|]); split.
  all: repeat match goal with H : (_ =? NULL) = false |- _ => apply Z.eqb_neq in H end.
  all: cbn [fmap list_fmap app String.append].
  all: try (repeat constructor; assumption).
  all: unfold entry_point; cbn [entry_points assign log_load log_message].
  all: repeat constructor; simplify_map_eq; assumption.
Qed.

(** A symbol that is not found makes [probe_linkage] return false. *)
Lemma probe_linkage_missing_symbol trace b l k name :
  In name (required_symbols b) ->
  dll_lookup l (dll_load l (cuda_library_name b)) name = NULL ->
  snd (probe_linkage trace b l k) = false.
Proof.
  intros Hin Hnull.
  destruct (snd (probe_linkage trace b l k)) eqn:E; [|reflexivity].
  apply probe_linkage_true in E as (_ & Hall & _).
  rewrite Forall_forall in Hall. apply list_elem_of_In in Hin.
  destruct (Hall name Hin Hnull).
Qed.

(** The entry points are assigned one by one: after a symbol is missed,
    those looked up before it stay bound, the one missed is [NULL] and the
    ones after it are untouched. *)
Lemma probe_linkage_stops_at_missing_symbol :
  let k := fst (probe_linkage false {| os := LINUX; amd64 := true |}
                  Samples.loader_without_launch Samples.unlinked) in
  snd (probe_linkage false {| os := LINUX; amd64 := true |}
         Samples.loader_without_launch Samples.unlinked) = false
  /\ entry_points k !! "_cuda_cu_init" = Some 9
  /\ entry_points k !! "_cuda_cu_launch_kernel" = Some NULL
  /\ entry_points k !! "_cuda_cu_mem_host_register" = None
  /\ lines k = [("[CUDA] ***** Error: Failed to lookup %s", "cuLaunchKernel")].
Proof. vm_compute. repeat split. Qed.

End PtxProperties.

(** ** What [postKernelCleanup] changes and what it keeps *)

Module CleanupProperties.
Import Tlab TlabNotions CleanupNotions MachineFacts TlabProperties.

Lemma rolled_back_idempotent r : rolled_back (rolled_back r) = rolled_back r.
Proof.
  unfold rolled_back at 2 3. destruct (overflowed r) eqn:Ho; [|unfold rolled_back; by rewrite Ho].
  unfold rolled_back. destruct (overflowed (set_top r (last_good_top r))); reflexivity.
Qed.

Lemma overflowed_spec r :
  overflowed r = true <-> start r <> NULL /\ top r > end_ r.
Proof.
  unfold overflowed. rewrite andb_true_iff, negb_true_iff, Z.eqb_neq, Z.gtb_ltb, Z.ltb_lt.
  lia.
Qed.

Lemma rolled_back_fields r :
  start (rolled_back r) = start r
  /\ end_ (rolled_back r) = end_ r
  /\ last_good_top (rolled_back r) = last_good_top r
  /\ original_top (rolled_back r) = original_top r
  /\ _donor_thread (rolled_back r) = _donor_thread r
  /\ _alloc_info (rolled_back r) = _alloc_info r.
Proof. unfold rolled_back. destruct (overflowed r); repeat split. Qed.

Lemma allocation_info_eq (a b : HSAILAllocationInfo) :
  donorThreads a = donorThreads b ->
  _num_donor_threads a = _num_donor_threads b ->
  _tlab_align_reserve_bytes a = _tlab_align_reserve_bytes b ->
  _cur_tlab_infos a = _cur_tlab_infos b ->
  _tlab_infos_pool a = _tlab_infos_pool b ->
  _tlab_infos_pool_next a = _tlab_infos_pool_next b ->
  _tlab_infos_pool_end a = _tlab_infos_pool_end b ->
  a = b.
Proof. destruct a, b. cbn. intros. congruence. Qed.

(** The arena that [postKernelCleanup] leaves, slot by slot. *)
Lemma cleaned_arena_lookup rt ai vm post i :
  arena_bounded ai ->
  postKernelCleanup rt ai vm = Done post ->
  _tlab_infos_pool (info post) !! i
  = if decide (i < Nat.min (_tlab_infos_pool_next ai) (_tlab_infos_pool_end ai))%nat
    then rolled_back <$> (_tlab_infos_pool ai !! i)
    else _tlab_infos_pool ai !! i.
Proof.
  intros Hwf Hrun.
  destruct (postKernelCleanup_Done rt ai vm Hwf)
    as (post' & Hrun' & _ & _ & Hpool & _).
  rewrite Hrun in Hrun'. injection Hrun' as <-.
  unfold arena_bounded in Hwf. rewrite Hpool.
  set (k := Nat.min _ _).
  assert (Hk : length (rolled_back <$> take k (_tlab_infos_pool ai)) = k)
    by (rewrite length_fmap, length_take; lia).
  destruct (decide (i < k)%nat) as [Hi|Hi].
  - rewrite lookup_app_l by lia. rewrite list_lookup_fmap, lookup_take_lt by lia.
    reflexivity.
  - rewrite lookup_app_r by lia. rewrite Hk, lookup_drop. f_equal. lia.
Qed.

(** [postKernelCleanup] taken apart: the loop it runs, and what it makes of
    the object around the arena. *)
Lemma postKernelCleanup_loop rt ai vm post :
  postKernelCleanup rt ai vm = Done post ->
  let k := Nat.min (_tlab_infos_pool_next ai) (_tlab_infos_pool_end ai) in
  exists vm0 sw,
    cleanup_loop rt (seq 0 k)
      {| sw_pool := _tlab_infos_pool ai; sw_vm := vm0;
         sw_anyOverflows := false; sw_bytesAllocated := 0 |} = Done sw
    /\ tlabs vm0 = tlabs vm
    /\ tlab_requests vm0 = tlab_requests vm
    /\ tlabs (vm_after post) = tlabs (sw_vm sw)
    /\ tlab_requests (vm_after post) = tlab_requests (sw_vm sw)
    /\ info post
       = {| donorThreads := donorThreads ai;
            _num_donor_threads := _num_donor_threads ai;
            _tlab_align_reserve_bytes := _tlab_align_reserve_bytes ai;
            _cur_tlab_infos := _cur_tlab_infos ai;
            _tlab_infos_pool := sw_pool sw;
            _tlab_infos_pool_next := k;
            _tlab_infos_pool_end := _tlab_infos_pool_end ai |}.
Proof.
  intros Hrun k. unfold postKernelCleanup in Hrun.
  destruct (_tlab_infos_pool_end ai <? _tlab_infos_pool_next ai)%nat eqn:Hover.
  - apply Nat.ltb_lt in Hover.
    replace k with (_tlab_infos_pool_end ai) by (subst k; lia).
    match type of Hrun with context [cleanup_loop rt _ ?s] =>
      destruct (cleanup_loop rt (seq 0 (_tlab_infos_pool_end ai)) s) as [sw| |] eqn:Hloop
    end; try discriminate Hrun.
    cbn [mbind Outcome_bind mret Outcome_ret] in Hrun. injection Hrun as <-.
    eexists _, sw. split; [exact Hloop|].
    destruct (TraceGPUInteraction rt); repeat split.
  - apply Nat.ltb_ge in Hover.
    replace k with (_tlab_infos_pool_next ai) by (subst k; lia).
    match type of Hrun with context [cleanup_loop rt _ ?s] =>
      destruct (cleanup_loop rt (seq 0 (_tlab_infos_pool_next ai)) s) as [sw| |] eqn:Hloop
    end; try discriminate Hrun.
    cbn [mbind Outcome_bind mret Outcome_ret] in Hrun. injection Hrun as <-.
    eexists _, sw. split; [exact Hloop|].
    destruct (TraceGPUInteraction rt); repeat split.
Qed.

(** What one turn of the loop does to the threads and to the heap. *)
Lemma cleanup_tlabInfo_vm rt i sw r :
  sw_pool sw !! i = Some r ->
  exists sw',
    cleanup_tlabInfo rt i sw = Done sw'
    /\ sw_pool sw' = <[i := rolled_back r]> (sw_pool sw)
    /\ tlab_requests (sw_vm sw') = tlab_requests (sw_vm sw)
    /\ (forall t, (start r <> NULL -> _donor_thread r <> t) ->
          tlabs (sw_vm sw') t = tlabs (sw_vm sw) t).
Proof.
  intros Hr. unfold cleanup_tlabInfo. rewrite Hr.
  unfold rolled_back, overflowed.
  destruct (start r =? NULL) eqn:Hs; cbn [negb andb].
  - exists sw. apply Z.eqb_eq in Hs.
    split; [reflexivity|]. split; [by rewrite list_insert_id|].
    split; reflexivity.
  - apply Z.eqb_neq in Hs. eexists. split; [reflexivity|].
    cbn [sw_pool sw_vm]. split; [reflexivity|].
    destruct (top r >? end_ r) eqn:Ho.
    + unfold tlab_make_parsable, tlab_fill.
      cbn [tlabs set_tlab log_call tlab_requests].
      rewrite fn_lookup_insert. cbn [tlab_end orb negb]. rewrite orb_false_r.
      unfold start, top, end_, last_good_top in *. cbn [_start _top _end set_top].
      match goal with |- context [if ?c then _ else _] => destruct c eqn:Hend end;
        cbn [tlabs set_tlab log_call tlab_requests negb];
        (split; [destruct (_ && TraceGPUInteraction rt); reflexivity|]);
        intros t Ht; rewrite !fn_lookup_insert_ne by (apply Ht, Hs);
        destruct (_ && TraceGPUInteraction rt); reflexivity.
    + unfold tlab_fill. cbn [tlabs set_tlab log_call tlab_requests andb].
      split; [reflexivity|].
      intros t Ht. rewrite fn_lookup_insert_ne by (apply Ht, Hs). reflexivity.
Qed.

(** The loop over the slots [a], ..., [a + n - 1]: it asks nothing of the
    heap, and a thread that is the donor of none of these regions with a
    start keeps its TLAB. *)
Lemma cleanup_loop_seq_vm rt n : forall a sw sw',
  cleanup_loop rt (seq a n) sw = Done sw' ->
  tlab_requests (sw_vm sw') = tlab_requests (sw_vm sw)
  /\ forall t,
       (forall i r, (a <= i < a + n)%nat -> sw_pool sw !! i = Some r ->
                    start r <> NULL -> _donor_thread r <> t) ->
       tlabs (sw_vm sw') t = tlabs (sw_vm sw) t.
Proof.
  induction n as [|n IH]; intros a sw sw' Hrun.
  - cbn in Hrun. injection Hrun as <-. split; reflexivity.
  - cbn [seq cleanup_loop] in Hrun.
    destruct (sw_pool sw !! a) as [r|] eqn:Hr.
    + destruct (cleanup_tlabInfo_vm rt a sw r Hr) as (sw1 & Hstep & Hpool & Hreq & Hframe).
      rewrite Hstep in Hrun. cbn [mbind Outcome_bind] in Hrun.
      destruct (IH (S a) sw1 sw' Hrun) as [Hreq' Hframe'].
      split; [congruence|].
      intros t Ht. rewrite Hframe'.
      * apply Hframe. intros Hs. apply (Ht a r); [lia | exact Hr | exact Hs].
      * intros i r' Hi Hr'. rewrite Hpool, list_lookup_insert_ne in Hr' by lia.
        apply (Ht i r'); [lia | exact Hr'].
    + unfold cleanup_tlabInfo in Hrun. rewrite Hr in Hrun. discriminate Hrun.
Qed.

Lemma region_calls_one rt r :
  Forall (fun c => fills_or_retires c = true) (region_calls rt r)
  /\ length (List.filter is_call_fill (region_calls rt r))
     = length (List.filter has_start [r]).
Proof.
  unfold region_calls, has_start. cbn [List.filter].
  destruct (start r =? NULL); cbn [negb]; [split; [apply Forall_nil_2 | reflexivity]|].
  destruct (overflowed r); (split; [|reflexivity]).
  - apply Forall_cons_2; [reflexivity|]. apply Forall_cons_2; [reflexivity|].
    apply Forall_nil_2.
  - apply Forall_cons_2; [reflexivity|]. apply Forall_nil_2.
Qed.

Lemma region_calls_shape rt regions :
  Forall (fun c => fills_or_retires c = true) (regions ≫= region_calls rt)
  /\ length (List.filter is_call_fill (regions ≫= region_calls rt))
     = length (List.filter has_start regions).
Proof.
  induction regions as [|r regions [IH1 IH2]]; [split; [constructor | reflexivity]|].
  destruct (region_calls_one rt r) as [H1 H2].
  rewrite bind_cons, List.filter_app, length_app, Forall_app, H2, IH2.
  split; [split; assumption|].
  cbn [List.filter]. destruct (has_start r); reflexivity.
Qed.

(** X1. [postKernelCleanup] writes nothing but tops.  Of every record of
    the arena it leaves the start, the end, the last good top, the original
    top, the donor thread and the owner as they were, and the top too unless
    the record is one that the loop went through with a start set and a top
    beyond its end, whose top becomes its last good top.  The arena keeps
    its length, and the table of current records, the donor threads and the
    alignment reserve of the object are as before. *)
Theorem cleanup_writes_only_overflowed_tops :
  forall (rt : Runtime) (ai : HSAILAllocationInfo) (vm : VM),
    arena_bounded ai ->
    exists post,
      postKernelCleanup rt ai vm = Done post
      /\ length (_tlab_infos_pool (info post)) = length (_tlab_infos_pool ai)
      /\ getCurTlabInfos (info post) = getCurTlabInfos ai
      /\ donorThreads (info post) = donorThreads ai
      /\ _num_donor_threads (info post) = _num_donor_threads ai
      /\ _tlab_align_reserve_bytes (info post) = _tlab_align_reserve_bytes ai
      /\ forall i r,
           _tlab_infos_pool ai !! i = Some r ->
           exists r',
             _tlab_infos_pool (info post) !! i = Some r'
             /\ start r' = start r
             /\ end_ r' = end_ r
             /\ last_good_top r' = last_good_top r
             /\ original_top r' = original_top r
             /\ _donor_thread r' = _donor_thread r
             /\ _alloc_info r' = _alloc_info r
             /\ (top r' = top r
                 \/ (In i (swept_slots ai) /\ start r <> NULL /\ top r > end_ r
                     /\ top r' = last_good_top r)).
Proof.
  intros rt ai vm Hwf.
  destruct (postKernelCleanup_Done rt ai vm Hwf) as (post & Hrun & _ & _ & Hpool & _).
  destruct (postKernelCleanup_loop rt ai vm post Hrun) as (vm0 & sw & _ & _ & _ & _ & _ & Hinfo).
  exists post. split; [exact Hrun|].
  split.
  { rewrite Hpool, length_app, length_fmap, length_take, length_drop. lia. }
  unfold getCurTlabInfos.
  do 4 (split; [rewrite Hinfo; reflexivity|]).
  intros i r Hr. rewrite (cleaned_arena_lookup rt ai vm post i Hwf Hrun), Hr.
  destruct (decide _) as [Hi|Hi]; cbn [fmap option_fmap option_map].
  - exists (rolled_back r). split; [reflexivity|].
    destruct (rolled_back_fields r) as (-> & -> & -> & -> & -> & ->).
    do 6 (split; [reflexivity|]).
    unfold rolled_back. destruct (overflowed r) eqn:Ho; [right | left; reflexivity].
    apply overflowed_spec in Ho as [Hs Ht].
    split; [apply list_elem_of_In, swept_slots_spec, Hi|]. repeat split; assumption.
  - exists r. repeat split; try reflexivity. left. reflexivity.
Qed.

Lemma cleanup_writes_only_overflowed_tops_witness :
  exists post,
    postKernelCleanup Samples.tight_heap Samples.after_kernel Samples.fresh_vm
    = Done post
    /\ length (_tlab_infos_pool (info post)) = 4%nat
    /\ (exists r', _tlab_infos_pool (info post) !! 2%nat = Some r'
                   /\ start r' = NULL /\ end_ r' = NULL /\ top r' = 24).
Proof.
  destruct (cleanup_writes_only_overflowed_tops Samples.tight_heap
              Samples.after_kernel Samples.fresh_vm eq_refl)
    as (post & Hrun & Hlen & _ & _ & _ & _ & Hslot).
  exists post. split; [exact Hrun|]. split; [exact Hlen|].
  destruct (Hslot 2%nat Samples.unprimed_bumped eq_refl)
    as (r' & Hr' & Hstart & Hend & _ & _ & _ & _ & Htop).
  exists r'. split; [exact Hr'|]. split; [exact Hstart|]. split; [exact Hend|].
  destruct Htop as [Htop | (_ & Hs & _)]; [exact Htop | contradiction].
Defined.

(** X2. Running [postKernelCleanup] a second time changes nothing in the
    object: the first run leaves every record it goes through rolled back
    and the cursor within the arena, so the second finds the same records,
    leaves the same object and counts the same bytes. *)
Theorem cleanup_twice_is_cleanup_once :
  forall (rt : Runtime) (ai : HSAILAllocationInfo) (vm : VM),
    arena_bounded ai ->
    exists post post',
      postKernelCleanup rt ai vm = Done post
      /\ postKernelCleanup rt (info post) (vm_after post) = Done post'
      /\ info post' = info post
      /\ bytesAllocated post' = bytesAllocated post.
Proof.
  intros rt ai vm Hwf.
  destruct (postKernelCleanup_Done rt ai vm Hwf)
    as (post & Hrun & Hnext & Hend & Hpool & _ & Hbytes & _).
  pose proof Hwf as Hlen. unfold arena_bounded in Hlen.
  set (k := Nat.min (_tlab_infos_pool_next ai) (_tlab_infos_pool_end ai)) in *.
  assert (Hk : length (rolled_back <$> take k (_tlab_infos_pool ai)) = k)
    by (rewrite length_fmap, length_take; lia).
  assert (Hwf' : arena_bounded (info post)).
  { unfold arena_bounded. rewrite Hend, Hpool, length_app, Hk, length_drop. lia. }
  destruct (postKernelCleanup_Done rt (info post) (vm_after post) Hwf')
    as (post' & Hrun' & Hnext' & Hend' & Hpool' & _ & Hbytes' & _).
  destruct (postKernelCleanup_loop rt (info post) (vm_after post) post' Hrun')
    as (? & ? & _ & _ & _ & _ & _ & Hinfo').
  assert (Hk' : Nat.min (_tlab_infos_pool_next (info post))
                  (_tlab_infos_pool_end (info post)) = k)
    by (rewrite Hnext, Hend; lia).
  rewrite Hk' in Hnext', Hpool', Hbytes'.
  assert (Htake : take k (_tlab_infos_pool (info post))
                  = rolled_back <$> take k (_tlab_infos_pool ai)).
  { rewrite Hpool. apply take_app_length'. symmetry. exact Hk. }
  assert (Hagain : rolled_back <$> take k (_tlab_infos_pool (info post))
                   = take k (_tlab_infos_pool (info post))).
  { rewrite Htake, <- list_fmap_compose. apply list_fmap_ext.
    intros _ r _. apply rolled_back_idempotent. }
  exists post, post'. split; [exact Hrun|]. split; [exact Hrun'|]. split.
  - apply allocation_info_eq.
    1-4: rewrite Hinfo'; reflexivity.
    + rewrite Hpool', Hagain, take_drop. reflexivity.
    + rewrite Hnext', Hnext. reflexivity.
    + rewrite Hend'. reflexivity.
  - rewrite Hbytes', Hagain, Htake, Hbytes. reflexivity.
Qed.

Lemma cleanup_twice_is_cleanup_once_witness :
  exists post post',
    postKernelCleanup Samples.tight_heap Samples.after_kernel Samples.fresh_vm
    = Done post
    /\ postKernelCleanup Samples.tight_heap (info post) (vm_after post) = Done post'
    /\ _tlab_infos_pool_next (info post') = 4%nat
    /\ bytesAllocated post' = 116.
Proof.
  destruct (cleanup_twice_is_cleanup_once Samples.tight_heap
              Samples.after_kernel Samples.fresh_vm eq_refl)
    as (post & post' & Hrun & Hrun' & Hinfo & Hbytes).
  exists post, post'. split; [exact Hrun|]. split; [exact Hrun'|].
  rewrite Hinfo, Hbytes. vm_compute in Hrun. injection Hrun as <-.
  split; reflexivity.
Defined.

Lemma swept_regions_clamped ai :
  arena_bounded ai ->
  swept_regions ai
  = take (Nat.min (_tlab_infos_pool_next ai) (_tlab_infos_pool_end ai))
      (_tlab_infos_pool ai).
Proof.
  intros Hwf. unfold swept_regions. unfold arena_bounded in Hwf.
  rewrite Hwf, <- take_take, firstn_all. reflexivity.
Qed.

Lemma rolled_back_none regions :
  existsb overflowed regions = false -> rolled_back <$> regions = regions.
Proof.
  induction regions as [|r regions IH]; [reflexivity|].
  cbn [existsb]. intros H. apply orb_false_iff in H as [Hr Hrest].
  rewrite fmap_cons, IH by exact Hrest. unfold rolled_back. rewrite Hr. reflexivity.
Qed.

(** X3. The flag [anyOverflows] is true when [postKernelCleanup] returns
    exactly when one of the records it went through has a start and a top
    beyond its end; and when the flag is false the arena is as it was. *)
Theorem any_overflows_iff :
  forall (rt : Runtime) (ai : HSAILAllocationInfo) (vm : VM),
    arena_bounded ai ->
    exists post,
      postKernelCleanup rt ai vm = Done post
      /\ (anyOverflows post = true
          <-> exists i r,
                In i (swept_slots ai)
                /\ _tlab_infos_pool ai !! i = Some r
                /\ start r <> NULL
                /\ top r > end_ r)
      /\ (anyOverflows post = false ->
          _tlab_infos_pool (info post) = _tlab_infos_pool ai).
Proof.
  intros rt ai vm Hwf.
  destruct (postKernelCleanup_Done rt ai vm Hwf)
    as (post & Hrun & _ & _ & Hpool & Hany & _).
  set (k := Nat.min (_tlab_infos_pool_next ai) (_tlab_infos_pool_end ai)) in *.
  exists post. split; [exact Hrun|]. split; [split|].
  - rewrite Hany. intros H. apply existsb_exists in H as (r & Hin & Ho).
    apply list_elem_of_In, list_elem_of_lookup in Hin as [i Hi].
    apply lookup_take_Some in Hi as [Hr Hi].
    apply overflowed_spec in Ho as [Hs Ht].
    exists i, r. split; [apply list_elem_of_In, swept_slots_spec, Hi|].
    repeat split; assumption.
  - intros (i & r & Hi & Hr & Hs & Ht). rewrite Hany.
    apply list_elem_of_In, swept_slots_spec in Hi.
    apply existsb_exists. exists r. split.
    + apply list_elem_of_In, list_elem_of_lookup. exists i.
      apply lookup_take_Some. split; assumption.
    + apply overflowed_spec. split; assumption.
  - intros Hnone. rewrite Hany in Hnone.
    rewrite Hpool, (rolled_back_none _ Hnone). apply take_drop.
Qed.

Lemma any_overflows_iff_witness :
  exists post,
    postKernelCleanup Samples.tight_heap Samples.after_kernel Samples.fresh_vm
    = Done post
    /\ anyOverflows post = true.
Proof.
  destruct (any_overflows_iff Samples.tight_heap Samples.after_kernel
              Samples.fresh_vm eq_refl)
    as (post & Hrun & [_ Hany] & _).
  exists post. split; [exact Hrun|].
  apply Hany. exists 0%nat, Samples.overrun.
  split; [cbn; tauto|]. split; [reflexivity|]. split; [discriminate | reflexivity].
Defined.

(** X4. [postKernelCleanup] asks nothing of the heap.  The calls it makes
    are fills of a donor thread's TLAB, one for each record it went through
    that has a start, and [make_parsable] with retire = true; it makes no
    request for a new TLAB, and the count of requests made of the heap is
    as it was. *)
Theorem cleanup_only_fills_and_retires :
  forall (rt : Runtime) (ai : HSAILAllocationInfo) (vm : VM),
    arena_bounded ai ->
    exists post made,
      postKernelCleanup rt ai vm = Done post
      /\ calls (vm_after post) = calls vm ++ made
      /\ Forall (fun c => fills_or_retires c = true) made
      /\ length (List.filter is_call_fill made)
         = length (List.filter has_start (swept_regions ai))
      /\ tlab_requests (vm_after post) = tlab_requests vm.
Proof.
  intros rt ai vm Hwf.
  destruct (postKernelCleanup_Done rt ai vm Hwf)
    as (post & Hrun & _ & _ & _ & _ & _ & Hcalls & _).
  destruct (postKernelCleanup_loop rt ai vm post Hrun)
    as (vm0 & sw & Hloop & _ & Hreq0 & _ & Hreq & _).
  destruct (cleanup_loop_seq_vm rt _ _ _ _ Hloop) as [Hreq' _].
  cbn [sw_vm] in Hreq'.
  rewrite (swept_regions_clamped ai Hwf).
  destruct (region_calls_shape rt
              (take (Nat.min (_tlab_infos_pool_next ai) (_tlab_infos_pool_end ai))
                 (_tlab_infos_pool ai))) as [Hall Hcount].
  eexists post, _. split; [exact Hrun|]. split; [exact Hcalls|].
  split; [exact Hall|]. split; [exact Hcount|]. congruence.
Qed.

Lemma cleanup_only_fills_and_retires_witness :
  exists post made,
    postKernelCleanup Samples.tight_heap Samples.after_kernel Samples.fresh_vm
    = Done post
    /\ calls (vm_after post) = made
    /\ length (List.filter is_call_fill made) = 2%nat
    /\ tlab_requests (vm_after post) = 0%nat.
Proof.
  destruct (cleanup_only_fills_and_retires Samples.tight_heap
              Samples.after_kernel Samples.fresh_vm eq_refl)
    as (post & made & Hrun & Hcalls & _ & Hcount & Hreq).
  exists post, made. split; [exact Hrun|]. split; [exact Hcalls|].
  split; [exact Hcount | exact Hreq].
Defined.

(** X5. [postKernelCleanup] touches the TLAB of a thread only through a
    record of that thread: a thread that is the donor of none of the
    records gone through that have a start has the TLAB it had. *)
Theorem cleanup_leaves_other_threads :
  forall (rt : Runtime) (ai : HSAILAllocationInfo) (vm : VM) (t : JavaThread),
    arena_bounded ai ->
    (forall i r,
        In i (swept_slots ai) ->
        _tlab_infos_pool ai !! i = Some r ->
        start r <> NULL ->
        _donor_thread r <> t) ->
    exists post,
      postKernelCleanup rt ai vm = Done post
      /\ tlabs (vm_after post) t = tlabs vm t.
Proof.
  intros rt ai vm t Hwf Hother.
  destruct (postKernelCleanup_Done rt ai vm Hwf) as (post & Hrun & _).
  destruct (postKernelCleanup_loop rt ai vm post Hrun)
    as (vm0 & sw & Hloop & Htl0 & _ & Htl & _).
  destruct (cleanup_loop_seq_vm rt _ _ _ _ Hloop) as [_ Hframe].
  cbn [sw_vm sw_pool] in Hframe.
  exists post. split; [exact Hrun|].
  rewrite Htl, Hframe, Htl0; [reflexivity|].
  intros i r Hi Hr. apply (Hother i r); [|exact Hr].
  apply list_elem_of_In, swept_slots_spec. lia.
Qed.

Lemma cleanup_leaves_other_threads_witness :
  exists post,
    postKernelCleanup Samples.tight_heap Samples.after_kernel Samples.fresh_vm
    = Done post
    /\ tlabs (vm_after post) 3%nat = tlabs Samples.fresh_vm 3%nat.
Proof.
  apply (cleanup_leaves_other_threads Samples.tight_heap Samples.after_kernel
           Samples.fresh_vm 3%nat eq_refl).
  intros i r Hi Hr Hs. cbn in Hi.
  destruct Hi as [<-|[<-|[<-|[<-|[]]]]]; cbn in Hr; injection Hr as <-;
    first [discriminate | contradiction].
Defined.

End CleanupProperties.

(** ** How the allocation info is built *)

Module ConstructionProperties.
Import Tlab TlabNotions ConstructionNotions MachineFacts TlabProperties CtorProperties.

(** What the constructor makes of the object around the arena. *)
Lemma ctor_fields rt this raw donors dimX allocBytesPerWorkitem vm ai vm' :
  HSAILAllocationInfo_ctor rt this raw donors dimX allocBytesPerWorkitem vm
  = Done (ai, vm') ->
  donorThreads ai = donors
  /\ _num_donor_threads ai = Z.of_nat (length donors)
  /\ _tlab_align_reserve_bytes ai = alignment_reserve rt * HeapWordSize
  /\ _tlab_infos_pool_next ai = length donors
  /\ _tlab_infos_pool_end ai = arena_capacity rt donors.
Proof.
  unfold HSAILAllocationInfo_ctor. destruct donors as [|t0 rest]; [discriminate|].
  cbv zeta. destruct (fill_from_donors _ _ _ _ _) as [[[cur pool] vm1]| |];
    try discriminate.
  cbn [mbind Outcome_bind mret Outcome_ret]. intros H. injection H as <- <-.
  repeat split.
Qed.

(** X7. How the constructor ends.  With no donor thread it stops the VM
    on its [guarantee].  With more donor threads than the arena has slots
    it stores the record of a donor thread through a pointer past the end
    of the arena, at the slot after the last.  Otherwise it completes: the
    arena is as long as its end pointer says, the cursor stands after the
    records of the donor threads, the table of current records points to
    these in order, the slots beyond hold what the memory held when it was
    handed out, and so does the last good top of every record. *)
Theorem constructor_outcome :
  forall (rt : Runtime) (this : Z) (raw : nat -> HSAILTlabInfo)
         (donors : list JavaThread) (dimX allocBytesPerWorkitem : Z) (vm : VM),
    match HSAILAllocationInfo_ctor rt this raw donors dimX allocBytesPerWorkitem vm with
    | Fatal msg => donors = [] /\ msg = "need at least one donor thread"
    | OutOfArena slot =>
        donors <> []
        /\ (arena_capacity rt donors < length donors)%nat
        /\ slot = arena_capacity rt donors
    | Done (ai, vm') =>
        donors <> []
        /\ (length donors <= arena_capacity rt donors)%nat
        /\ arena_bounded ai
        /\ length (_tlab_infos_pool ai) = arena_capacity rt donors
        /\ _tlab_infos_pool_next ai = length donors
        /\ donorThreads ai = donors
        /\ _num_donor_threads ai = Z.of_nat (length donors)
        /\ getCurTlabInfos ai = Some <$> seq 0 (length donors)
        /\ (forall j, (length donors <= j < arena_capacity rt donors)%nat ->
              _tlab_infos_pool ai !! j = Some (raw j))
        /\ (forall j r, _tlab_infos_pool ai !! j = Some r ->
              last_good_top r = last_good_top (raw j))
    end.
Proof.
  intros rt this raw donors dimX allocBytesPerWorkitem vm.
  destruct donors as [|t0 rest]; [split; reflexivity|].
  set (donors := t0 :: rest).
  destruct (decide (arena_capacity rt donors < length donors)%nat) as [Hcap|Hcap].
  - rewrite (ctor_beyond_capacity rt this raw t0 rest dimX allocBytesPerWorkitem vm
               donors (arena_capacity rt donors) eq_refl eq_refl Hcap).
    split; [discriminate|]. split; [exact Hcap | reflexivity].
  - destruct (ctor_Done rt this (fun _ => True) (fun _ _ => True)
                (fun _ _ _ _ => I) (fun _ _ _ _ _ => I)
                raw t0 rest dimX allocBytesPerWorkitem vm donors
                (arena_capacity rt donors) eq_refl eq_refl I)
      as (ai & vm' & Hrun & _ & _ & _ & _ & Hlen & Hcur & Hrec & Hraw); [lia|].
    rewrite Hrun.
    destruct (ctor_fields _ _ _ _ _ _ _ _ _ Hrun) as (Hd & Hn & _ & Hnext & Hend).
    split; [discriminate|]. split; [lia|].
    split; [unfold arena_bounded; congruence|].
    split; [exact Hlen|]. split; [exact Hnext|]. split; [exact Hd|].
    split; [exact Hn|]. split; [exact Hcur|].
    assert (Hbeyond : forall j, (length donors <= j)%nat ->
              forall r, _tlab_infos_pool ai !! j = Some r -> r = raw j).
    { intros j Hj r Hr. rewrite Hraw, list_lookup_fmap in Hr by exact Hj.
      destruct (seq 0 (arena_capacity rt donors) !! j) as [j'|] eqn:Hseq;
        [|discriminate].
      apply lookup_seq in Hseq as [-> _]. injection Hr as <-. reflexivity. }
    split.
    + intros j [Hj1 Hj2].
      destruct (lookup_lt_is_Some_2 (_tlab_infos_pool ai) j) as [r Hr]; [lia|].
      rewrite Hr, (Hbeyond j Hj1 r Hr). reflexivity.
    + intros j r Hr. destruct (decide (j < length donors)%nat) as [Hj|Hj].
      * destruct (lookup_lt_is_Some_2 donors j Hj) as [t Ht].
        destruct (Hrec j t Ht) as (r' & Hr' & Hlgt & _).
        rewrite Hr in Hr'. injection Hr' as <-. exact Hlgt.
      * rewrite (Hbeyond j ltac:(lia) r Hr). reflexivity.
Qed.

(** X8. The arena has room for the donor threads exactly when no TLAB size
    is to be had for the first of them, or the heap has as many bytes free
    for it as the donor threads times its TLAB size; it never has more than
    64 slots for each donor thread, and has 8 for each when there is no
    size.  (For a count of donor threads below 2^25, so that 64 times the
    count is an [int].) *)
Theorem arena_holds_donors_iff :
  forall (rt : Runtime) (t0 : JavaThread) (n : Z),
    0 < n < 2 ^ 25 ->
    0 <= compute_size rt t0 ->
    0 <= unsafe_max_tlab_alloc rt t0 ->
    (n <= compute_max_tlab_infos rt n t0
     <-> compute_size rt t0 = 0
         \/ n * compute_size rt t0 <= unsafe_max_tlab_alloc rt t0)
    /\ 0 <= compute_max_tlab_infos rt n t0 <= 64 * n
    /\ (compute_size rt t0 = 0 -> compute_max_tlab_infos rt n t0 = 8 * n).
Proof.
  intros rt t0 n Hn Hsize Hfree. unfold compute_max_tlab_infos.
  rewrite !to_int_small, !to_size_t_small by lia.
  destruct (compute_size rt t0 =? 0) eqn:H0; cbn [negb].
  - apply Z.eqb_eq in H0. split; [split; [tauto | lia]|]. split; [lia | reflexivity].
  - apply Z.eqb_neq in H0.
    assert (Hdiv : 0 <= unsafe_max_tlab_alloc rt t0 / compute_size rt t0)
      by (apply Z.div_pos; lia).
    split; [|split; [lia | contradiction]].
    split.
    + intros H. right.
      assert (n <= unsafe_max_tlab_alloc rt t0 / compute_size rt t0) by lia.
      pose proof (Z.mul_div_le (unsafe_max_tlab_alloc rt t0) (compute_size rt t0)).
      nia.
    + intros [H|H]; [contradiction|].
      assert (n <= unsafe_max_tlab_alloc rt t0 / compute_size rt t0)
        by (apply Z.div_le_lower_bound; lia).
      lia.
Qed.

Lemma arena_holds_donors_iff_witness :
  (9 <= compute_max_tlab_infos Samples.tight_heap 9 1%nat
   <-> 1024 = 0 \/ 9 * 1024 <= 8192)
  /\ 0 <= compute_max_tlab_infos Samples.tight_heap 9 1%nat <= 64 * 9.
Proof.
  destruct (arena_holds_donors_iff Samples.tight_heap 1%nat 9) as (H1 & H2 & _);
    [lia | cbn; lia | cbn; lia |].
  split; [exact H1 | exact H2].
Defined.


(** The loop over donor threads that are all different: each record is the
    copy of the TLAB that its thread has when the loop is over, and a
    thread that is not among them has the TLAB it had. *)
Lemma fill_from_donors_mirror rt this : forall donors i cur pool vm,
  NoDup donors ->
  (i + length donors <= length pool)%nat ->
  exists cur' pool' vm',
    fill_from_donors rt this i donors (cur, pool, vm) = Done (cur', pool', vm')
    /\ length pool' = length pool
    /\ (forall j, (j < i)%nat -> pool' !! j = pool !! j)
    /\ (forall t, t ∉ donors -> tlabs vm' t = tlabs vm t)
    /\ (forall k t r0, donors !! k = Some t -> pool !! (i + k)%nat = Some r0 ->
          pool' !! (i + k)%nat = Some (snapshot r0 (tlabs vm' t) t this)).
Proof.
  induction donors as [|t rest IH]; intros i cur pool vm Hnd Hlen.
  - exists cur, pool, vm. repeat split; try done.
  - cbn [length] in Hlen. apply NoDup_cons in Hnd as [Hnotin Hnd].
    destruct (lookup_lt_is_Some_2 pool i) as [r0 Hr0]; [lia|].
    cbn [fill_from_donors]. rewrite (fill_from_donor_Done _ _ _ _ _ _ _ r0 Hr0).
    cbn [mbind Outcome_bind].
    set (vm1 := primed rt t i vm).
    destruct (IH (S i) (<[i := Some i]> cur)
                (<[i := snapshot r0 (tlabs vm1 t) t this]> pool) vm1 Hnd)
      as (cur' & pool' & vm' & Hrun & Hlp & Hbefore & Hframe & Hrec).
    { rewrite length_insert. lia. }
    exists cur', pool', vm'. split; [exact Hrun|].
    rewrite length_insert in Hlp. split; [exact Hlp|].
    split.
    { intros j Hj. rewrite Hbefore, list_lookup_insert_ne by lia. reflexivity. }
    split.
    { intros t' Ht'. apply not_elem_of_cons in Ht' as [Hne Ht'].
      rewrite (Hframe t' Ht'). subst vm1. apply primed_other. congruence. }
    intros [|k] t' r0' Hk Hr0'.
    + injection Hk as <-. rewrite Nat.add_0_r in *.
      rewrite Hr0 in Hr0'. injection Hr0' as <-.
      rewrite Hbefore, list_lookup_insert_eq by lia.
      rewrite (Hframe t Hnotin). reflexivity.
    + cbn in Hk. replace (i + S k)%nat with (S i + k)%nat in * by lia.
      apply (Hrec k t' r0' Hk). rewrite list_lookup_insert_ne by lia. exact Hr0'.
Qed.

Lemma raw_arena_lookup (raw : nat -> HSAILTlabInfo) n i :
  (i < n)%nat -> (raw <$> seq 0 n) !! i = Some (raw i).
Proof.
  intros H. rewrite list_lookup_fmap, lookup_seq_lt by exact H. reflexivity.
Qed.


(** X10. With donor threads that are all different, the records that the
    constructor makes agree with the TLABs as they are when it returns:
    the record of each donor thread holds the start, top and end of the
    TLAB that the thread then has, the top also as original top, the thread
    and the object, with the last good top that the slot held before; and
    a thread that is not a donor has the TLAB it had. *)
Theorem ctor_records_mirror_tlabs :
  forall (rt : Runtime) (this : Z) (raw : nat -> HSAILTlabInfo)
         (donors : list JavaThread) (dimX allocBytesPerWorkitem : Z) (vm : VM),
    donors <> [] ->
    (length donors <= arena_capacity rt donors)%nat ->
    NoDup donors ->
    exists ai vm',
      HSAILAllocationInfo_ctor rt this raw donors dimX allocBytesPerWorkitem vm
      = Done (ai, vm')
      /\ (forall i t,
            donors !! i = Some t ->
            _tlab_infos_pool ai !! i
            = Some (snapshot (raw i) (tlabs vm' t) t this))
      /\ (forall t, ~ In t donors -> tlabs vm' t = tlabs vm t).
Proof.
  intros rt this raw donors dimX allocBytesPerWorkitem vm Hne Hcap Hnd.
  destruct donors as [|t0 rest]; [contradiction|].
  unfold HSAILAllocationInfo_ctor. cbv beta iota zeta.
  change (Z.to_nat (compute_max_tlab_infos rt (Z.of_nat (length (t0 :: rest))) t0))
    with (arena_capacity rt (t0 :: rest)).
  set (donors := t0 :: rest) in *.
  destruct (fill_from_donors_mirror rt this donors 0
              (replicate (length donors) None)
              (raw <$> seq 0 (arena_capacity rt donors)) vm Hnd)
    as (cur' & pool' & vm' & Hrun & _ & _ & Hframe & Hrec).
  { rewrite length_fmap, length_seq. lia. }
  rewrite Hrun. cbn [mbind Outcome_bind mret Outcome_ret].
  eexists _, vm'. split; [reflexivity|]. split.
  - intros i t Ht. cbn [_tlab_infos_pool].
    apply (Hrec i t (raw i) Ht). apply raw_arena_lookup.
    apply lookup_lt_Some in Ht. lia.
  - intros t Ht. apply Hframe. rewrite list_elem_of_In. exact Ht.
Qed.


Lemma ctor_records_mirror_tlabs_witness :
  exists ai vm',
    HSAILAllocationInfo_ctor Scenarios.roomy_heap 555 Samples.stale [1; 2]%nat 1 1
      Samples.fresh_vm
    = Done (ai, vm')
    /\ _tlab_infos_pool ai !! 1%nat
       = Some (snapshot (Samples.stale 1) (tlabs vm' 2%nat) 2%nat 555)
    /\ tlabs vm' 2%nat
       = {| tlab_start := 73728; tlab_top := 73728; tlab_end := 81904 |}
    /\ tlabs vm' 5%nat = no_tlab.
Proof.
  destruct (ctor_records_mirror_tlabs Scenarios.roomy_heap 555 Samples.stale
              [1; 2]%nat 1 1 Samples.fresh_vm)
    as (ai & vm' & Hrun & Hrec & Hframe).
  - discriminate.
  - vm_compute. lia.
  - apply (bool_decide_unpack _). vm_compute. exact I.
  - exists ai, vm'. split; [exact Hrun|].
    split; [apply (Hrec 1%nat 2%nat); reflexivity|].
    split.
    + vm_compute in Hrun. injection Hrun as _ <-. reflexivity.
    + rewrite Hframe; [reflexivity|]. cbn. lia.
Defined.

(** Regions that no allocation ran over and in which nothing was
    allocated. *)
Lemma quiet_regions regions :
  Forall (fun r => overflowed r = false /\ region_bytes r = 0) regions ->
  existsb overflowed regions = false
  /\ rolled_back <$> regions = regions
  /\ sum_bytes regions = 0.
Proof.
  induction regions as [|r regions IH]; intros H; [repeat split|].
  apply Forall_cons in H as [[Ho Hb] Hrest].
  destruct (IH Hrest) as (H1 & H2 & H3).
  cbn [existsb]. rewrite fmap_cons, sum_bytes_cons, Ho, H1, H2, H3, Hb.
  unfold rolled_back. rewrite Ho. repeat split.
Qed.

(** X11. A kernel that allocates nothing leaves nothing to clean up.  With
    a heap whose answers are in order and TLABs that are in order, the
    object built within the capacity of its arena and handed straight to
    [postKernelCleanup] goes through it with no overflow found and no byte
    counted; the arena comes out as the constructor left it, and the cursor
    stands after the records of the donor threads. *)
Theorem ctor_then_cleanup_is_neutral :
  forall (rt : Runtime) (this : Z) (raw : nat -> HSAILTlabInfo)
         (donors : list JavaThread) (dimX allocBytesPerWorkitem : Z) (vm : VM),
    donors <> [] ->
    (length donors <= arena_capacity rt donors)%nat ->
    heap_in_order rt ->
    (forall t, tlab_in_order (tlabs vm t)) ->
    exists ai vm1 post,
      HSAILAllocationInfo_ctor rt this raw donors dimX allocBytesPerWorkitem vm
      = Done (ai, vm1)
      /\ postKernelCleanup rt ai vm1 = Done post
      /\ anyOverflows post = false
      /\ bytesAllocated post = 0
      /\ _tlab_infos_pool (info post) = _tlab_infos_pool ai
      /\ _tlab_infos_pool_next (info post) = length donors.
Proof.
  intros rt this raw donors dimX allocBytesPerWorkitem vm Hne Hcap Hheap Hvm.
  destruct donors as [|t0 rest]; [contradiction|].
  set (donors := t0 :: rest) in *.
  destruct (ctor_Done rt this
              (fun vm => forall t, tlab_in_order (tlabs vm t))
              (fun _ r => top r <= end_ r /\ original_top r = top r)
              (fun t i vm H => primed_in_order rt t i vm Hheap H))
    with (raw := raw) (t0 := t0) (rest := rest) (vm := vm) (donors := donors)
         (dimX := dimX) (allocBytesPerWorkitem := allocBytesPerWorkitem)
         (max_tlab_infos := arena_capacity rt donors)
    as (ai & vm1 & Hrun & _ & _ & Hnext & Hend & Hlen & _ & Hrec & _);
    try done.
  { intros t i vm0 r0 H0. pose proof (primed_in_order rt t i vm0 Hheap H0 t) as Ho.
    unfold tlab_in_order, snapshot in *. cbn. split; [lia | reflexivity]. }
  assert (Hwf : arena_bounded ai) by (unfold arena_bounded; congruence).
  destruct (postKernelCleanup_Done rt ai vm1 Hwf)
    as (post & Hclean & Hnext' & _ & Hpool & Hany & Hbytes & _).
  rewrite Hnext, Hend in *.
  replace (Nat.min (length donors) (arena_capacity rt donors))
    with (length donors) in * by lia.
  assert (Hquiet : Forall (fun r => overflowed r = false /\ region_bytes r = 0)
                     (take (length donors) (_tlab_infos_pool ai))).
  { apply Forall_lookup. intros i r Hi. apply lookup_take_Some in Hi as [Hr Hi].
    destruct (lookup_lt_is_Some_2 donors i Hi) as [t Ht].
    destruct (Hrec i t Ht) as (r' & Hr' & _ & Htop & Horig).
    rewrite Hr in Hr'. injection Hr' as <-.
    unfold overflowed, region_bytes. split.
    - replace (top r >? end_ r) with false; [apply andb_false_r|].
      symmetry. rewrite Z.gtb_ltb. apply Z.ltb_ge. exact Htop.
    - destruct (start r =? NULL); lia. }
  destruct (quiet_regions _ Hquiet) as (Hnone & Hsame & Hzero).
  exists ai, vm1, post. split; [exact Hrun|]. split; [exact Hclean|].
  split; [congruence|].
  split; [rewrite Hbytes, Hsame, Hzero; reflexivity|].
  split; [rewrite Hpool, Hsame; apply take_drop | exact Hnext'].
Qed.

Lemma ctor_then_cleanup_is_neutral_witness :
  exists ai vm1 post,
    HSAILAllocationInfo_ctor Scenarios.roomy_heap 555 Samples.stale [1; 2]%nat 1 1
      Samples.fresh_vm
    = Done (ai, vm1)
    /\ postKernelCleanup Scenarios.roomy_heap ai vm1 = Done post
    /\ anyOverflows post = false
    /\ bytesAllocated post = 0.
Proof.
  destruct (ctor_then_cleanup_is_neutral Scenarios.roomy_heap 555 Samples.stale
              [1; 2]%nat 1 1 Samples.fresh_vm)
    as (ai & vm1 & post & Hrun & Hclean & Hany & Hbytes & _).
  - discriminate.
  - vm_compute. lia.
  - split; [intros t; right; cbn; lia | intros k n; cbn; lia].
  - intros t. unfold tlab_in_order. cbn. unfold NULL. lia.
  - exists ai, vm1, post. repeat split; assumption.
Defined.

(** X12. What [getNewTlabForDonorThread] answers and does.  It answers
    true exactly when there is a TLAB size for the thread and the heap gives
    a block for it.  It first retires what the thread had; it asks the heap
    once, and not at all when there is no size; the block is zeroed only
    under [ZeroTLAB], before the TLAB is filled; the TLAB it fills is the
    whole block, empty; and the TLAB of no other thread is touched. *)
Theorem getNewTlabForDonorThread_answer :
  forall (rt : Runtime) (t : JavaThread) (idx : nat) (vm : VM),
    let size := compute_size rt t in
    let block := allocate_new_tlab rt (tlab_requests vm) size in
    let result := getNewTlabForDonorThread rt t idx vm in
    (fst result = true <-> size <> 0 /\ block <> NULL)
    /\ calls (snd result)
       = calls vm
         ++ [call_clear_before_allocation t; call_make_parsable t true]
         ++ refill_calls rt t size block
    /\ tlab_requests (snd result)
       = (if size =? 0 then tlab_requests vm else S (tlab_requests vm))
    /\ (fst result = true ->
        tlabs (snd result) t
        = {| tlab_start := block; tlab_top := block;
             tlab_end := ptr_add block (size - alignment_reserve rt) |})
    /\ (forall t', t' <> t -> tlabs (snd result) t' = tlabs vm t').
Proof.
  intros rt t idx vm size block result.
  assert (Hother : forall t', t' <> t ->
            tlabs (tlab_clear_before_allocation t vm) t' = tlabs vm t').
  { intros t' Hne. rewrite tlabs_clear_before_allocation.
    destruct (_ =? NULL); [reflexivity|]. apply fn_lookup_insert_ne. congruence. }
  subst result. unfold getNewTlabForDonorThread, refill_calls. cbv zeta.
  fold size. destruct (size =? 0) eqn:Hsize.
  - apply Z.eqb_eq in Hsize. cbn [fst snd].
    split; [split; [discriminate | tauto]|].
    split; [rewrite calls_clear_before_allocation; reflexivity|].
    split; [apply tlab_requests_clear_before_allocation|].
    split; [discriminate | exact Hother].
  - apply Z.eqb_neq in Hsize. unfold heap_allocate_new_tlab.
    rewrite tlab_requests_clear_before_allocation. fold block.
    destruct (block =? NULL) eqn:Hblock.
    + apply Z.eqb_eq in Hblock. cbn [fst snd calls log_call tlabs tlab_requests].
      split; [split; [discriminate | tauto]|].
      split; [rewrite calls_clear_before_allocation, <- app_assoc; reflexivity|].
      split; [reflexivity|].
      split; [discriminate | exact Hother].
    + apply Z.eqb_neq in Hblock. cbn [fst snd].
      split; [split; [tauto | reflexivity]|].
      destruct (ZeroTLAB rt); cbn [calls tlab_fill set_tlab log_call tlabs tlab_requests];
        rewrite calls_clear_before_allocation, <- !app_assoc;
        (split; [reflexivity|]); (split; [reflexivity|]);
        (split; [intros _; apply fn_lookup_insert|]);
        intros t' Hne; rewrite fn_lookup_insert_ne by congruence; apply Hother, Hne.
Qed.
End ConstructionProperties.

(** ** The calls made of the driver *)

Module DriverProperties.
Import Ptx PtxNotions DriverNotions MachineFacts PtxProperties.

Ltac step_plan :=
  unfold attribute_queries, warp_plan, vm_plan, device_return_value, get_ret_type;
  cbn [until_failure app fmap list_fmap warp_copy_sizes].

Ltac finish_calls :=
  cbn [driver_calls log_line log_driver_call log_store post_exception
       put_vm_result put_ret];
  rewrite <- ?app_assoc; reflexivity.

Lemma all_succeed_cons {Call Answer} (failed : Answer -> bool) (d : Call -> Answer)
    c plan :
  all_succeed failed d (c :: plan)
  <-> failed (d c) = false /\ all_succeed failed d plan.
Proof. exact (Forall_cons (fun c => failed (d c) = false) c plan). Qed.

Lemma all_succeed_nil {Call Answer} (failed : Answer -> bool) (d : Call -> Answer) :
  all_succeed failed d [] <-> True.
Proof. unfold all_succeed. split; [done | intros; constructor]. Qed.

(** X13. [execute_warp] makes its calls of the driver in a fixed order --
    launch, synchronise, the copy of the return value if its type has one,
    free of the device memory of the return value, destroy of the context
    -- and stops at the first that fails: the calls after it are not made.
    For a null kernel it makes none.  [execute_kernel] is the same with a
    block of one thread. *)
Theorem execute_warp_stops_at_first_failure :
  forall (TraceGPUInteraction : bool) (d : Driver) (dimX dimY dimZ kernel : Z)
         (ptxka : PTXKernelArguments) (p : Process),
    driver_calls
      (fst (execute_warp TraceGPUInteraction d dimX dimY dimZ kernel ptxka p))
    = driver_calls p
      ++ (if kernel =? NULL then []
          else until_failure failed d
                 (warp_plan dimX dimY dimZ kernel ptxka (_device_context p)))
    /\ driver_calls (fst (execute_kernel TraceGPUInteraction d kernel ptxka p))
       = driver_calls p
         ++ (if kernel =? NULL then []
             else until_failure failed d
                    (warp_plan 1 1 1 kernel ptxka (_device_context p))).
Proof.
  intros trace d dimX dimY dimZ kernel ptxka p.
  unfold execute_kernel.
  enough (H : forall dimX dimY dimZ,
             driver_calls
               (fst (execute_warp trace d dimX dimY dimZ kernel ptxka p))
             = driver_calls p
               ++ (if kernel =? NULL then []
                   else until_failure failed d
                          (warp_plan dimX dimY dimZ kernel ptxka
                             (_device_context p))))
    by (split; apply H).
  clear dimX dimY dimZ. intros dimX dimY dimZ.
  unfold execute_warp. cbv zeta.
  destruct (kernel =? NULL) eqn:HK.
  - step_body. rewrite app_nil_r. reflexivity.
  - unfold warp_plan, get_ret_type.
    destruct trace; destruct (_return_type ptxka); step_plan; step_body;
      repeat (case_status; step_body); finish_calls.
Qed.

(** X14. [execute_warp] returns true exactly when the kernel is not null
    and every call it has to make of the driver succeeds.  It then has put
    the value copied from the device into [ret], as a [jint] for an int and
    for a boolean, a [jfloat], a [jdouble] or a [jlong]; for void and for
    any other return type [ret] is as it was. *)
Theorem execute_warp_succeeds_iff :
  forall (TraceGPUInteraction : bool) (d : Driver) (dimX dimY dimZ kernel : Z)
         (ptxka : PTXKernelArguments) (p : Process),
    let run := execute_warp TraceGPUInteraction d dimX dimY dimZ kernel ptxka p in
    (snd run = true
     <-> kernel <> NULL
         /\ all_succeed failed d
              (warp_plan dimX dimY dimZ kernel ptxka (_device_context p)))
    /\ (snd run = true ->
        ret (fst run)
        = match warp_return_value d ptxka with
          | Some v => Some v
          | None => ret p
          end).
Proof.
  intros trace d dimX dimY dimZ kernel ptxka p. cbv zeta.
  destruct (kernel =? NULL) eqn:HK.
  - unfold execute_warp. cbv zeta. rewrite HK. step_body.
    apply Z.eqb_eq in HK.
    split; [split; [discriminate | tauto] | discriminate].
  - unfold warp_plan, warp_return_value, get_ret_type.
    destruct trace; destruct (_return_type ptxka) eqn:Htype;
      cbn [app fmap list_fmap warp_copy_sizes];
      rewrite ?all_succeed_cons, all_succeed_nil;
      unfold execute_warp, get_ret_type; cbv zeta; rewrite HK, Htype;
      step_body; repeat (case_status; step_body);
      cbn [ret log_line log_driver_call put_ret];
      apply Z.eqb_neq in HK;
      (split; [split; [intros H; try discriminate H; tauto
                      | intros (_ & H); decompose [and] H; try discriminate; reflexivity]
              | intros H; try discriminate H; reflexivity]).
Qed.

(** X15. [execute_kernel_from_vm] makes its calls of the driver in a fixed
    order -- allocate device memory for the return value unless its size
    is 0, launch, synchronise, copy the return value (the pointer width
    for an object, 8 bytes for any other size that is positive), free what
    was allocated, destroy the context -- and stops at the first that
    fails.  What it frees and what it copies from is the pointer that the
    allocation gave.  For a null kernel it makes no call. *)
Theorem execute_kernel_from_vm_stops_at_first_failure :
  forall (TraceGPUInteraction : bool) (d : Driver)
         (kernel buffer size encodedReturnTypeSize : Z) (p : Process),
    - 2 ^ 31 <= encodedReturnTypeSize < 2 ^ 31 ->
    driver_calls
      (fst (execute_kernel_from_vm TraceGPUInteraction d kernel buffer size
              encodedReturnTypeSize p))
    = driver_calls p
      ++ (if kernel =? 0 then []
          else until_failure failed d
                 (vm_plan d kernel encodedReturnTypeSize (_device_context p))).
Proof.
  intros trace d kernel buffer size enc p Hint.
  unfold execute_kernel_from_vm, vm_plan, device_return_value, returnTypeSize.
  cbv zeta.
  destruct (kernel =? 0) eqn:HK.
  - step_body. rewrite app_nil_r. reflexivity.
  - destruct (enc <? 0) eqn:Hneg; cbv iota.
    + apply Z.ltb_lt in Hneg. rewrite (negated_int_not_zero enc) by lia.
      destruct trace;
        cbn [until_failure app]; step_body;
        repeat (case_status; step_body); finish_calls.
    + destruct (enc =? 0) eqn:Hz; destruct (enc >? 0) eqn:Hpos;
        try (exfalso; apply Z.ltb_ge in Hneg; rewrite Z.gtb_ltb in Hpos;
             first [apply Z.eqb_eq in Hz; apply Z.ltb_lt in Hpos
                   | apply Z.eqb_neq in Hz; apply Z.ltb_ge in Hpos]; lia);
        destruct trace;
        cbn [until_failure app]; step_body;
        repeat (case_status; step_body); finish_calls.
Qed.

Lemma execute_kernel_from_vm_stops_at_first_failure_witness :
  driver_calls (fst (execute_kernel_from_vm false (Samples.device 3 0 15)
                       1000 2000 16 4 Samples.idle))
  = [cuMemAlloc 4; cuLaunchKernel 1000 1 1 1 1 1 1; cuCtxSynchronize;
     cuMemcpyDtoH 4096 8; cuMemFree 4096; cuCtxDestroy 77].
Proof.
  rewrite (execute_kernel_from_vm_stops_at_first_failure false
             (Samples.device 3 0 15) 1000 2000 16 4 Samples.idle); [|lia].
  reflexivity.
Defined.

(** X16. [execute_kernel_from_vm] posts an exception exactly when the
    kernel is null or a call of the driver fails, and then returns 0.
    When it posts none, it returns the 8 bytes copied from the device for
    a return value of positive size and 0 otherwise, and for an object it
    has handed what it copied to the thread as the VM result. *)
Theorem execute_kernel_from_vm_exception_iff :
  forall (TraceGPUInteraction : bool) (d : Driver)
         (kernel buffer size encodedReturnTypeSize : Z) (p : Process),
    - 2 ^ 31 <= encodedReturnTypeSize < 2 ^ 31 ->
    pending_exception p = None ->
    let run := execute_kernel_from_vm TraceGPUInteraction d kernel buffer size
                 encodedReturnTypeSize p in
    let ptr := device_return_value d encodedReturnTypeSize in
    (pending_exception (fst run) = None
     <-> kernel <> 0
         /\ all_succeed failed d
              (vm_plan d kernel encodedReturnTypeSize (_device_context p)))
    /\ (pending_exception (fst run) <> None -> snd run = 0)
    /\ (pending_exception (fst run) = None ->
        snd run
        = (if encodedReturnTypeSize >? 0
           then value (d (cuMemcpyDtoH ptr T_LONG_BYTE_SIZE))
           else 0)
        /\ vm_result (fst run)
           = (if encodedReturnTypeSize <? 0
              then Some (value (d (cuMemcpyDtoH ptr T_OBJECT_BYTE_SIZE)))
              else vm_result p)).
Proof.
  intros trace d kernel buffer size enc p Hint Hnone. cbv zeta.
  unfold vm_plan, device_return_value, returnTypeSize. cbv zeta.
  destruct (kernel =? 0) eqn:HK.
  - unfold execute_kernel_from_vm. cbv zeta. rewrite HK. step_body.
    apply Z.eqb_eq in HK.
    cbn [pending_exception post_exception log_line].
    split; [split; [discriminate | tauto]|]. split; [reflexivity | discriminate].
  - destruct (enc <? 0) eqn:Hneg; cbv iota.
    + assert (Hpos : (enc >? 0) = false)
        by (rewrite Z.gtb_ltb; apply Z.ltb_ge; apply Z.ltb_lt in Hneg; lia).
      assert (Hz : (Machine.to_int (- enc) =? 0) = false)
        by (apply negated_int_not_zero; apply Z.ltb_lt in Hneg; lia).
      rewrite Hpos, Hz.
      destruct trace;
        cbn [app]; rewrite ?all_succeed_cons, all_succeed_nil;
        unfold execute_kernel_from_vm; cbv zeta; rewrite HK, Hneg, Hz;
        step_body; repeat (case_status; step_body);
        cbn [pending_exception vm_result post_exception log_line log_driver_call
             log_store put_vm_result];
        rewrite ?Hnone; apply Z.eqb_neq in HK;
        (split; [split; [intros H; try discriminate H; tauto
                        | intros (_ & H); decompose [and] H; try discriminate; reflexivity]
                |split; [intros H; first [reflexivity | contradiction]
                        | intros H; try discriminate H; split; reflexivity]]).
    + destruct (enc =? 0) eqn:Hz; destruct (enc >? 0) eqn:Hpos;
        try (exfalso; apply Z.ltb_ge in Hneg; rewrite Z.gtb_ltb in Hpos;
             first [apply Z.eqb_eq in Hz; apply Z.ltb_lt in Hpos
                   | apply Z.eqb_neq in Hz; apply Z.ltb_ge in Hpos]; lia);
        destruct trace;
        cbn [app]; rewrite ?all_succeed_cons, all_succeed_nil;
        unfold execute_kernel_from_vm; cbv zeta; rewrite HK, Hneg, Hz, ?Hpos;
        step_body; repeat (case_status; step_body);
        cbn [pending_exception vm_result post_exception log_line log_driver_call
             log_store put_vm_result];
        rewrite ?Hnone; apply Z.eqb_neq in HK;
        (split; [split; [intros H; try discriminate H; tauto
                        | intros (_ & H); decompose [and] H; try discriminate; reflexivity]
                |split; [intros H; first [reflexivity | contradiction]
                        | intros H; try discriminate H; split; reflexivity]]).
Qed.

Lemma execute_kernel_from_vm_exception_iff_witness :
  snd (execute_kernel_from_vm false (Samples.device 3 0 15) 1000 2000 16 4
         Samples.idle) = 42
  /\ vm_result (fst (execute_kernel_from_vm false (Samples.device 3 0 15)
                       1000 2000 16 (-8) Samples.idle)) = Some 42.
Proof.
  destruct (execute_kernel_from_vm_exception_iff false (Samples.device 3 0 15)
              1000 2000 16 4 Samples.idle ltac:(lia) eq_refl) as (_ & _ & Hint).
  destruct (execute_kernel_from_vm_exception_iff false (Samples.device 3 0 15)
              1000 2000 16 (-8) Samples.idle ltac:(lia) eq_refl) as (_ & _ & Hobj).
  split; [apply Hint | apply Hobj]; reflexivity.
Defined.

(** X17. Where [execute_kernel_from_vm] puts the device pointer of the
    return value.  After a successful allocation it stores the pointer at
    the buffer address plus [size - sizeof(CUdeviceptr)] counted in
    elements of [sizeof(CUdeviceptr)] bytes, the cast to [CUdeviceptr*]
    being applied to the buffer address before the offset is added.  That
    store lies within the [size] bytes of the buffer only when [size] is
    [sizeof(CUdeviceptr)]; it is the only store made, and none is made for
    a null kernel, for a return value of size 0 or when the allocation
    fails. *)
Theorem return_pointer_store :
  forall (TraceGPUInteraction : bool) (d : Driver)
         (kernel buffer size encodedReturnTypeSize : Z) (p : Process),
    - 2 ^ 31 <= encodedReturnTypeSize < 2 ^ 31 ->
    let run := execute_kernel_from_vm TraceGPUInteraction d kernel buffer size
                 encodedReturnTypeSize p in
    let returnValuePtr :=
      buffer + sizeof_CUdeviceptr * (size - sizeof_CUdeviceptr) in
    host_stores (fst run)
    = host_stores p
      ++ (if (kernel =? 0) || (encodedReturnTypeSize =? 0)
             || failed (d (cuMemAlloc (returnTypeSize encodedReturnTypeSize)))
          then []
          else [(returnValuePtr, device_return_value d encodedReturnTypeSize)])
    /\ (buffer <= returnValuePtr
        /\ returnValuePtr + sizeof_CUdeviceptr <= buffer + size
        <-> size = sizeof_CUdeviceptr).
Proof.
  intros trace d kernel buffer size enc p Hint. cbv zeta.
  split; [|unfold sizeof_CUdeviceptr; lia].
  unfold execute_kernel_from_vm, device_return_value, returnTypeSize. cbv zeta.
  replace (buffer + (size - sizeof_CUdeviceptr) * sizeof_CUdeviceptr)
    with (buffer + sizeof_CUdeviceptr * (size - sizeof_CUdeviceptr)) by lia.
  destruct (kernel =? 0) eqn:HK.
  - step_body. rewrite app_nil_r. reflexivity.
  - cbn [orb]. destruct (enc <? 0) eqn:Hneg; cbv iota.
    + apply Z.ltb_lt in Hneg. rewrite (negated_int_not_zero enc) by lia.
      replace (enc =? 0) with false by (symmetry; apply Z.eqb_neq; lia).
      cbn [orb]. destruct trace;
        step_body; repeat (case_status; step_body);
        cbn [host_stores log_line log_driver_call log_store post_exception
             put_vm_result];
        rewrite ?app_nil_r; reflexivity.
    + destruct (enc =? 0) eqn:Hz; cbn [orb]; destruct (enc >? 0) eqn:Hpos;
        destruct trace;
        step_body; repeat (case_status; step_body);
        cbn [host_stores log_line log_driver_call log_store post_exception
             put_vm_result];
        rewrite ?app_nil_r; reflexivity.
Qed.

Lemma return_pointer_store_witness :
  host_stores (fst (execute_kernel_from_vm false (Samples.device 3 0 15)
                      1000 2000 16 4 Samples.idle))
  = [(2064, 4096)]
  /\ ~ (2064 + 8 <= 2000 + 16).
Proof.
  destruct (return_pointer_store false (Samples.device 3 0 15) 1000 2000 16 4
              Samples.idle) as [Hstore Hbounds]; [lia|].
  split; [rewrite Hstore; reflexivity | lia].
Defined.

(** [ncores] returns to its caller, having called nothing. *)
Lemma ncores_goes_on {R} major minor (p : Process) :
  exists p' cores,
    ncores (R := R) major minor p = (p', inr cores)
    /\ driver_calls p' = driver_calls p
    /\ _cu_device p' = _cu_device p
    /\ exists printed, tty p' = tty p ++ printed.
Proof.
  rewrite ncores_switch. cbv zeta.
  repeat match goal with
         | |- context [if ?c then _ else _] => destruct c
         end;
    eexists _, _; (split; [reflexivity|]); (split; [reflexivity|]);
    (split; [reflexivity|]);
    first [exists []; rewrite app_nil_r; reflexivity | eexists; reflexivity].
Qed.

Ltac step_ncores :=
  match goal with
  | |- context [ncores ?major ?minor ?s] =>
      let p' := fresh "p'" in
      let cores := fresh "cores" in
      let Heq := fresh "Hncores" in
      let Hcalls := fresh "Hcalls" in
      let Hdev := fresh "Hdev" in
      let Htty := fresh "Htty" in
      destruct (ncores_goes_on (R := Z) major minor s)
        as (p' & cores & Heq & Hcalls & Hdev & Htty);
      rewrite Heq; cbn [driver_calls log_driver_call _cu_device] in Hcalls, Hdev
  end.

(** X18. [total_cores] asks for eight attributes of the device in a fixed
    order -- minor and major compute capability, number of
    multiprocessors, maximal threads per block, warp size, number of
    asynchronous engines, whether host memory can be mapped, whether
    kernels run concurrently -- and stops at the first query that fails,
    returning 0. *)
Theorem total_cores_stops_at_first_failure :
  forall (TraceGPUInteraction : bool) (d : Driver) (p : Process),
    driver_calls (fst (total_cores TraceGPUInteraction d p))
    = driver_calls p
      ++ until_failure failed d (attribute_queries (_cu_device p))
    /\ (~ all_succeed failed d (attribute_queries (_cu_device p)) ->
        snd (total_cores TraceGPUInteraction d p) = 0).
Proof.
  intros trace d p.
  unfold attribute_queries. cbn [fmap list_fmap until_failure].
  rewrite ?all_succeed_cons, all_succeed_nil.
  unfold total_cores, get_attribute_or_return_0.
  destruct trace; step_body;
    do 3 (case_status; step_body; [|split; [finish_calls | reflexivity]]);
    step_ncores; step_body; rewrite ?Hdev;
    repeat (case_status; step_body; rewrite ?Hdev;
            [|split; [cbn [driver_calls log_line log_driver_call]; rewrite Hcalls;
                      rewrite <- ?app_assoc; reflexivity
                     | reflexivity]]);
    (split; [cbn [driver_calls log_line log_driver_call]; rewrite Hcalls;
             rewrite <- ?app_assoc; reflexivity
            | intros H; exfalso; apply H; repeat split]).
Qed.

(** X19. A refused query for the number of asynchronous engines is
    reported as a refused query for the warp size: when the five queries
    before it succeed and it fails, [total_cores] returns 0 and the last
    line on the terminal is the one that names
    GRAAL_CU_DEVICE_ATTRIBUTE_WARP_SIZE, with the device. *)
Theorem refused_async_engine_query_names_warp_size :
  forall (TraceGPUInteraction : bool) (d : Driver) (p : Process),
    (forall attrib,
        In attrib [COMPUTE_CAPABILITY_MINOR; COMPUTE_CAPABILITY_MAJOR;
                   MULTIPROCESSOR_COUNT; MAX_THREADS_PER_BLOCK; WARP_SIZE] ->
        status (d (cuDeviceGetAttribute attrib (_cu_device p)))
        = GRAAL_CUDA_SUCCESS) ->
    status (d (cuDeviceGetAttribute ASYNC_ENGINE_COUNT (_cu_device p)))
    <> GRAAL_CUDA_SUCCESS ->
    snd (total_cores TraceGPUInteraction d p) = 0
    /\ last (tty (fst (total_cores TraceGPUInteraction d p)))
       = Some {| format := "[CUDA] Failed to get GRAAL_CU_DEVICE_ATTRIBUTE_WARP_SIZE: %d";
                 args := [_cu_device p] |}.
Proof.
  intros trace d p Hok Hfail.
  assert (Hb : forall attrib,
             In attrib [COMPUTE_CAPABILITY_MINOR; COMPUTE_CAPABILITY_MAJOR;
                        MULTIPROCESSOR_COUNT; MAX_THREADS_PER_BLOCK; WARP_SIZE] ->
             (status (d (cuDeviceGetAttribute attrib (_cu_device p)))
              =? GRAAL_CUDA_SUCCESS) = true)
    by (intros attrib Hin; apply Z.eqb_eq, Hok, Hin).
  apply Z.eqb_neq in Hfail.
  unfold total_cores, get_attribute_or_return_0.
  step_body. rewrite (Hb COMPUTE_CAPABILITY_MINOR) by (cbn; tauto).
  step_body. rewrite (Hb COMPUTE_CAPABILITY_MAJOR) by (cbn; tauto).
  step_body. rewrite (Hb MULTIPROCESSOR_COUNT) by (cbn; tauto).
  step_body. step_ncores.
  step_body. rewrite ?Hdev. rewrite (Hb MAX_THREADS_PER_BLOCK) by (cbn; tauto).
  step_body. rewrite ?Hdev. rewrite (Hb WARP_SIZE) by (cbn; tauto).
  step_body. rewrite ?Hdev. rewrite Hfail.
  step_body. split; [reflexivity|].
  cbn [tty log_line log_driver_call]. apply last_snoc.
Qed.

Lemma refused_async_engine_query_names_warp_size_witness :
  snd (total_cores false Scenarios.without_async_engines Samples.idle) = 0
  /\ last (tty (fst (total_cores false Scenarios.without_async_engines Samples.idle)))
     = Some {| format := "[CUDA] Failed to get GRAAL_CU_DEVICE_ATTRIBUTE_WARP_SIZE: %d";
               args := [0] |}.
Proof.
  apply (refused_async_engine_query_names_warp_size false
           Scenarios.without_async_engines Samples.idle).
  - intros attrib Hin. cbn in Hin.
    destruct Hin as [<-|[<-|[<-|[<-|[<-|[]]]]]]; reflexivity.
  - discriminate.
Defined.
End DriverProperties.

(** ** Finding the device and compiling a kernel *)

Module SetupProperties.
Import PtxSetup DriverNotions SetupNotions MachineFacts.

Ltac step_setup :=
  cbv beta iota zeta delta
    [mbind Body_bind mret Body_ret when call print_cr modify read return_
     run_body fst snd negb failed];
  cbn [_device_context _cu_device driver_calls tty
       log_line log_driver_call set_cu_device set_device_context].

Ltac case_call :=
  match goal with
  | |- context [status (?d ?c) =? GRAAL_CUDA_SUCCESS] =>
      destruct (status (d c) =? GRAAL_CUDA_SUCCESS) eqn:?
  end.

Ltac finish_setup_calls := rewrite <- ?app_assoc; reflexivity.

(** X20. [initialize_gpu] initialises the driver, counts the devices
    and, unless there is none, gets the device of ordinal 0, queries its
    unified addressing and gets its name, in this order, stopping at the
    first call that fails.  It returns true exactly when there is a device
    and every call succeeds; [_cu_device] is then the device of ordinal 0.
    No device other than that of ordinal 0 is ever asked for, and the
    context is not touched. *)
Theorem initialize_gpu_succeeds_iff :
  forall (TraceGPUInteraction : bool) (d : Driver)
         (unified_addressing0 : Z) (device_name0 : string) (s : Session),
    let run := initialize_gpu TraceGPUInteraction d unified_addressing0
                 device_name0 s in
    driver_calls (fst run)
    = driver_calls s ++ until_failure failed d (initialize_plan d s)
    /\ (snd run = true
        <-> device_count d <> 0 /\ all_succeed failed d (initialize_plan d s))
    /\ (snd run = true -> _cu_device (fst run) = selected_device d s)
    /\ _device_context (fst run) = _device_context s.
Proof.
  intros trace d ua0 name0 s. cbv zeta.
  unfold initialize_plan, selected_device, device_count.
  destruct (number_in 0 (d cuDeviceGetCount) =? 0) eqn:Hcount;
    cbn [app until_failure];
    unfold all_succeed; rewrite ?Forall_cons, Forall_nil;
    unfold initialize_gpu; cbv zeta;
    destruct trace; step_setup;
    repeat (first [rewrite Hcount | case_call]; step_setup);
    first [apply Z.eqb_eq in Hcount | apply Z.eqb_neq in Hcount];
    (split; [finish_setup_calls|]);
    (split; [split; [intros H; try discriminate H; tauto
                    | intros (? & H); decompose [and] H;
                      first [contradiction | discriminate | reflexivity]]
            |split; [intros H; try discriminate H; reflexivity | reflexivity]]).
Qed.

(** X21. On a machine without a device [initialize_gpu] fails after two
    calls.  When the driver is initialised and the count of devices
    succeeds with a count of 0 -- or without storing a count, the variable
    being 0 from the start -- the function returns false, has called
    nothing but [cuInit] and [cuDeviceGetCount], has left [_cu_device] as
    it was, and the last line on the terminal says that no device was
    found. *)
Theorem initialize_gpu_without_device :
  forall (TraceGPUInteraction : bool) (d : Driver)
         (unified_addressing0 : Z) (device_name0 : string) (s : Session),
    status (d (cuInit 0)) = GRAAL_CUDA_SUCCESS ->
    status (d cuDeviceGetCount) = GRAAL_CUDA_SUCCESS ->
    device_count d = 0 ->
    let run := initialize_gpu TraceGPUInteraction d unified_addressing0
                 device_name0 s in
    snd run = false
    /\ driver_calls (fst run) = driver_calls s ++ [cuInit 0; cuDeviceGetCount]
    /\ _cu_device (fst run) = _cu_device s
    /\ last (tty (fst run)) = Some no_device_line.
Proof.
  intros trace d ua0 name0 s Hinit Hcount Hzero. cbv zeta.
  unfold device_count in Hzero.
  apply Z.eqb_eq in Hinit, Hcount, Hzero.
  unfold initialize_gpu. cbv zeta.
  destruct trace; step_setup; rewrite Hinit; step_setup; rewrite Hcount;
    step_setup; rewrite Hzero; step_setup;
    (split; [reflexivity|]); (split; [finish_setup_calls|]);
    (split; [reflexivity|]); apply last_snoc.
Qed.

Lemma initialize_gpu_without_device_witness :
  snd (initialize_gpu false SetupScenarios.no_device 0 ""
         SetupScenarios.fresh_session) = false
  /\ driver_calls (fst (initialize_gpu false SetupScenarios.no_device 0 ""
                          SetupScenarios.fresh_session))
     = [cuInit 0; cuDeviceGetCount].
Proof.
  destruct (initialize_gpu_without_device false SetupScenarios.no_device 0 ""
              SetupScenarios.fresh_session eq_refl eq_refl eq_refl)
    as (Hresult & Hcalls & _).
  split; [exact Hresult | exact Hcalls].
Defined.

(** X22. [generate_kernel] creates a context on the device with the flag
    GRAAL_CU_CTX_MAP_HOST, makes it current, loads the module with three
    options for the compiler (a log buffer of 1024 bytes, the log buffer,
    at most 32 registers) and gets the function of the given name from the
    module loaded, in this order, stopping at the first call that fails.
    When every call succeeds it returns what the driver stored as the
    function; otherwise it returns [NULL].  [_device_context] is whatever
    the creation left in it, also when a later call fails; [_cu_device] is
    as it was. *)
Theorem generate_kernel_stops_at_first_failure :
  forall (GRAAL_CUDA_ERROR_NO_BINARY_FOR_GPU : Z) (TraceGPUInteraction : bool)
         (d : Driver) (jit_log_buffer cu_module0 cu_function0 : Z)
         (code : string) (code_len : Z) (name : string) (s : Session),
    let run := generate_kernel GRAAL_CUDA_ERROR_NO_BINARY_FOR_GPU
                 TraceGPUInteraction d jit_log_buffer cu_module0 cu_function0
                 code code_len name s in
    let plan := generate_plan d s jit_log_buffer cu_module0 code name in
    driver_calls (fst run) = driver_calls s ++ until_failure failed d plan
    /\ (all_succeed failed d plan ->
        snd run
        = number_in cu_function0
            (d (cuModuleGetFunction
                  (loaded_module d jit_log_buffer cu_module0 code) name)))
    /\ (~ all_succeed failed d plan -> snd run = NULL)
    /\ _device_context (fst run) = created_context d s
    /\ _cu_device (fst run) = _cu_device s.
Proof.
  intros nobin trace d buf module0 function0 code code_len name s. cbv zeta.
  unfold generate_plan, loaded_module, load_module, created_context.
  cbn [until_failure].
  unfold all_succeed; rewrite ?Forall_cons, Forall_nil.
  unfold generate_kernel. cbv zeta.
  change (Machine.to_size_t 1024) with 1024. change (Machine.to_size_t 32) with 32.
  destruct trace; step_setup; repeat (case_call; step_setup);
    try (destruct (_ =? nobin); step_setup);
    (split; [finish_setup_calls|]);
    (split; [intros H; decompose [and] H; first [discriminate | reflexivity]|]);
    (split; [intros H; first [reflexivity | exfalso; apply H; repeat split]|]);
    split; reflexivity.
Qed.

(** X23. How [generate_kernel] reports a module that cannot be loaded.
    When the context is created and made current and loading the module
    fails, the function returns [NULL]; the last line on the terminal gives
    the status and the name of the method, and the line before it is the
    hint at a malformed kernel exactly when the status is
    GRAAL_CUDA_ERROR_NO_BINARY_FOR_GPU. *)
Theorem generate_kernel_reports_load_failure :
  forall (GRAAL_CUDA_ERROR_NO_BINARY_FOR_GPU : Z) (TraceGPUInteraction : bool)
         (d : Driver) (jit_log_buffer cu_module0 cu_function0 : Z)
         (code : string) (code_len : Z) (name : string) (s : Session),
    let run := generate_kernel GRAAL_CUDA_ERROR_NO_BINARY_FOR_GPU
                 TraceGPUInteraction d jit_log_buffer cu_module0 cu_function0
                 code code_len name s in
    let load := d (load_module jit_log_buffer code) in
    status (d (cuCtxCreate GRAAL_CU_CTX_MAP_HOST (_cu_device s)))
    = GRAAL_CUDA_SUCCESS ->
    status (d (cuCtxSetCurrent (created_context d s))) = GRAAL_CUDA_SUCCESS ->
    status load <> GRAAL_CUDA_SUCCESS ->
    snd run = NULL
    /\ exists printed,
         tty (fst run)
         = tty s ++ printed
           ++ (if status load =? GRAAL_CUDA_ERROR_NO_BINARY_FOR_GPU
               then [malformed_kernel_hint] else [])
           ++ [load_failure_line (status load) name]
         /\ ~ In malformed_kernel_hint printed.
Proof.
  intros nobin trace d buf module0 function0 code code_len name s. cbv zeta.
  unfold load_module, created_context. intros Hcreate Hcurrent Hload.
  apply Z.eqb_eq in Hcreate, Hcurrent. apply Z.eqb_neq in Hload.
  unfold generate_kernel. cbv zeta.
  change (Machine.to_size_t 1024) with 1024. change (Machine.to_size_t 32) with 32.
  destruct trace; step_setup; rewrite Hcreate; step_setup; rewrite Hcurrent;
    step_setup; rewrite Hload; step_setup;
    destruct (_ =? nobin); step_setup;
    (split; [reflexivity|]);
    rewrite <- ?app_assoc; cbn [app];
    first [exists []; split; [reflexivity | intros []]
          | eexists [_; _; _; _]; split; [reflexivity|];
            unfold malformed_kernel_hint; cbn [In]; intros H;
            decompose [or] H; first [discriminate | contradiction]].
Qed.

Lemma generate_kernel_reports_load_failure_witness :
  snd (generate_kernel 209 false SetupScenarios.no_binary 3000 0 0
         "kernel text" 11 "run" SetupScenarios.fresh_session) = NULL
  /\ tty (fst (generate_kernel 209 false SetupScenarios.no_binary 3000 0 0
                 "kernel text" 11 "run" SetupScenarios.fresh_session))
     = [malformed_kernel_hint; load_failure_line 209 "run"].
Proof.
  destruct (generate_kernel_reports_load_failure 209 false
              SetupScenarios.no_binary 3000 0 0 "kernel text" 11 "run"
              SetupScenarios.fresh_session)
    as (Hresult & printed & Htty & _);
    [reflexivity | reflexivity | discriminate |].
  split; [exact Hresult | reflexivity].
Defined.
End SetupProperties.

(** ** The table of entry points *)

Module LinkageProperties.
Import Ptx PtxNotions LinkageNotions PtxProperties.

(** [probe_linkage], with a library that opens, is the run down the table
    of symbols. *)
Lemma probe_linkage_by_table trace b l k :
  dll_load l (cuda_library_name b) <> NULL ->
  probe_linkage trace b l k
  = let handle := dll_load l (cuda_library_name b) in
    let '(k', found) :=
      lookup_each l handle (symbol_table b) (log_load (cuda_library_name b) k) in
    (if found && trace then log_message "[CUDA] Success: library linkage" "" k' else k',
     found).
Proof.
  intros Hopen. apply Z.eqb_neq in Hopen.
  unfold probe_linkage, array_is_NULL, symbol_table, required_symbols,
    entry_point_variables, lookup_failure, bind_symbol.
  rewrite Hopen. cbv zeta.
  destruct (amd64 b); destruct trace;
    cbn [zip zip_with fmap list_fmap app lookup_each fst snd];
    unfold bind_symbol, lookup_failure; cbn [fst snd andb];
    step_linkage; cbv beta iota delta [String.append];
    repeat (case_lookup; [reflexivity|]);
    reflexivity.
Qed.

Lemma lookup_each_found l h : forall table k,
  Forall (fun entry => resolves l h entry.1) table ->
  lookup_each l h table k = (foldl (bind_symbol l h) k table, true).
Proof.
  induction table as [|entry rest IH]; intros k Hall; [reflexivity|].
  apply Forall_cons in Hall as [Hentry Hrest].
  cbn [lookup_each foldl]. apply Z.eqb_neq in Hentry. rewrite Hentry.
  apply IH, Hrest.
Qed.

Lemma lookup_each_true l h : forall table k,
  snd (lookup_each l h table k) = true ->
  Forall (fun entry => resolves l h entry.1) table.
Proof.
  induction table as [|entry rest IH]; intros k Hfound; [constructor|].
  cbn [lookup_each] in Hfound.
  destruct (dll_lookup l h entry.1 =? NULL) eqn:Hentry; [discriminate Hfound|].
  constructor; [apply Z.eqb_neq, Hentry | eapply IH, Hfound].
Qed.

Lemma lookup_each_first_missing l h : forall found entry rest k,
  Forall (fun entry => resolves l h entry.1) found ->
  dll_lookup l h entry.1 = NULL ->
  lookup_each l h (found ++ entry :: rest) k
  = (log_message lookup_failure entry.1
       (bind_symbol l h (foldl (bind_symbol l h) k found) entry),
     false).
Proof.
  induction found as [|e found IH]; intros entry rest k Hall Hmissing.
  - cbn [app lookup_each foldl]. apply Z.eqb_eq in Hmissing. rewrite Hmissing.
    reflexivity.
  - apply Forall_cons in Hall as [He Hfound].
    cbn [app lookup_each foldl]. apply Z.eqb_neq in He. rewrite He.
    apply IH; assumption.
Qed.

Lemma loads_lines_foldl_bind l h : forall table k,
  loads (foldl (bind_symbol l h) k table) = loads k
  /\ lines (foldl (bind_symbol l h) k table) = lines k.
Proof.
  induction table as [|entry rest IH]; intros k; [split; reflexivity|].
  cbn [foldl]. destruct (IH (bind_symbol l h k entry)) as [-> ->].
  split; reflexivity.
Qed.

(** A variable that the table does not name keeps what it held. *)
Lemma entry_point_untouched l h variable : forall table k,
  variable ∉ table.*2 ->
  entry_points (foldl (bind_symbol l h) k table) !! variable
  = entry_points k !! variable.
Proof.
  induction table as [|entry rest IH]; intros k Hnotin; [reflexivity|].
  rewrite fmap_cons in Hnotin. apply not_elem_of_cons in Hnotin as [Hne Hrest].
  cbn [foldl]. rewrite IH by exact Hrest.
  unfold bind_symbol, assign. cbn [entry_points].
  apply lookup_insert_ne. congruence.
Qed.

(** A variable of the table holds what was found for its symbol. *)
Lemma entry_point_bound l h name variable : forall table k,
  NoDup table.*2 ->
  (name, variable) ∈ table ->
  entry_points (foldl (bind_symbol l h) k table) !! variable
  = Some (dll_lookup l h name).
Proof.
  induction table as [|entry rest IH]; intros k Hnd Hin; [by apply elem_of_nil in Hin|].
  rewrite fmap_cons in Hnd. apply NoDup_cons in Hnd as [Hfresh Hnd].
  cbn [foldl]. apply elem_of_cons in Hin as [<-|Hin].
  - rewrite entry_point_untouched by exact Hfresh.
    unfold bind_symbol, assign. cbn [entry_points fst snd].
    apply lookup_insert_eq.
  - apply IH; assumption.
Qed.

Lemma required_symbols_length b : length (required_symbols b) = 20%nat.
Proof. unfold required_symbols. destruct (amd64 b); reflexivity. Qed.

Lemma entry_point_variables_length : length entry_point_variables = 20%nat.
Proof. reflexivity. Qed.

Lemma entry_point_variables_NoDup : NoDup entry_point_variables.
Proof. apply (bool_decide_unpack _). vm_compute. exact I. Qed.

Lemma symbol_table_fst b : (symbol_table b).*1 = required_symbols b.
Proof.
  apply fst_zip. rewrite required_symbols_length, entry_point_variables_length. lia.
Qed.

Lemma symbol_table_snd b : (symbol_table b).*2 = entry_point_variables.
Proof.
  apply snd_zip. rewrite required_symbols_length, entry_point_variables_length. lia.
Qed.

Lemma symbol_table_lookup b i name variable :
  required_symbols b !! i = Some name ->
  entry_point_variables !! i = Some variable ->
  symbol_table b !! i = Some (name, variable).
Proof.
  intros Hname Hvariable. unfold symbol_table.
  apply lookup_zip_with_Some. exists name, variable. done.
Qed.

Lemma symbol_table_resolves l h b n :
  Forall (resolves l h) (take n (required_symbols b))
  <-> Forall (fun entry => resolves l h entry.1) (take n (symbol_table b)).
Proof.
  rewrite <- symbol_table_fst, <- fmap_take, Forall_fmap. reflexivity.
Qed.

(** X24. [probe_linkage] returns true exactly when the library opens and
    every one of the twenty symbols is found in it.  Each static then
    holds what was found for its symbol -- for the seven entry points that
    have a second version on 64-bit x86, what was found under the name
    ending in [_v2] -- the library was asked for once, by its name, and
    nothing was printed but, under [TraceGPUInteraction], the line that
    reports the linkage. *)
Theorem probe_linkage_succeeds_iff :
  forall (TraceGPUInteraction : bool) (b : Build) (l : Loader) (k : Linkage),
    let handle := dll_load l (cuda_library_name b) in
    let run := probe_linkage TraceGPUInteraction b l k in
    (snd run = true
     <-> handle <> NULL /\ Forall (resolves l handle) (required_symbols b))
    /\ (snd run = true ->
        (forall i name variable,
            required_symbols b !! i = Some name ->
            entry_point_variables !! i = Some variable ->
            entry_points (fst run) !! variable = Some (dll_lookup l handle name))
        /\ loads (fst run) = loads k ++ [cuda_library_name b]
        /\ lines (fst run)
           = lines k
             ++ (if TraceGPUInteraction
                 then [("[CUDA] Success: library linkage", "")] else [])).
Proof.
  intros trace b l k handle run. subst run handle.
  destruct (decide (dll_load l (cuda_library_name b) = NULL)) as [Hnull|Hopen].
  { rewrite (probe_linkage_cannot_open trace b l k Hnull). cbn [fst snd].
    split; [split; [discriminate | tauto] | discriminate]. }
  rewrite (probe_linkage_by_table trace b l k Hopen). cbv zeta.
  set (handle := dll_load l (cuda_library_name b)) in *. clearbody handle.
  pose proof (symbol_table_resolves l handle b 20) as Hall.
  rewrite <- (required_symbols_length b), firstn_all in Hall at 1.
  assert (Hlen : length (symbol_table b) = 20%nat)
    by (rewrite <- (length_fmap fst), symbol_table_fst; apply required_symbols_length).
  rewrite <- Hlen, firstn_all in Hall.
  destruct (lookup_each l handle (symbol_table b) (log_load (cuda_library_name b) k))
    as [k' found] eqn:Hrun.
  cbn [fst snd]. split.
  - split.
    + intros ->. split; [exact Hopen|]. apply Hall.
      eapply (lookup_each_true l handle (symbol_table b)). rewrite Hrun. reflexivity.
    + intros [_ Hfound]. apply Hall in Hfound.
      rewrite (lookup_each_found l handle _ _ Hfound) in Hrun. congruence.
  - intros ->. cbn [andb].
    assert (Hfound : Forall (fun entry => resolves l handle entry.1) (symbol_table b)).
    { eapply (lookup_each_true l handle (symbol_table b)). rewrite Hrun. reflexivity. }
    pose proof (lookup_each_found l handle _ (log_load (cuda_library_name b) k) Hfound)
      as Hk'.
    rewrite Hrun in Hk'.
    destruct (loads_lines_foldl_bind l handle (symbol_table b)
                (log_load (cuda_library_name b) k)) as [Hloads Hlines].
    assert (Hbound : forall i name variable,
              required_symbols b !! i = Some name ->
              entry_point_variables !! i = Some variable ->
              entry_points
                (foldl (bind_symbol l handle) (log_load (cuda_library_name b) k)
                   (symbol_table b)) !! variable
              = Some (dll_lookup l handle name)).
    { intros i name variable Hname Hvariable. apply entry_point_bound.
      - rewrite symbol_table_snd. apply entry_point_variables_NoDup.
      - apply list_elem_of_lookup. exists i.
        apply symbol_table_lookup; assumption. }
    set (k1 := foldl (bind_symbol l handle) (log_load (cuda_library_name b) k)
                 (symbol_table b)) in *.
    clearbody k1. assert (k' = k1) as -> by congruence.
    destruct trace; cbn [entry_points loads lines log_message];
      rewrite Hloads, Hlines; cbn [loads lines log_load]; rewrite ?app_nil_r;
      (split; [exact Hbound | split; reflexivity]).
Qed.

(** X25. Where [probe_linkage] stops.  When the library opens and a
    symbol is not found while those before it are, the function returns
    false and the one line printed names that symbol.  The statics of the
    symbols before it hold what was found, the static of the missing
    symbol has been assigned [NULL], and the statics of the symbols after
    it hold what they held before the call. *)
Theorem probe_linkage_first_missing_symbol :
  forall (TraceGPUInteraction : bool) (b : Build) (l : Loader) (k : Linkage)
         (n : nat) (name : string),
    let handle := dll_load l (cuda_library_name b) in
    let run := probe_linkage TraceGPUInteraction b l k in
    handle <> NULL ->
    required_symbols b !! n = Some name ->
    Forall (resolves l handle) (take n (required_symbols b)) ->
    dll_lookup l handle name = NULL ->
    snd run = false
    /\ lines (fst run) = lines k ++ [(lookup_failure, name)]
    /\ (forall i name' variable,
          (i < n)%nat ->
          required_symbols b !! i = Some name' ->
          entry_point_variables !! i = Some variable ->
          entry_points (fst run) !! variable = Some (dll_lookup l handle name'))
    /\ (forall variable,
          entry_point_variables !! n = Some variable ->
          entry_points (fst run) !! variable = Some NULL)
    /\ (forall i variable,
          (n < i)%nat ->
          entry_point_variables !! i = Some variable ->
          entry_points (fst run) !! variable = entry_points k !! variable).
Proof.
  intros trace b l k n name handle run Hopen Hname Hbefore Hmissing.
  subst run handle.
  rewrite (probe_linkage_by_table trace b l k Hopen). cbv zeta.
  set (handle := dll_load l (cuda_library_name b)) in *. clearbody handle.
  assert (Hn : (n < 20)%nat)
    by (rewrite <- (required_symbols_length b); eapply lookup_lt_Some, Hname).
  destruct (lookup_lt_is_Some_2 entry_point_variables n) as [missing Hvariable];
    [rewrite entry_point_variables_length; exact Hn|].
  pose proof (symbol_table_lookup b n name missing Hname Hvariable) as Hentry.
  apply symbol_table_resolves in Hbefore.
  rewrite <- (take_drop_middle _ _ _ Hentry).
  rewrite (lookup_each_first_missing l handle _ (name, missing) _ _ Hbefore Hmissing).
  cbn [fst snd andb].
  set (before := take n (symbol_table b)) in *.
  assert (Hvars : before.*2 = take n entry_point_variables)
    by (subst before; rewrite fmap_take, symbol_table_snd; reflexivity).
  destruct (loads_lines_foldl_bind l handle before (log_load (cuda_library_name b) k))
    as [_ Hlines].
  pose proof (entry_point_bound l handle) as Hbound.
  pose proof (entry_point_untouched l handle) as Huntouched.
  specialize (Hbound) with (table := before) (k := log_load (cuda_library_name b) k).
  specialize (Huntouched) with (table := before) (k := log_load (cuda_library_name b) k).
  set (k1 := foldl (bind_symbol l handle) (log_load (cuda_library_name b) k) before)
    in *.
  clearbody k1.
  unfold bind_symbol. cbn [entry_points lines log_message assign fst snd].
  rewrite Hmissing, Hlines. cbn [lines entry_points log_load] in *.
  split; [reflexivity|]. split; [reflexivity|].
  split; [|split].
  - intros i name' variable Hi Hname' Hvariable'.
    rewrite lookup_insert_ne.
    + apply Hbound.
      * rewrite Hvars.
        apply (sublist_NoDup _ _ entry_point_variables_NoDup), sublist_take.
      * unfold before. apply elem_of_take. exists i. split; [|exact Hi].
        apply symbol_table_lookup; assumption.
    + intros ->.
      pose proof (NoDup_lookup _ _ _ _ entry_point_variables_NoDup Hvariable Hvariable').
      lia.
  - intros variable Hvariable'. rewrite Hvariable in Hvariable'.
    injection Hvariable' as <-. apply lookup_insert_eq.
  - intros i variable Hi Hvariable'.
    rewrite lookup_insert_ne.
    + apply Huntouched.
      rewrite Hvars. intros Hin. apply elem_of_take in Hin as (j & Hj & Hlt).
      pose proof (NoDup_lookup _ _ _ _ entry_point_variables_NoDup Hj Hvariable').
      lia.
    + intros ->.
      pose proof (NoDup_lookup _ _ _ _ entry_point_variables_NoDup Hvariable Hvariable').
      lia.
Qed.

Lemma probe_linkage_first_missing_symbol_witness :
  snd (probe_linkage false {| os := LINUX; amd64 := true |}
         Samples.loader_without_launch Samples.unlinked) = false
  /\ lines (fst (probe_linkage false {| os := LINUX; amd64 := true |}
                   Samples.loader_without_launch Samples.unlinked))
     = [(lookup_failure, "cuLaunchKernel")]
  /\ entry_points (fst (probe_linkage false {| os := LINUX; amd64 := true |}
                          Samples.loader_without_launch Samples.unlinked))
       !! "_cuda_cu_launch_kernel" = Some NULL.
Proof.
  destruct (probe_linkage_first_missing_symbol false {| os := LINUX; amd64 := true |}
              Samples.loader_without_launch Samples.unlinked 10 "cuLaunchKernel")
    as (Hresult & Hlines & _ & Hmissing & _).
  - discriminate.
  - reflexivity.
  - repeat constructor; discriminate.
  - reflexivity.
  - split; [exact Hresult|]. split; [exact Hlines|].
    apply Hmissing. reflexivity.
Defined.
End LinkageProperties.
